(** * Reconciliation and fuzzy-match engine: a shallow embedding

    This development embeds the reconciliation core of the repository
    (annual_report_ai/data_validator.py,
    annual_report_ai/financial_reconciliation.py,
    valuation_ai/ai_analyzer.py, product_design_ai/case_retriever.py and
    settlement_ai/ai_analyzer.py) and states its behaviour as theorems.

    Conventions of the embedding:
    - a Python [str] is the list of its Unicode code points ([pystr]);
      string literals of this file are UTF-8 and go through [u];
    - a Python [float] is a binary64 primitive float, so arithmetic and
      comparisons round exactly as CPython's do;
    - [None] is [option]'s [None]; a raised exception is [Raise] of the
      monad [py], and [try]/[except] is [try_except];
    - a pandas DataFrame is a header plus rows of already stringified
      cells; a dict iterated in insertion order is an association list,
      a dict only looked up by key is a [gmap]. *)

From Stdlib Require Import ZArith NArith List Bool Lia String Ascii Sorting.Sorted Sorting.Permutation.
From Stdlib Require Import Floats.PrimFloat Floats.FloatOps Floats.SpecFloat Floats.FloatAxioms.
From stdpp Require Import base option list gmap.

Set Warnings "-inexact-float,-notation-overridden,-ambiguous-paths".
Open Scope list_scope.

(* ===================================================================== *)
(** * Python values *)
(* ===================================================================== *)

Module Py.

(** Exceptions the modelled code can meet. *)
Inductive exn := ValueError | AttributeError | IndexError | KeyError | TypeError.

Definition exn_eqb (a b : exn) : bool :=
  match a, b with
  | ValueError, ValueError | AttributeError, AttributeError
  | IndexError, IndexError | KeyError, KeyError | TypeError, TypeError => true
  | _, _ => false
  end.

(** A computation that returns a value or raises. *)
Inductive py (A : Type) : Type :=
| Return (a : A)
| Raise (e : exn).
Arguments Return {A} a.
Arguments Raise {A} e.

Definition bind {A B} (m : py A) (k : A -> py B) : py B :=
  match m with
  | Return a => k a
  | Raise e => Raise e
  end.

(** [try: body / except (e1, ..., en): handler]: only the listed
    exception classes are caught. *)
Definition try_except {A} (body : py A) (caught : list exn) (handler : py A) : py A :=
  match body with
  | Return a => Return a
  | Raise e => if existsb (exn_eqb e) caught then handler else Raise e
  end.

(** [try: body / except Exception: handler]. *)
Definition try_except_all {A} (body : py A) (handler : py A) : py A :=
  match body with
  | Return a => Return a
  | Raise _ => handler
  end.

(** A computation does not raise. *)
Definition returns {A} (m : py A) : Prop := exists a, m = Return a.

End Py.
Import Py.

Notation "'let*' x ':=' m 'in' k" := (Py.bind m (fun x => k))
  (at level 10, x name, m at level 100, k at level 200).

(** A Python [str]: its code points. *)
Abbreviation pystr := (list N).

(** UTF-8 decoding of a literal of this file into code points. *)
Fixpoint utf8_decode (bs : list N) : pystr :=
  match bs with
  | [] => []
  | b0 :: t0 =>
    if (b0 <? 128)%N then b0 :: utf8_decode t0
    else match t0 with
    | [] => [b0]
    | b1 :: t1 =>
      if (b0 <? 224)%N then
        ((b0 - 192) * 64 + (b1 - 128))%N :: utf8_decode t1
      else match t1 with
      | [] => [b0; b1]
      | b2 :: t2 =>
        if (b0 <? 240)%N then
          ((b0 - 224) * 4096 + (b1 - 128) * 64 + (b2 - 128))%N :: utf8_decode t2
        else match t2 with
        | [] => [b0; b1; b2]
        | b3 :: t3 =>
          ((b0 - 240) * 262144 + (b1 - 128) * 4096 + (b2 - 128) * 64 + (b3 - 128))%N
            :: utf8_decode t3
        end
      end
    end
  end.

Definition u (s : string) : pystr :=
  utf8_decode (map N_of_ascii (list_ascii_of_string s)).

Module Str.

Definition eqb (a b : pystr) : bool := bool_decide (a = b).

(** [s.startswith(p)]. *)
Fixpoint startswith (s p : pystr) : bool :=
  match p, s with
  | [], _ => true
  | _ :: _, [] => false
  | c :: p', d :: s' => (c =? d)%N && startswith s' p'
  end.

(** [sub in s]: [sub] occurs in [s] as a contiguous run. *)
Fixpoint contains (s sub : pystr) : bool :=
  startswith s sub ||
  match s with
  | [] => false
  | _ :: s' => contains s' sub
  end.

(** [s.replace(c, '')] for a one-character [c]. *)
Definition remove_char (c : N) (s : pystr) : pystr :=
  List.filter (fun d => negb (d =? c)%N) s.

(** [str.isspace] on one code point (Unicode 14 white space). *)
Definition isspace (c : N) : bool :=
  ((9 <=? c) && (c <=? 13) || (28 <=? c) && (c <=? 32) || (c =? 133) || (c =? 160)
   || (c =? 5760) || (8192 <=? c) && (c <=? 8202) || (c =? 8232) || (c =? 8233)
   || (c =? 8239) || (c =? 8287) || (c =? 12288))%N.

Fixpoint lstrip (s : pystr) : pystr :=
  match s with
  | [] => []
  | c :: s' => if isspace c then lstrip s' else s
  end.

Definition rstrip (s : pystr) : pystr := rev (lstrip (rev s)).

(** [s.strip()]. *)
Definition strip (s : pystr) : pystr := rstrip (lstrip s).

(** First code point of each block of ten Unicode decimal digits
    (general category Nd); the digit of value [i] is at offset [i]. *)
Definition digit_zeros : list N :=
  [48; 1632; 1776; 1984; 2406; 2534; 2662; 2790; 2918; 3046; 3174; 3302; 3430;
   3558; 3664; 3792; 3872; 4160; 4240; 6112; 6160; 6470; 6608; 6784; 6800; 6992;
   7088; 7232; 7248; 42528; 43216; 43264; 43472; 43504; 43600; 44016; 65296;
   66720; 68912; 69734; 69872; 69942; 70096; 70384; 70736; 70864; 71248; 71360;
   71472; 71904; 72016; 72784; 73040; 73120; 92768; 92864; 93008; 120782;
   120792; 120802; 120812; 120822; 123200; 123632; 125264; 130032]%N.

(** Decimal value of a code point when it is a decimal digit. *)
Definition digit_value (c : N) : option N :=
  match List.find (fun z => (z <=? c) && (c <? z + 10))%N digit_zeros with
  | Some z => Some (c - z)%N
  | None => None
  end.

(** The regular expression class [\d]. *)
Definition isdigit (c : N) : bool :=
  match digit_value c with Some _ => true | None => false end.

Fixpoint take_while (p : N -> bool) (s : pystr) : pystr :=
  match s with
  | [] => []
  | c :: s' => if p c then c :: take_while p s' else []
  end.

Fixpoint drop_while (p : N -> bool) (s : pystr) : pystr :=
  match s with
  | [] => []
  | c :: s' => if p c then drop_while p s' else s
  end.

(** [re.search(cls+, s)] for a character class [cls]: the leftmost
    maximal run of characters of the class, [None] when there is none. *)
Definition re_search_run (cls : N -> bool) (s : pystr) : option pystr :=
  match take_while cls (drop_while (fun c => negb (cls c)) s) with
  | [] => None
  | m => Some m
  end.

(** The code points outside [\d] on which [str.isdigit] holds
    (Numeric_Type=Digit: superscripts, subscripts, circled and
    parenthesized digits and the like), as closed ranges. *)
Definition other_digit_ranges : list (N * N) :=
  [(178, 179); (185, 185); (4969, 4977); (6618, 6618); (8304, 8304);
   (8308, 8313); (8320, 8329); (9312, 9320); (9332, 9340); (9352, 9360);
   (9450, 9450); (9461, 9469); (9471, 9471); (10102, 10110); (10112, 10120);
   (10122, 10130); (68160, 68163); (69216, 69224); (69714, 69722);
   (127232, 127242)]%N.

(** [str.isdigit] on one code point. *)
Definition isdigit_char (c : N) : bool :=
  isdigit c
  || existsb (fun r => (fst r <=? c) && (c <=? snd r))%N other_digit_ranges.

(** [s.isdigit()]: at least one character, and every character a
    digit. *)
Definition str_isdigit (s : pystr) : bool :=
  match s with
  | [] => false
  | _ => forallb isdigit_char s
  end.

(** [a < b] on strings: lexicographic on code points. *)
Fixpoint ltb (a b : pystr) : bool :=
  match a, b with
  | _, [] => false
  | [], _ :: _ => true
  | x :: a', y :: b' => (x <? y)%N || ((x =? y)%N && ltb a' b')
  end.

(** [s.replace(old, '')] for a non-empty [old]: the occurrences are
    removed from left to right, [skip] counting the characters of an
    occurrence still to drop. *)
Fixpoint remove_sub_from (old : pystr) (skip : nat) (s : pystr) : pystr :=
  match s with
  | [] => []
  | c :: s' =>
    match skip with
    | S k => remove_sub_from old k s'
    | O =>
      if startswith s old then remove_sub_from old (length old - 1) s'
      else c :: remove_sub_from old 0 s'
    end
  end.

Definition remove_sub (old s : pystr) : pystr := remove_sub_from old 0 s.

End Str.

(* ===================================================================== *)
(** * The built-in [float(str)] *)
(* ===================================================================== *)

Module PyFloat.

(** The binary64 float nearest to [m * 10^e10] (ties to even), with
    sign [neg]: what correctly rounded decimal-to-binary conversion
    gives. *)
Definition of_decimal (neg : bool) (m : N) (e10 : Z) : float :=
  match m with
  | N0 => SF2Prim (S754_zero neg)
  | Npos p =>
    if (0 <=? e10)%Z then
      SF2Prim (binary_round prec emax neg (p * Z.to_pos (10 ^ e10)) 0)
    else
      let '(q, e, l) :=
        SFdiv_core_binary prec emax (Zpos p) 0 (10 ^ (- e10)) 0 in
      SF2Prim (binary_round_aux prec emax neg q e l)
  end.

Definition digits_value (ds : list N) : N :=
  fold_left (fun acc d => (10 * acc + d)%N) ds 0%N.

Definition underscore : N := 95.
Definition dot : N := 46.
Definition plus : N := 43.
Definition minus : N := 45.

(** The rest of a [digitpart] after its first digit:
    [(["_"] digit)*], with what follows it. *)
Fixpoint digits_tail (s : pystr) : list N * pystr :=
  match s with
  | [] => ([], [])
  | c :: s' =>
    match Str.digit_value c with
    | Some d => let '(ds, r) := digits_tail s' in (d :: ds, r)
    | None =>
      if (c =? underscore)%N then
        match s' with
        | c2 :: s'' =>
          match Str.digit_value c2 with
          | Some d => let '(ds, r) := digits_tail s'' in (d :: ds, r)
          | None => ([], s)
          end
        | [] => ([], s)
        end
      else ([], s)
    end
  end.

(** [digitpart ::= digit (["_"] digit)*]. *)
Definition digitpart (s : pystr) : option (list N * pystr) :=
  match s with
  | c :: s' =>
    match Str.digit_value c with
    | Some d => let '(ds, r) := digits_tail s' in Some (d :: ds, r)
    | None => None
    end
  | [] => None
  end.

(** [number ::= [digitpart] "." digitpart | digitpart ["."]]:
    integer digits, fraction digits, rest. *)
Definition number (s : pystr) : option (list N * list N * pystr) :=
  match digitpart s with
  | Some (ip, r) =>
    match r with
    | c :: r' =>
      if (c =? dot)%N then
        match digitpart r' with
        | Some (fp, r'') => Some (ip, fp, r'')
        | None => Some (ip, [], r')
        end
      else Some (ip, [], r)
    | [] => Some (ip, [], [])
    end
  | None =>
    match s with
    | c :: r' =>
      if (c =? dot)%N then
        match digitpart r' with
        | Some (fp, r'') => Some ([], fp, r'')
        | None => None
        end
      else None
    | [] => None
    end
  end.

Definition sign (s : pystr) : bool * pystr :=
  match s with
  | c :: s' =>
    if (c =? minus)%N then (true, s')
    else if (c =? plus)%N then (false, s')
    else (false, s)
  | [] => (false, [])
  end.

(** [exponent ::= ("e" | "E") [sign] digitpart], absent when the
    rest is empty; [None] for anything else. *)
Definition exponent (s : pystr) : option Z :=
  match s with
  | [] => Some 0%Z
  | c :: s' =>
    if ((c =? 101) || (c =? 69))%N then
      let '(neg, s'') := sign s' in
      match digitpart s'' with
      | Some (ds, []) =>
        let e := Z.of_N (digits_value ds) in
        Some (if neg then (- e)%Z else e)
      | _ => None
      end
    else None
  end.

(** ASCII lower case, as the C parser compares [inf] and [nan]. *)
Definition tolower (c : N) : N :=
  if ((65 <=? c) && (c <=? 90))%N then (c + 32)%N else c.

(** The white space [float] drops around a number: the C locale's
    white space and the Unicode white space outside ASCII (the ASCII
    separators U+001C to U+001F are not dropped). *)
Definition isspace (c : N) : bool :=
  ((9 <=? c) && (c <=? 13) || (c =? 32) || (127 <? c) && Str.isspace c)%N.

Definition strip (s : pystr) : pystr :=
  rev (Str.drop_while isspace (rev (Str.drop_while isspace s))).

(** [float(s)] for a string [s]: white space around the number is
    dropped, then
    [floatvalue ::= [sign] (number [exponent] | "inf" | "infinity" | "nan")];
    anything else raises [ValueError]. *)
Definition float (s : pystr) : py float :=
  let '(neg, body) := sign (strip s) in
  let low := map tolower body in
  if Str.eqb low (u "inf") || Str.eqb low (u "infinity") then
    Return (if neg then neg_infinity else infinity)
  else if Str.eqb low (u "nan") then Return nan
  else
    match number body with
    | Some (ip, fp, r) =>
      match exponent r with
      | Some e =>
        Return (of_decimal neg (digits_value (ip ++ fp))
                  (e - Z.of_nat (length fp)))
      | None => Raise ValueError
      end
    | None => Raise ValueError
    end.

End PyFloat.

(* ===================================================================== *)
(** * Tables, reports and result records *)
(* ===================================================================== *)

(** A pandas DataFrame as the engine receives it: a header row and data
    rows, every cell already passed through [str].  [len(row)] is the
    length of the row's list; pandas tables are rectangular, the
    definitions below also say what happens on a ragged row. *)
Record DataFrame := {
  columns : list pystr;
  rows : list (list pystr)
}.

(** [table is None or table.empty]. *)
Definition table_is_blank (table : option DataFrame) : bool :=
  match table with
  | None => true
  | Some t =>
    match columns t, rows t with
    | [], _ | _, [] => true
    | _, _ => false
    end
  end.

Definition table_rows (table : option DataFrame) : list (list pystr) :=
  match table with
  | None => []
  | Some t => rows t
  end.

(** [str(row.iloc[0]) if len(row) > 0 else '']. *)
Definition first_col (row : list pystr) : pystr := hd [] row.

(** A report: [{'year': ..., 'tables': {name: DataFrame}}]; the tables
    are visited in insertion order. *)
Record Report := {
  year : option Z;
  tables : list (pystr * option DataFrame)
}.

Inductive Severity := High | Medium | Low.

(** The dict appended by [validate_reconciliation] and
    [_reconcile_tables] (the former has no table names). *)
Record ReconciliationDifference := {
  rc_type : pystr;
  rc_main_table : option pystr;
  rc_note_table : option pystr;
  rc_main_item : pystr;
  rc_note_item : pystr;
  rc_main_value : float;
  rc_note_value : float;
  rc_difference : float;
  rc_difference_rate : float;
  rc_severity : Severity
}.

(** The dict appended by [validate_cross_year]. *)
Record CrossYearDifference := {
  cy_type : pystr;
  cy_item : pystr;
  cy_current_report_last_year : float;
  cy_previous_report : float;
  cy_difference : float;
  cy_difference_rate : float;
  cy_severity : Severity
}.

(** The dict appended by [validate_summation]. *)
Record SummationDifference := {
  sm_type : pystr;
  sm_total_item : pystr;
  sm_sub_items : list pystr;
  sm_reported_total : float;
  sm_calculated_total : float;
  sm_difference : float;
  sm_difference_rate : float;
  sm_severity : Severity
}.

(** A [for] loop whose body updates the loop state and may raise. *)
Fixpoint for_each {A S} (xs : list A) (st : S) (body : S -> A -> py S) : py S :=
  match xs with
  | [] => Return st
  | x :: xs' => let* st' := body st x in for_each xs' st' body
  end.

(** [x > y] on floats. *)
Definition gtb (x y : float) : bool := (y <? x)%float.
(** [x != y] on floats. *)
Definition neqb (x y : float) : bool := negb (x =? y)%float.

(** A [dict] with string keys kept in insertion order. *)
Module Dict.

(** [key in d]. *)
Definition mem {V} (d : list (pystr * V)) (key : pystr) : bool :=
  existsb (fun kv => Str.eqb (fst kv) key) d.

(** [d.get(key)]. *)
Fixpoint get {V} (d : list (pystr * V)) (key : pystr) : option V :=
  match d with
  | [] => None
  | (k, v) :: rest => if Str.eqb k key then Some v else get rest key
  end.

(** [d[key]]: a missing key raises [KeyError]. *)
Definition getitem {V} (d : list (pystr * V)) (key : pystr) : py V :=
  match get d key with
  | Some v => Return v
  | None => Raise KeyError
  end.

(** [d[key] = value]: a key already there keeps its place. *)
Fixpoint set {V} (d : list (pystr * V)) (key : pystr) (value : V)
  : list (pystr * V) :=
  match d with
  | [] => [(key, value)]
  | (k, v) :: rest =>
    if Str.eqb k key then (k, value) :: rest
    else (k, v) :: set rest key value
  end.

(** One step of the built-in [sorted] seen as an insertion sort: [x]
    goes after the elements that are not greater than it. *)
Fixpoint insort (x : pystr) (ys : list pystr) : list pystr :=
  match ys with
  | [] => [x]
  | y :: rest => if Str.ltb x y then x :: ys else y :: insort x rest
  end.

(** [sorted(keys)] on strings. *)
Definition sorted (keys : list pystr) : list pystr :=
  fold_left (fun acc x => insort x acc) keys [].

End Dict.

(* ===================================================================== *)
(** * data_validator.py: class ReconciliationRules *)
(* ===================================================================== *)

Module ReconciliationRules.

Definition BALANCE_SHEET_RULES : gmap pystr (list pystr) :=
  list_to_map [
    (u "资产总计", [u "资产合计"; u "资产总额"; u "总资产"]);
    (u "负债总计", [u "负债合计"; u "负债总额"; u "总负债"]);
    (u "净资产", [u "所有者权益"; u "基金净资产"; u "净资产合计"]);
    (u "流动资产", [u "流动资产合计"; u "流动资产总计"]);
    (u "非流动资产", [u "非流动资产合计"; u "非流动资产总计"]);
    (u "货币资金", [u "银行存款"; u "现金"; u "货币资金合计"]);
    (u "交易性金融资产",
       [u "以公允价值计量且其变动计入当期损益的金融资产"; u "交易性金融资产合计"]);
    (u "应收款项", [u "应收账款"; u "应收票据"; u "应收款项合计"]);
    (u "流动负债", [u "流动负债合计"; u "流动负债总计"]);
    (u "应付款项", [u "应付账款"; u "应付票据"; u "应付款项合计"])
  ].

Definition INCOME_STATEMENT_RULES : gmap pystr (list pystr) :=
  list_to_map [
    (u "营业收入", [u "收入合计"; u "营业收入合计"; u "总收入"]);
    (u "营业成本", [u "成本合计"; u "营业成本合计"; u "总成本"]);
    (u "净利润", [u "本期利润"; u "净利润合计"; u "利润总额"]);
    (u "投资收益", [u "投资收益合计"; u "投资收益总额"]);
    (u "公允价值变动收益", [u "公允价值变动损益"; u "公允价值变动收益合计"])
  ].

Definition CROSS_YEAR_ITEMS : list pystr :=
  [u "资产总计"; u "负债总计"; u "净资产"; u "营业收入"; u "营业成本";
   u "净利润"; u "基金份额总额"; u "基金份额净值"].

(** [not xs] for a list. *)
Definition is_empty {A} (xs : list A) : bool :=
  match xs with [] => true | _ => false end.

(** The three assignments to [synonyms] at the head of
    [find_matching_items]. *)
Definition synonyms_for (main_item : pystr) : list pystr :=
  let synonyms := default [] (BALANCE_SHEET_RULES !! main_item) in
  let synonyms :=
    if is_empty synonyms
    then default [] (INCOME_STATEMENT_RULES !! main_item)
    else synonyms in
  if is_empty synonyms then [main_item] else synonyms.

(** The inner loop over [synonyms]: it stops at the first synonym that
    contains the note item or is contained in it. *)
Fixpoint some_synonym_matches (synonyms : list pystr) (note_item : pystr) : bool :=
  match synonyms with
  | [] => false
  | synonym :: rest =>
    if Str.contains note_item synonym || Str.contains synonym note_item
    then true
    else some_synonym_matches rest note_item
  end.

Definition find_matching_items (main_item : pystr) (note_items : list pystr)
  : list pystr :=
  let synonyms := synonyms_for main_item in
  fold_left
    (fun matches note_item =>
       if some_synonym_matches synonyms note_item
       then matches ++ [note_item]
       else matches)
    note_items [].

(** [any(keyword in item for keyword in keywords)]. *)
Definition any_keyword_in (keywords : list pystr) (item : pystr) : bool :=
  existsb (fun keyword => Str.contains item keyword) keywords.

(** The labels that mark a total row, and those that end the upward
    scan from a total row. *)
Definition total_keywords : list pystr :=
  [u "合计"; u "总计"; u "总额"; u "小计"].
Definition stop_keywords : list pystr :=
  [u "合计"; u "总计"; u "总额"].

(** [enumerate(xs)], counting from [start]. *)
Fixpoint enumerate {A} (start : nat) (xs : list A) : list (nat * A) :=
  match xs with
  | [] => []
  | x :: rest => (start, x) :: enumerate (S start) rest
  end.

(** [item and item.strip() and not
     item.replace('.', '').replace(',', '').isdigit()]. *)
Definition is_item_name (item : pystr) : bool :=
  negb (is_empty item)
  && negb (is_empty (Str.strip item))
  && negb (Str.str_isdigit
             (Str.remove_char 44 (Str.remove_char PyFloat.dot item))).

(** The loop [for i in range(total_idx - 1, -1, -1)] over the labels
    above a total row, the nearest first: it breaks at a label with a
    stop keyword and appends the item names it passes. *)
Fixpoint scan_upwards (above sub_items : list pystr) : list pystr :=
  match above with
  | [] => sub_items
  | item :: rest =>
    if any_keyword_in stop_keywords item then sub_items
    else if is_item_name item then scan_upwards rest (sub_items ++ [item])
    else scan_upwards rest sub_items
  end.

Definition identify_summation_relationships (table : option DataFrame)
  : list (pystr * list pystr) :=
  match table with
  | None => []
  | Some t =>
    if table_is_blank table then []
    else if is_empty (columns t) then []
    else
      let first_col := map first_col (rows t) in
      let total_indices :=
        List.filter (fun entry => any_keyword_in total_keywords (snd entry))
          (enumerate 0 first_col) in
      fold_left
        (fun relationships entry =>
           let total_idx := fst entry in
           let total_item := snd entry in
           let sub_items :=
             scan_upwards (rev (firstn total_idx first_col)) [] in
           if negb (is_empty sub_items)
           then Dict.set relationships total_item (rev sub_items)
           else relationships)
        total_indices []
  end.

End ReconciliationRules.

(* ===================================================================== *)
(** * data_validator.py: class DataValidator *)
(* ===================================================================== *)

Module DataValidator.

Definition comma : N := 44.
Definition space : N := 32.
Definition lparen : N := 40.
Definition rparen : N := 41.

(** The character class [[\d.]]. *)
Definition digit_or_dot (c : N) : bool :=
  Str.isdigit c || (c =? PyFloat.dot)%N.

Definition _parse_number (value_str : pystr) : py (option float) :=
  if Str.eqb value_str []
     || existsb (Str.eqb value_str) [u ""; u "None"; u "nan"; u "-"]
  then Return None
  else
    try_except
      (let value_str :=
         Str.strip (Str.remove_char space (Str.remove_char comma value_str)) in
       let is_negative :=
         Str.startswith value_str [PyFloat.minus]
         || Str.startswith value_str [lparen] in
       let value_str :=
         if is_negative
         then Str.remove_char rparen
                (Str.remove_char lparen
                   (Str.remove_char PyFloat.minus value_str))
         else value_str in
       match Str.re_search_run digit_or_dot value_str with
       | Some matched =>
         let* value := PyFloat.float matched in
         Return (Some (if is_negative then (- value)%float else value))
       | None => Return None
       end)
      [ValueError; AttributeError]
      (Return None).

Definition _assess_severity (diff base_value : float) : Severity :=
  if (base_value =? 0)%float then
    if gtb diff 100 then High else Medium
  else
    let rate := abs (diff / base_value)%float in
    if gtb rate 0.01 || gtb diff 1000 then High
    else if gtb rate 0.001 || gtb diff 100 then Medium
    else Low.

(** The loop [for col_idx in range(1, min(len(row), 4))] of
    [_extract_value], over the cells it visits. *)
Fixpoint first_parsable (cells : list pystr) : py (option float) :=
  match cells with
  | [] => Return None
  | value_str :: rest =>
    let* value := _parse_number value_str in
    match value with
    | Some v => Return (Some v)
    | None => first_parsable rest
    end
  end.

(** The cells at positions 1, 2, 3 of a row. *)
Definition value_cells (row : list pystr) : list pystr := firstn 3 (tl row).

(** The loop over [table.iterrows()] of [_extract_value]. *)
Fixpoint scan_rows (item_name : pystr) (rs : list (list pystr)) : py (option float) :=
  match rs with
  | [] => Return None
  | row :: rest =>
    if Str.contains (first_col row) item_name then
      let* value := first_parsable (value_cells row) in
      match value with
      | Some v => Return (Some v)
      | None => scan_rows item_name rest
      end
    else scan_rows item_name rest
  end.

Definition _extract_value (table : option DataFrame) (item_name : pystr)
  : py (option float) :=
  if table_is_blank table then Return None
  else scan_rows item_name (table_rows table).

(** Position of the first column whose label contains one of the
    keywords ([target_col], a column label, stands for that position:
    column labels are taken to be distinct). *)
Fixpoint find_target_col (cols : list pystr) (column_keywords : list pystr)
  : option nat :=
  match cols with
  | [] => None
  | col :: rest =>
    if existsb (fun keyword => Str.contains col keyword) column_keywords
    then Some 0%nat
    else option_map S (find_target_col rest column_keywords)
  end.

(** The row loop of [_extract_value_from_column]: it returns at the
    first row whose label contains the item. *)
Fixpoint scan_rows_at (item_name : pystr) (target_col : nat)
  (rs : list (list pystr)) : py (option float) :=
  match rs with
  | [] => Return None
  | row :: rest =>
    if Str.contains (first_col row) item_name then
      match nth_error row target_col with
      | Some value_str => _parse_number value_str
      | None => Raise KeyError
      end
    else scan_rows_at item_name target_col rest
  end.

Definition _extract_value_from_column (table : option DataFrame)
  (item_name : pystr) (column_keywords : list pystr) : py (option float) :=
  match table with
  | None => Return None
  | Some t =>
    if table_is_blank table then Return None
    else
      match find_target_col (columns t) column_keywords with
      | None => Return None
      | Some target_col => scan_rows_at item_name target_col (rows t)
      end
  end.

(** The loop over [tables.items()] shared by [_extract_last_year_value]
    and [_extract_current_year_value]. *)
Fixpoint scan_statements (tbls : list (pystr * option DataFrame))
  (item_name : pystr) (column_keywords : list pystr) : py (option float) :=
  match tbls with
  | [] => Return None
  | (table_name, table) :: rest =>
    if Str.contains table_name (u "资产负债表")
       || Str.contains table_name (u "利润表")
    then
      let* value := _extract_value_from_column table item_name column_keywords in
      match value with
      | Some v => Return (Some v)
      | None => scan_statements rest item_name column_keywords
      end
    else scan_statements rest item_name column_keywords
  end.

Definition _extract_last_year_value (report : Report) (item_name : pystr)
  : py (option float) :=
  scan_statements (tables report) item_name [u "上年"; u "上期"].

Definition _extract_current_year_value (report : Report) (item_name : pystr)
  : py (option float) :=
  scan_statements (tables report) item_name [u "本期"; u "期末"; u "本年"].

Section Validator.

(** [self.tolerance]. *)
Variable tolerance : float.

(** [(diff / base * 100) if base != 0 else 0]. *)
Definition difference_rate (diff base : float) : float :=
  if neqb base 0 then (diff / base * 100)%float else 0%float.

Definition validate_reconciliation (main_table note_table : option DataFrame)
  (mapping : list (pystr * pystr)) : py (list ReconciliationDifference) :=
  for_each mapping []
    (fun differences '(main_item, note_item) =>
       try_except_all
         (let* main_value := _extract_value main_table main_item in
          let* note_value := _extract_value note_table note_item in
          match main_value, note_value with
          | Some main_value, Some note_value =>
            let diff := abs (main_value - note_value)%float in
            if gtb diff tolerance then
              Return (differences ++ [
                {| rc_type := u "勾稽差异";
                   rc_main_table := None;
                   rc_note_table := None;
                   rc_main_item := main_item;
                   rc_note_item := note_item;
                   rc_main_value := main_value;
                   rc_note_value := note_value;
                   rc_difference := diff;
                   rc_difference_rate := difference_rate diff main_value;
                   rc_severity := _assess_severity diff main_value |} ])
            else Return differences
          | _, _ => Return differences
          end)
         (Return differences)).

Definition validate_cross_year (current_report previous_report : Report)
  (items : list pystr) : py (list CrossYearDifference) :=
  for_each items []
    (fun differences item =>
       try_except_all
         (let* current_last_year_value :=
            _extract_last_year_value current_report item in
          let* previous_year_value :=
            _extract_current_year_value previous_report item in
          match current_last_year_value, previous_year_value with
          | Some current_last_year_value, Some previous_year_value =>
            if neqb current_last_year_value previous_year_value then
              let diff :=
                abs (current_last_year_value - previous_year_value)%float in
              Return (differences ++ [
                {| cy_type := u "跨年不一致";
                   cy_item := item;
                   cy_current_report_last_year := current_last_year_value;
                   cy_previous_report := previous_year_value;
                   cy_difference := diff;
                   cy_difference_rate := difference_rate diff previous_year_value;
                   cy_severity := High |} ])
            else Return differences
          | _, _ => Return differences
          end)
         (Return differences)).

(** The inner loop of [validate_summation] that collects the sub-item
    values that could be extracted. *)
Definition collect_sub_values (table : option DataFrame) (sub_items : list pystr)
  : py (list float) :=
  for_each sub_items []
    (fun sub_values sub_item =>
       let* value := _extract_value table sub_item in
       match value with
       | Some v => Return (sub_values ++ [v])
       | None => Return sub_values
       end).

(** The built-in [sum] of a list of floats: it starts from [0]. *)
Definition sum (xs : list float) : float :=
  fold_left (fun acc x => (acc + x)%float) xs 0%float.

Definition validate_summation (table : option DataFrame)
  (summation_rules : list (pystr * list pystr)) : py (list SummationDifference) :=
  for_each summation_rules []
    (fun differences '(total_item, sub_items) =>
       try_except_all
         (let* total_value := _extract_value table total_item in
          let* sub_values := collect_sub_values table sub_items in
          match total_value with
          | Some total_value =>
            if negb (ReconciliationRules.is_empty sub_values) then
              let calculated_total := sum sub_values in
              let diff := abs (total_value - calculated_total)%float in
              if gtb diff tolerance then
                Return (differences ++ [
                  {| sm_type := u "加总错误";
                     sm_total_item := total_item;
                     sm_sub_items := sub_items;
                     sm_reported_total := total_value;
                     sm_calculated_total := calculated_total;
                     sm_difference := diff;
                     sm_difference_rate := difference_rate diff total_value;
                     sm_severity := _assess_severity diff total_value |} ])
              else Return differences
            else Return differences
          | None => Return differences
          end)
         (Return differences)).

(** [table.iloc[:, 0].astype(str).tolist()] on a table of strings: the
    labels of its rows.  A missing row label (NaN) is not a cell of
    the tables modelled here: recent pandas keeps it through
    [astype(str)], and the loops over the labels then raise at
    [main_item.strip()], [synonym in note_item] or [keyword in item];
    what is stated of these loops is stated of tables of strings. *)
Definition first_column (t : option DataFrame) : list pystr :=
  map first_col (table_rows t).

Definition _reconcile_tables (main_table note_table : option DataFrame)
  (main_name note_name : pystr) : py (list ReconciliationDifference) :=
  if table_is_blank main_table then Return []
  else
    let main_items := first_column main_table in
    let note_items :=
      if negb (table_is_blank note_table) then first_column note_table else [] in
    for_each main_items []
      (fun differences main_item =>
         if ReconciliationRules.is_empty main_item
            || ReconciliationRules.is_empty (Str.strip main_item)
         then Return differences
         else
           let matching_note_items :=
             ReconciliationRules.find_matching_items main_item note_items in
           if negb (ReconciliationRules.is_empty matching_note_items) then
             let* main_value := _extract_value main_table main_item in
             for_each matching_note_items differences
               (fun differences note_item =>
                  let* note_value := _extract_value note_table note_item in
                  match main_value, note_value with
                  | Some main_value, Some note_value =>
                    let diff := abs (main_value - note_value)%float in
                    if gtb diff tolerance then
                      Return (differences ++ [
                        {| rc_type := u "勾稽差异";
                           rc_main_table := Some main_name;
                           rc_note_table := Some note_name;
                           rc_main_item := main_item;
                           rc_note_item := note_item;
                           rc_main_value := main_value;
                           rc_note_value := note_value;
                           rc_difference := diff;
                           rc_difference_rate := difference_rate diff main_value;
                           rc_severity := _assess_severity diff main_value |} ])
                    else Return differences
                  | _, _ => Return differences
                  end)
           else Return differences).

(** A dict of [validate_summation] after [auto_validate_summation]
    has added the key ['table_name'] to it. *)
Record TableSummationDifference := {
  ts_difference : SummationDifference;
  ts_table_name : pystr
}.

(** The loop of [smart_reconciliation] that fills [main_tables] and
    [note_tables]. *)
Definition split_tables (tables : list (pystr * option DataFrame))
  : list (pystr * option DataFrame) * list (pystr * option DataFrame) :=
  fold_left
    (fun split entry =>
       let table_name := fst entry in
       let table_df := snd entry in
       if Str.contains table_name (u "主表")
       then (Dict.set (fst split) table_name table_df, snd split)
       else if Str.contains table_name (u "附注")
               || Str.contains table_name (u "明细")
       then (fst split, Dict.set (snd split) table_name table_df)
       else split)
    tables ([], []).

(** The loop over [note_tables] for one main table: the note tables
    whose name contains one of [topics] are reconciled with it. *)
Definition reconcile_notes (topics : list pystr)
  (main_table_name : pystr) (main_table : option DataFrame)
  (note_tables : list (pystr * option DataFrame))
  (differences : list ReconciliationDifference)
  : py (list ReconciliationDifference) :=
  for_each note_tables differences
    (fun differences entry =>
       let note_table_name := fst entry in
       let note_table := snd entry in
       if ReconciliationRules.any_keyword_in topics note_table_name then
         let* diffs :=
           _reconcile_tables main_table note_table
             main_table_name note_table_name in
         Return (differences ++ diffs)
       else Return differences).

Definition smart_reconciliation (report : Report)
  : py (list ReconciliationDifference) :=
  let '(main_tables, note_tables) := split_tables (tables report) in
  for_each main_tables []
    (fun differences entry =>
       let main_table_name := fst entry in
       let main_table := snd entry in
       if Str.contains main_table_name (u "资产负债表") then
         reconcile_notes [u "资产"; u "负债"]
           main_table_name main_table note_tables differences
       else if Str.contains main_table_name (u "利润表") then
         reconcile_notes [u "收入"; u "费用"; u "损益"]
           main_table_name main_table note_tables differences
       else Return differences).

Definition auto_validate_summation (report : Report)
  : py (list TableSummationDifference) :=
  for_each (tables report) []
    (fun all_differences entry =>
       let table_name := fst entry in
       let table_df := snd entry in
       let summation_relationships :=
         ReconciliationRules.identify_summation_relationships table_df in
       if negb (ReconciliationRules.is_empty summation_relationships) then
         let* differences := validate_summation table_df summation_relationships in
         let differences :=
           map (fun diff => {| ts_difference := diff; ts_table_name := table_name |})
             differences in
         Return (all_differences ++ differences)
       else Return all_differences).

(** An element of [all_differences]: one of the three kinds of dict
    the validations produce. *)
Inductive Difference :=
| CrossYear (d : CrossYearDifference)
| Reconciliation (d : ReconciliationDifference)
| Summation (d : TableSummationDifference).

(** [d.get('severity')]. *)
Definition severity_of (d : Difference) : Severity :=
  match d with
  | CrossYear d => cy_severity d
  | Reconciliation d => rc_severity d
  | Summation d => sm_severity (ts_difference d)
  end.

(** [d.get('type', 'Unknown')]. *)
Definition type_of (d : Difference) : pystr :=
  match d with
  | CrossYear d => cy_type d
  | Reconciliation d => rc_type d
  | Summation d => sm_type (ts_difference d)
  end.

Definition severity_eqb (a b : Severity) : bool :=
  match a, b with
  | High, High | Medium, Medium | Low, Low => true
  | _, _ => false
  end.

(** The dict returned by [comprehensive_validation]. *)
Record ValidationResult := {
  cv_total_differences : nat;
  cv_High : nat;
  cv_Medium : nat;
  cv_Low : nat;
  cv_by_type : list (pystr * nat);
  cv_differences : list Difference
}.

(** The pairs [(xs[i], xs[i + 1])] for [i] in [range(len(xs) - 1)]. *)
Fixpoint consecutive {A} (xs : list A) : list (A * A) :=
  match xs with
  | [] => []
  | a :: rest =>
    match rest with
    | [] => []
    | b :: _ => (a, b) :: consecutive rest
    end
  end.

(** The loop that counts the differences of each type. *)
Definition count_by_type (all_differences : list Difference)
  : list (pystr * nat) :=
  fold_left
    (fun by_type diff =>
       let diff_type := type_of diff in
       let by_type :=
         if negb (Dict.mem by_type diff_type)
         then Dict.set by_type diff_type 0%nat
         else by_type in
       Dict.set by_type diff_type (default 0%nat (Dict.get by_type diff_type) + 1)%nat)
    all_differences [].

Definition comprehensive_validation (reports : list (pystr * Report))
  : py ValidationResult :=
  let sorted_years := Dict.sorted (map fst reports) in
  let* all_differences :=
    for_each (consecutive sorted_years) []
      (fun all_differences years =>
         let current_year := snd years in
         let previous_year := fst years in
         let* current_report := Dict.getitem reports current_year in
         let* previous_report := Dict.getitem reports previous_year in
         let* cross_year_diffs :=
           validate_cross_year current_report previous_report
             ReconciliationRules.CROSS_YEAR_ITEMS in
         Return (all_differences ++ map CrossYear cross_year_diffs)) in
  let* all_differences :=
    for_each reports all_differences
      (fun all_differences entry =>
         let report := snd entry in
         let* reconciliation_diffs := smart_reconciliation report in
         let all_differences :=
           all_differences ++ map Reconciliation reconciliation_diffs in
         let* summation_diffs := auto_validate_summation report in
         Return (all_differences ++ map Summation summation_diffs)) in
  let count severity :=
    length (List.filter (fun d => severity_eqb (severity_of d) severity)
              all_differences) in
  Return
    {| cv_total_differences := length all_differences;
       cv_High := count High;
       cv_Medium := count Medium;
       cv_Low := count Low;
       cv_by_type := count_by_type all_differences;
       cv_differences := all_differences |}.

End Validator.

End DataValidator.

(* ===================================================================== *)
(** * financial_reconciliation.py: class FinancialReconciliation *)
(* ===================================================================== *)

Module FinancialReconciliation.

(** One entry of [self.reconciliation_rules]: the dict with keys
    ['name'], ['formula'], ['items'] and the callable ['check']. *)
Record Rule := {
  name : pystr;
  formula : pystr;
  items : list pystr;
  check : gmap pystr float -> py float
}.

(** [data.get(key, 0)]. *)
Definition get (data : gmap pystr float) (key : string) : float :=
  default 0%float (data !! u key).

Definition balance_sheet_internal : list Rule := [
  {| name := u "资产负债平衡";
     formula := u "资产总计 = 负债合计 + 净资产合计";
     items := [u "资产总计"; u "负债合计"; u "净资产合计"];
     check := fun data =>
       Return (abs (get data "资产总计"
                    - (get data "负债合计" + get data "净资产合计")))%float |};
  {| name := u "净资产构成";
     formula := u "净资产合计 = 实收基金 + 未分配利润";
     items := [u "净资产合计"; u "实收基金"; u "未分配利润"];
     check := fun data =>
       Return (abs (get data "净资产合计"
                    - (get data "实收基金" + get data "未分配利润")))%float |};
  {| name := u "负债和净资产总计";
     formula := u "负债和净资产总计 = 资产总计";
     items := [u "负债和净资产总计"; u "资产总计"];
     check := fun data =>
       Return (abs (get data "负债和净资产总计" - get data "资产总计"))%float |};
  {| name := u "交易性金融资产分解";
     formula := u "交易性金融资产 = 股票投资 + 基金投资 + 债券投资 + 资产支持证券投资 + 贵金属投资 + 其他投资";
     items := [u "交易性金融资产"; u "股票投资"; u "基金投资"; u "债券投资";
               u "资产支持证券投资"; u "贵金属投资"; u "其他投资"];
     check := fun data =>
       Return (abs (get data "交易性金融资产"
                    - (get data "股票投资" + get data "基金投资"
                       + get data "债券投资" + get data "资产支持证券投资"
                       + get data "贵金属投资" + get data "其他投资")))%float |}
].

Definition income_statement_internal : list Rule := [
  {| name := u "利润总额计算";
     formula := u "利润总额 = 营业总收入 - 营业总支出";
     items := [u "利润总额"; u "营业总收入"; u "营业总支出"];
     check := fun data =>
       Return (abs (get data "利润总额"
                    - (get data "营业总收入" - get data "营业总支出")))%float |};
  {| name := u "净利润计算";
     formula := u "净利润 = 利润总额 - 所得税费用";
     items := [u "净利润"; u "利润总额"; u "所得税费用"];
     check := fun data =>
       Return (abs (get data "净利润"
                    - (get data "利润总额" - get data "所得税费用")))%float |}
].

Definition income_to_balance : list Rule := [
  {| name := u "净利润与未分配利润勾稽";
     formula := u "期末未分配利润 = 期初未分配利润 + 本期净利润 - 本期分配利润";
     items := [u "期末未分配利润"; u "期初未分配利润"; u "本期净利润"; u "本期分配利润"];
     check := fun data =>
       Return (abs (get data "期末未分配利润"
                    - (get data "期初未分配利润" + get data "本期净利润"
                       - get data "本期分配利润")))%float |}
].

Definition net_asset_changes : list Rule := [
  {| name := u "期末净资产勾稽";
     formula := u "本期期末净资产（基金净值）= 本期期初净资产（基金净值）+ 本期增减变动额";
     items := [u "本期期末净资产"; u "本期期初净资产"; u "本期增减变动额"];
     check := fun data =>
       Return (abs (get data "本期期末净资产"
                    - (get data "本期期初净资产" + get data "本期增减变动额")))%float |};
  {| name := u "实收基金变动";
     formula := u "期末实收基金 = 期初实收基金 + 本期实收基金变动";
     items := [u "期末实收基金"; u "期初实收基金"; u "本期实收基金变动"];
     check := fun data =>
       Return (abs (get data "期末实收基金"
                    - (get data "期初实收基金" + get data "本期实收基金变动")))%float |};
  {| name := u "未分配利润变动";
     formula := u "期末未分配利润 = 期初未分配利润 + 本期未分配利润变动";
     items := [u "期末未分配利润"; u "期初未分配利润"; u "本期未分配利润变动"];
     check := fun data =>
       Return (abs (get data "期末未分配利润"
                    - (get data "期初未分配利润" + get data "本期未分配利润变动")))%float |};
  {| name := u "综合收益总额计算";
     formula := u "综合收益总额 = 净利润 + 其他综合收益的税后净额";
     items := [u "综合收益总额"; u "净利润"; u "其他综合收益的税后净额"];
     check := fun data =>
       Return (abs (get data "综合收益总额"
                    - (get data "净利润" + get data "其他综合收益的税后净额")))%float |}
].

(** Every rule of [_init_reconciliation_rules]. *)
Definition reconciliation_rules : list Rule :=
  balance_sheet_internal ++ income_statement_internal
  ++ income_to_balance ++ net_asset_changes.

(** The dict returned by [_check_rule]. *)
Record RuleResult := {
  r_category : pystr;
  r_name : pystr;
  r_formula : pystr;
  r_items : list pystr;
  r_values : list (pystr * float);
  r_difference : float;
  r_is_pass : bool;
  r_status : pystr
}.

(** The dict appended by [validate_cross_year_consistency]. *)
Record CrossYearResult := {
  x_item : pystr;
  x_current_year_comparable : float;
  x_previous_year_current : float;
  x_difference : float;
  x_is_pass : bool;
  x_status : pystr;
  x_formula : pystr
}.

Definition _parse_number (value_str : pystr) : py (option float) :=
  if Str.eqb value_str []
     || existsb (Str.eqb value_str) [u ""; u "None"; u "nan"; u "-"; u "NaN"]
  then Return None
  else
    try_except
      (let value_str :=
         Str.strip (Str.remove_char DataValidator.space
                      (Str.remove_char DataValidator.comma value_str)) in
       let is_negative :=
         Str.startswith value_str [PyFloat.minus]
         || Str.startswith value_str [DataValidator.lparen] in
       let value_str :=
         if is_negative
         then Str.remove_char DataValidator.rparen
                (Str.remove_char DataValidator.lparen
                   (Str.remove_char PyFloat.minus value_str))
         else value_str in
       let* value := PyFloat.float value_str in
       Return (Some (if is_negative then (- value)%float else value)))
      [ValueError; AttributeError]
      (Return None).

(** [row.iloc[i]] for a Python index, negative ones counting from the
    end. *)
Definition iloc (row : list pystr) (i : Z) : py pystr :=
  let n := Z.of_nat (length row) in
  let j := if (i <? 0)%Z then (n + i)%Z else i in
  if (j <? 0)%Z then Raise IndexError
  else match nth_error row (Z.to_nat j) with
       | Some c => Return c
       | None => Raise IndexError
       end.

(** The loop over [item_names] for one row of [_find_value_in_df]
    ([pd.notna] holds of a label, every cell being a string). *)
Fixpoint scan_aliases (row : list pystr) (col_index : Z) (item_names : list pystr)
  : py (option float) :=
  match item_names with
  | [] => Return None
  | item_name :: rest =>
    if Str.contains (first_col row) item_name then
      let* value_str :=
        if (col_index <? Z.of_nat (length row))%Z then iloc row col_index
        else Return [] in
      let* value := _parse_number value_str in
      match value with
      | Some v => Return (Some v)
      | None => scan_aliases row col_index rest
      end
    else scan_aliases row col_index rest
  end.

(** The loop over [df.iterrows()] of [_find_value_in_df]. *)
Fixpoint scan_rows (rs : list (list pystr)) (col_index : Z) (item_names : list pystr)
  : py (option float) :=
  match rs with
  | [] => Return None
  | row :: rest =>
    if ReconciliationRules.is_empty row then scan_rows rest col_index item_names
    else
      let* value := scan_aliases row col_index item_names in
      match value with
      | Some v => Return (Some v)
      | None => scan_rows rest col_index item_names
      end
  end.

Definition _find_value_in_df (df : option DataFrame) (item_names : list pystr)
  (col_index : Z) : py (option float) :=
  match df with
  | None => Return None
  | Some t =>
    if table_is_blank df then Return None
    else
      let ncols := Z.of_nat (length (columns t)) in
      let col_index := if (col_index <? 0)%Z then (ncols + col_index)%Z else col_index in
      if (ncols <=? col_index)%Z then Return None
      else scan_rows (rows t) col_index item_names
  end.

(** The dict [items_to_extract] of [_extract_from_balance_sheet]:
    key and aliases, in the order of the literal. *)
Definition balance_sheet_items_to_extract : list (pystr * list pystr) := [
  (u "资产总计", [u "资产总计"; u "资产合计"]);
  (u "负债合计", [u "负债合计"; u "负债总计"]);
  (u "净资产合计", [u "净资产合计"; u "净资产："; u "净资产"]);
  (u "实收基金", [u "实收基金"]);
  (u "未分配利润", [u "未分配利润"]);
  (u "负债和净资产总计", [u "负债和净资产总计"; u "负债和所有者权益总计"]);
  (u "交易性金融资产", [u "交易性金融资产"]);
  (u "股票投资", [u "股票投资"]);
  (u "基金投资", [u "基金投资"]);
  (u "债券投资", [u "债券投资"]);
  (u "资产支持证券投资", [u "资产支持证券投资"]);
  (u "贵金属投资", [u "贵金属投资"]);
  (u "其他投资", [u "其他投资"])
].

(** A loop [for key, aliases in items_to_extract.items()] that looks
    the aliases up in column [col_index] and stores a value found
    under each of [keys_of key]. *)
Definition extract_items (df : option DataFrame)
  (items_to_extract : list (pystr * list pystr)) (col_index : Z)
  (keys_of : pystr -> list pystr) (data : gmap pystr float)
  : py (gmap pystr float) :=
  for_each items_to_extract data
    (fun data entry =>
       let key := fst entry in
       let aliases := snd entry in
       let* value := _find_value_in_df df aliases col_index in
       match value with
       | Some value =>
         Return (fold_left (fun data k => <[ k := value ]> data) (keys_of key) data)
       | None => Return data
       end).

Definition _extract_from_balance_sheet (df : option DataFrame)
  : py (gmap pystr float) :=
  let items_to_extract := balance_sheet_items_to_extract in
  let* data :=
    extract_items df items_to_extract 2
      (fun key => [key; u "期末" ++ key]) ∅ in
  extract_items df items_to_extract 3
    (fun key => [u "期初" ++ key; u "上年度可比区间" ++ key]) data.

(** The dict [items_to_extract] of [_extract_from_income_statement]. *)
Definition income_statement_items_to_extract : list (pystr * list pystr) := [
  (u "营业总收入", [u "一、营业总收入"; u "营业总收入"]);
  (u "营业总支出", [u "二、营业总支出"; u "营业总支出"]);
  (u "利润总额", [u "三、利润总额"; u "利润总额"]);
  (u "净利润", [u "四、净利润"; u "净利润"]);
  (u "所得税费用", [u "五、所得税费用"; u "所得税费用"]);
  (u "其他综合收益的税后净额",
     [u "五、其他综合收益的税后净额"; u "其他综合收益的税后净额"]);
  (u "综合收益总额", [u "六、综合收益总额"; u "综合收益总额"])
].

Definition _extract_from_income_statement (df : option DataFrame)
  : py (gmap pystr float) :=
  let items_to_extract := income_statement_items_to_extract in
  let* data :=
    extract_items df items_to_extract 2
      (fun key => [key; u "本期" ++ key]) ∅ in
  extract_items df items_to_extract 3
    (fun key => [u "上期" ++ key]) data.

(** The ASCII double quote. *)
Definition dquote : pystr := [34%N].

(** The dicts [items_to_extract] and [fund_items] of
    [_extract_from_net_asset_changes]. *)
Definition net_asset_items_to_extract : list (pystr * list pystr) := [
  (u "本期期初净资产",
     [u "二、本期期初净资产（基金净值）"; u "二、本期期初净资产"]);
  (u "本期期末净资产",
     [u "四、本期期末净资产（基金净值）"; u "四、本期期末净资产"]);
  (u "本期增减变动额",
     [u "三、本期增减变动额（减少以" ++ dquote ++ u "-" ++ dquote ++ u "号填列）";
      u "三、本期增减变动额"]);
  (u "综合收益总额", [u "（一）、综合收益总额"; u "综合收益总额"]);
  (u "本期分配利润",
     [u "（三）、本期向基金份额持有人分配利润产生的基金净值变动";
      u "（三）、本期向基金份额持有人分配利润"])
].

Definition fund_items : list (pystr * list pystr) := [
  (u "期初实收基金",
     [u "二、本期期初净资产（基金净值）"; u "二、本期期初净资产"]);
  (u "期末实收基金",
     [u "四、本期期末净资产（基金净值）"; u "四、本期期末净资产"]);
  (u "期初未分配利润",
     [u "二、本期期初净资产（基金净值）"; u "二、本期期初净资产"]);
  (u "期末未分配利润",
     [u "四、本期期末净资产（基金净值）"; u "四、本期期末净资产"])
].

(** [data[target] = data[minuend] - data[subtrahend]] when both keys
    are in [data]. *)
Definition store_change (target minuend subtrahend : pystr)
  (data : gmap pystr float) : gmap pystr float :=
  match data !! subtrahend, data !! minuend with
  | Some start, Some stop => <[ target := (stop - start)%float ]> data
  | _, _ => data
  end.

Definition _extract_from_net_asset_changes (df : option DataFrame)
  : py (gmap pystr float) :=
  let* data :=
    extract_items df net_asset_items_to_extract (-1)
      (fun key =>
         if Str.startswith key (u "本期")
         then [key; Str.remove_sub (u "本期") key]
         else [key]) ∅ in
  let* data :=
    for_each fund_items data
      (fun data entry =>
         let key := fst entry in
         let aliases := snd entry in
         let* value :=
           if Str.contains key (u "实收基金")
           then _find_value_in_df df aliases 1
           else _find_value_in_df df aliases 2 in
         match value with
         | Some value => Return (<[ key := value ]> data)
         | None => Return data
         end) in
  let data :=
    store_change (u "本期实收基金变动") (u "期末实收基金") (u "期初实收基金") data in
  let data :=
    store_change (u "本期未分配利润变动") (u "期末未分配利润") (u "期初未分配利润")
      data in
  Return data.

(** [financial_data.update(extracted)] for the sheet [sheet_name],
    when the workbook has it. *)
Definition update_from (sheets : gmap pystr (option DataFrame))
  (sheet_name : pystr) (extract : option DataFrame -> py (gmap pystr float))
  (financial_data : gmap pystr float) : py (gmap pystr float) :=
  match sheets !! sheet_name with
  | Some sheet =>
    let* extracted := extract sheet in
    Return (extracted ∪ financial_data)
  | None => Return financial_data
  end.

Definition extract_financial_data (sheets : gmap pystr (option DataFrame))
  : py (gmap pystr float) :=
  let financial_data := ∅ in
  let* financial_data :=
    update_from sheets (u "资产负债表") _extract_from_balance_sheet financial_data in
  let* financial_data :=
    update_from sheets (u "利润表") _extract_from_income_statement financial_data in
  update_from sheets (u "净资产变动表") _extract_from_net_asset_changes
    financial_data.

Section Reconciliation.

(** [self.tolerance]. *)
Variable tolerance : float.

Definition _check_rule (rule : Rule) (financial_data : gmap pystr float)
  (category : pystr) : py (option RuleResult) :=
  try_except_all
    (let missing_items :=
       List.filter (fun item => negb (bool_decide (is_Some (financial_data !! item))))
         (items rule) in
     if negb (ReconciliationRules.is_empty missing_items) then Return None
     else
       let* difference := check rule financial_data in
       let values :=
         map (fun item => (item, default 0%float (financial_data !! item)))
           (items rule) in
       let is_pass := (difference <=? tolerance)%float in
       Return (Some
         {| r_category := category;
            r_name := name rule;
            r_formula := formula rule;
            r_items := items rule;
            r_values := values;
            r_difference := difference;
            r_is_pass := is_pass;
            r_status := if is_pass then u "✓ 通过" else u "❌ 不通过" |}))
    (Return None).

(** The literal list [cross_year_items]:
    (key in the current year's data, key in the previous year's data,
    display name). *)
Definition cross_year_items : list (pystr * pystr * pystr) := [
  (u "上年度可比区间资产总计", u "期末资产总计", u "资产总计");
  (u "上年度可比区间负债合计", u "期末负债合计", u "负债合计");
  (u "上年度可比区间净资产合计", u "期末净资产合计", u "净资产合计");
  (u "上期营业总收入", u "本期营业总收入", u "营业总收入");
  (u "上期综合收益总额", u "本期综合收益总额", u "综合收益总额");
  (u "上年度可比区间实收基金", u "期末实收基金", u "实收基金");
  (u "上年度可比区间未分配利润", u "期末未分配利润", u "未分配利润")
].

(** The loop body of [validate_cross_year_consistency] for one entry. *)
Definition cross_year_step (current_year_data previous_year_data : gmap pystr float)
  (results : list CrossYearResult) (entry : pystr * pystr * pystr)
  : list CrossYearResult :=
  let '(current_key, previous_key, item_name) := entry in
  match current_year_data !! current_key, previous_year_data !! previous_key with
  | Some current_value, Some previous_value =>
    let difference := abs (current_value - previous_value)%float in
    let is_pass := (difference <=? tolerance)%float in
    results ++ [
      {| x_item := item_name;
         x_current_year_comparable := current_value;
         x_previous_year_current := previous_value;
         x_difference := difference;
         x_is_pass := is_pass;
         x_status := if is_pass then u "✓ 一致" else u "❌ 不一致";
         x_formula := u "当年上年度可比区间" ++ item_name
                      ++ u " = 上一年本期" ++ item_name |} ]
  | _, _ => results
  end.

Definition validate_cross_year_consistency
  (current_year_data previous_year_data : gmap pystr float)
  : list CrossYearResult :=
  fold_left (cross_year_step current_year_data previous_year_data)
    cross_year_items [].

(** One of the four loops of [validate_reconciliation]: the rules of a
    category are checked in order and the results that are not [None]
    are appended. *)
Definition check_rules (rules : list Rule) (category : pystr)
  (financial_data : gmap pystr float) (results : list RuleResult)
  : py (list RuleResult) :=
  for_each rules results
    (fun results rule =>
       let* result := _check_rule rule financial_data category in
       match result with
       | Some result => Return (results ++ [result])
       | None => Return results
       end).

Definition validate_reconciliation (financial_data : gmap pystr float)
  : py (list RuleResult) :=
  let* results :=
    check_rules balance_sheet_internal (u "资产负债表内部勾稽") financial_data [] in
  let* results :=
    check_rules income_statement_internal (u "利润表内部勾稽") financial_data
      results in
  let* results :=
    check_rules income_to_balance (u "利润表与资产负债表勾稽") financial_data
      results in
  check_rules net_asset_changes (u "净资产变动表勾稽") financial_data results.

End Reconciliation.

End FinancialReconciliation.

(* ===================================================================== *)
(** * Python slices *)
(* ===================================================================== *)

Module Slice.

(** [xs[start:]]: a negative [start] counts from the end, and any
    [start] is clamped to the list. *)
Definition from {A} (xs : list A) (start : Z) : list A :=
  let n := Z.of_nat (length xs) in
  let s := if (start <? 0)%Z then Z.max 0 (n + start) else Z.min start n in
  skipn (Z.to_nat s) xs.

(** [xs[:stop]] and pandas' [head(stop)]: a negative [stop] leaves out
    the last [-stop] elements. *)
Definition upto {A} (xs : list A) (stop : Z) : list A :=
  let n := Z.of_nat (length xs) in
  let s := if (stop <? 0)%Z then Z.max 0 (n + stop) else Z.min stop n in
  firstn (Z.to_nat s) xs.

End Slice.

(* ===================================================================== *)
(** * valuation_ai/ai_analyzer.py: _find_similar_cases *)
(* ===================================================================== *)

Module ValuationAIAnalyzer.

(** A row of [self.historical_cases]. *)
Record HistoricalCase := {
  case_id : pystr;
  date : pystr;
  difference_type : pystr;
  root_cause : pystr;
  resolution : pystr;
  resolution_time : Z;
  asset_class : pystr
}.

(** The dict appended to [similar_cases]. *)
Record SimilarCase := {
  s_case_id : pystr;
  s_date : pystr;
  s_difference_type : pystr;
  s_root_cause : pystr;
  s_resolution : pystr;
  s_resolution_time : Z;
  s_similarity : float;
  s_asset_class : pystr
}.

(** The fields of [diff_record] the function reads. *)
Record DiffRecord := {
  d_asset_class : pystr;
  d_difference_pct : float
}.

Section FindSimilar.

(** [str(x)] of a float inside the f-string of the query. *)
Variable format_float : float -> pystr.
(** [self.tfidf_vectorizer.transform] followed by [cosine_similarity]:
    the score of one case text against the query text. *)
Variable cosine_similarity : pystr -> pystr -> float.
(** numpy's [argsort]: the positions of an array in increasing order of
    their values. *)
Variable argsort : list float -> list nat.

(** What numpy guarantees of [argsort] on one array: a rearrangement
    of its positions along which the values do not decrease. *)
Definition argsort_spec (xs : list float) (order : list nat) : Prop :=
  Permutation order (seq 0 (length xs))
  /\ StronglySorted
       (fun i j => (nth i xs nan <=? nth j xs nan)%float = true) order.

Definition same_class_and_type (asset_class predicted_type : pystr) (c : HistoricalCase) : bool :=
  Str.eqb (ValuationAIAnalyzer.asset_class c) asset_class
  && Str.eqb (difference_type c) predicted_type.

Definition sp : pystr := [32%N].

(** The loop over [top_indices]. *)
Definition collect_similar (filtered_cases : list HistoricalCase)
  (similarities : list float) (top_indices : list nat) : py (list SimilarCase) :=
  for_each top_indices []
    (fun similar_cases idx =>
       match nth_error similarities idx with
       | None => Raise IndexError
       | Some sim =>
         if gtb sim 0.05 then
           match nth_error filtered_cases idx with
           | None => Raise IndexError
           | Some case =>
             Return (similar_cases ++ [
               {| s_case_id := case_id case;
                  s_date := date case;
                  s_difference_type := difference_type case;
                  s_root_cause := root_cause case;
                  s_resolution := resolution case;
                  s_resolution_time := resolution_time case;
                  s_similarity := sim;
                  s_asset_class := ValuationAIAnalyzer.asset_class case |} ])
           end
         else Return similar_cases
       end).

(** The three-stage choice of [filtered_cases]. *)
Definition filter_cases (historical_cases : list HistoricalCase)
  (asset_class predicted_type : pystr) : list HistoricalCase :=
  let filtered_cases :=
    List.filter (same_class_and_type asset_class predicted_type) historical_cases in
  let filtered_cases :=
    if (length filtered_cases <? 3)%nat
    then List.filter (fun c => Str.eqb (ValuationAIAnalyzer.asset_class c) asset_class)
           historical_cases
    else filtered_cases in
  if (length filtered_cases <? 3)%nat then historical_cases else filtered_cases.

(** The similarity of every filtered case to the query. *)
Definition similarities_of (filtered_cases : list HistoricalCase)
  (diff_record : DiffRecord) (predicted_type : pystr) : list float :=
  let query_text :=
    d_asset_class diff_record ++ sp ++ predicted_type ++ sp
    ++ format_float (abs (d_difference_pct diff_record)) in
  map (fun c =>
         cosine_similarity query_text
           (difference_type c ++ sp ++ root_cause c ++ sp
            ++ ValuationAIAnalyzer.asset_class c))
    filtered_cases.

Definition _find_similar_cases (historical_cases : option (list HistoricalCase))
  (diff_record : DiffRecord) (predicted_type : pystr) (top_n : Z)
  : py (list SimilarCase) :=
  match historical_cases with
  | None | Some [] => Return []
  | Some historical_cases =>
    let filtered_cases :=
      filter_cases historical_cases (d_asset_class diff_record) predicted_type in
    let similarities := similarities_of filtered_cases diff_record predicted_type in
    let top_indices := rev (Slice.from (argsort similarities) (- top_n)) in
    collect_similar filtered_cases similarities top_indices
  end.

End FindSimilar.

(** The fields of [diff_record] that [_assess_urgency] and the
    solution recommender read. *)
Record ValuationDifference := {
  v_difference : float;
  v_difference_pct : float;
  v_asset_class : pystr;
  v_price_custodian : float;
  v_price_internal : float;
  v_fx_rate_custodian : float;
  v_fx_rate_internal : float
}.

Definition _assess_urgency (diff_record : ValuationDifference) : Severity :=
  let diff_amount := abs (v_difference diff_record) in
  let diff_pct := abs (v_difference_pct diff_record) in
  if gtb diff_amount 100000 || gtb diff_pct 1.0 then High
  else if gtb diff_amount 10000 || gtb diff_pct 0.1 then Medium
  else Low.

(** A recommended solution: the dict with keys ['solution'],
    ['source'], ['success_rate'] and ['avg_time']. *)
Record Solution := {
  sol_solution : pystr;
  sol_source : pystr;
  sol_success_rate : float;
  sol_avg_time : Z
}.

Definition check_bond_price_source : Solution :=
  {| sol_solution := u "检查债券价格源是否一致";
     sol_source := u "规则引擎";
     sol_success_rate := 0.85;
     sol_avg_time := 30 |}.

Definition confirm_equity_price_time : Solution :=
  {| sol_solution := u "确认股票价格时点是否一致";
     sol_source := u "规则引擎";
     sol_success_rate := 0.90;
     sol_avg_time := 20 |}.

Definition check_accrued_interest_method : Solution :=
  {| sol_solution := u "核对应计利息计算方法";
     sol_source := u "规则引擎";
     sol_success_rate := 0.88;
     sol_avg_time := 45 |}.

Definition unify_fx_source : Solution :=
  {| sol_solution := u "统一汇率数据源和时点";
     sol_source := u "规则引擎";
     sol_success_rate := 0.95;
     sol_avg_time := 15 |}.

Definition _get_rule_based_solutions (diff_record : ValuationDifference)
  (predicted_type : pystr) : list Solution :=
  let asset_class := v_asset_class diff_record in
  let solutions :=
    if Str.eqb predicted_type (u "价格差异") then
      if Str.eqb asset_class (u "Bond") then [check_bond_price_source]
      else if Str.eqb asset_class (u "Equity") then [confirm_equity_price_time]
      else []
    else if Str.eqb predicted_type (u "应计利息差异") then
      if Str.eqb asset_class (u "Bond") then [check_accrued_interest_method]
      else []
    else if Str.eqb predicted_type (u "汇率差异") then [unify_fx_source]
    else [] in
  let solutions :=
    if gtb (abs (v_fx_rate_custodian diff_record
                 - v_fx_rate_internal diff_record)) 0.0001
    then solutions ++ [unify_fx_source]
    else solutions in
  if gtb (abs (v_price_custodian diff_record
               - v_price_internal diff_record)) 0.01
  then
    if Str.eqb asset_class (u "Bond")
    then solutions ++ [check_bond_price_source]
    else solutions
  else solutions.

(** The solution taken from a similar case. *)
Definition case_solution (case : SimilarCase) : Solution :=
  {| sol_solution := s_resolution case;
     sol_source := u "历史案例 " ++ s_case_id case;
     sol_success_rate := s_similarity case;
     sol_avg_time := s_resolution_time case |}.

(** The loop that keeps the first solution of each text; [seen] is
    the set of the texts met so far. *)
Fixpoint keep_unseen (solutions : list Solution) (seen : gset pystr)
  (unique_solutions : list Solution) : list Solution :=
  match solutions with
  | [] => unique_solutions
  | sol :: rest =>
    if bool_decide (sol_solution sol ∈ seen)
    then keep_unseen rest seen unique_solutions
    else keep_unseen rest ({[ sol_solution sol ]} ∪ seen) (unique_solutions ++ [sol])
  end.

Section Recommend.

(** [list.sort(key=lambda x: x['success_rate'], reverse=True)]. *)
Variable sort_by_success_rate : list Solution -> list Solution.

(** What the sort guarantees on a list whose success rates can be
    compared (none is NaN): a rearrangement along which the success
    rate does not increase. *)
Definition sort_by_success_rate_spec (solutions sorted : list Solution) : Prop :=
  Permutation sorted solutions
  /\ StronglySorted
       (fun a b => (sol_success_rate b <=? sol_success_rate a)%float = true) sorted.

Definition _recommend_solutions (diff_record : ValuationDifference)
  (similar_cases : list SimilarCase) (predicted_type : pystr) : list Solution :=
  let solutions := map case_solution (firstn 3 similar_cases) in
  let rule_solutions := _get_rule_based_solutions diff_record predicted_type in
  let solutions := solutions ++ rule_solutions in
  let unique_solutions := keep_unseen solutions ∅ [] in
  let unique_solutions := sort_by_success_rate unique_solutions in
  firstn 5 unique_solutions.

End Recommend.

End ValuationAIAnalyzer.

(* ===================================================================== *)
(** * product_design_ai/case_retriever.py: search_cases *)
(* ===================================================================== *)

Module CaseRetriever.

(** A row of [self.cases_df], with its segmented text. *)
Record Case := {
  case_id : pystr;
  product_type : pystr;
  case_type : pystr;
  segmented_text : pystr
}.

Section Search.

(** [jieba.cut] joined by spaces. *)
Variable segment : pystr -> pystr.
(** [self.vectorizer.transform] followed by [cosine_similarity]. *)
Variable cosine_similarity : pystr -> pystr -> float.
(** pandas' [sort_values('similarity', ascending=False)]. *)
Variable sort_values_desc : list (Case * float) -> list (Case * float).

(** What pandas guarantees of the sort on one frame: a rearrangement
    of the rows along which the similarity does not increase. *)
Definition sort_spec (rs sorted : list (Case * float)) : Prop :=
  Permutation sorted rs
  /\ StronglySorted (fun a b => (snd b <=? snd a)%float = true) sorted.

(** [if value: results = results[results[column] == value]]. *)
Definition filter_by (value : option pystr) (column : Case -> pystr)
  (results : list (Case * float)) : list (Case * float) :=
  match value with
  | None | Some [] => results
  | Some v => List.filter (fun r => Str.eqb (column (fst r)) v) results
  end.

Definition search_cases (cases_df : list Case) (query : pystr)
  (product_type case_type : option pystr) (top_n : Z) : list (Case * float) :=
  let query_segmented := segment query in
  let results :=
    map (fun c => (c, cosine_similarity query_segmented (segmented_text c))) cases_df in
  let results := filter_by product_type CaseRetriever.product_type results in
  let results := filter_by case_type CaseRetriever.case_type results in
  Slice.upto (sort_values_desc results) top_n.

End Search.

End CaseRetriever.

(* ===================================================================== *)
(** * settlement_ai/ai_analyzer.py: detect_duplicates *)
(* ===================================================================== *)

Module SettlementAIAnalyzer.

(** A row of [trades_df], with the columns [detect_duplicates] reads:
    its index label, ['Account'], ['Amount (Pennies)'] (a float, NaN
    when missing), ['Settlement Date'] (its proleptic ordinal, [None]
    for NaT), [str] of ['Security'] and ['Duplicated?']. *)
Record Trade := {
  index : Z;
  Account : pystr;
  Amount : float;
  Settlement_Date : option Z;
  Security : pystr;
  Duplicated : pystr
}.

(** One entry of ['duplicate_groups']. *)
Record DuplicateGroup := {
  g_account : pystr;
  g_indices : list Z;
  g_count : nat
}.

(** The dict returned for a non-empty table. *)
Record Detection := {
  total : nat;
  marked_duplicates : nat;
  ai_detected : nat;
  duplicate_rate : float;
  duplicate_groups : list DuplicateGroup;
  duplicate_trades : list Trade
}.

(** The float nearest to an integer, as [np.array] converts the
    integer features. *)
Definition float_of_Z (z : Z) : float :=
  SF2Prim (binary_normalize prec emax z 0 false).

(** [Series.unique()]: the distinct values in order of first
    appearance. *)
Fixpoint unique (xs : list pystr) : list pystr :=
  match xs with
  | [] => []
  | x :: rest => x :: List.filter (fun y => negb (Str.eqb y x)) (unique rest)
  end.

(** [set(labels)] in the order the loop meets it: the distinct labels
    in increasing order (DBSCAN labels are [-1] and [0 .. k-1]). *)
Fixpoint insert_label (l : Z) (ls : list Z) : list Z :=
  match ls with
  | [] => [l]
  | x :: rest =>
    if (l <? x)%Z then l :: ls
    else if (l =? x)%Z then ls
    else x :: insert_label l rest
  end.

Definition label_set (labels : list Z) : list Z :=
  fold_right insert_label [] labels.

Section Detect.

(** The built-in [hash] on [str] of the running interpreter: CPython
    salts it with a per-process seed (PYTHONHASHSEED) unless one is
    fixed by the environment. *)
Variable hash : pystr -> Z.

(** [DBSCAN(eps=0.5, min_samples=2).fit(StandardScaler().fit_transform(X)).labels_]. *)
Variable fit_labels : list (list float) -> list Z.

(** The feature vector of one row. *)
Definition feature (row : Trade) : list float :=
  let amount := if is_nan (Amount row) then 0%float else Amount row in
  let date_num :=
    match Settlement_Date row with
    | Some ordinal => ordinal
    | None => 0%Z
    end in
  let security_hash := (hash (Security row) mod 10000)%Z in
  [amount; float_of_Z date_num; float_of_Z security_hash].

(** The groups found in one account's trades. *)
Definition account_groups (account : pystr) (account_trades : list Trade)
  : list DuplicateGroup :=
  if (length account_trades <? 2)%nat then []
  else
    let features := map feature account_trades in
    let indices := map index account_trades in
    let labels := fit_labels features in
    flat_map
      (fun label =>
         if (label =? -1)%Z then []
         else
           let cluster_indices :=
             map fst (List.filter (fun il => (snd il =? label)%Z)
                        (combine indices labels)) in
           if (2 <=? length cluster_indices)%nat then
             [ {| g_account := account;
                  g_indices := cluster_indices;
                  g_count := length cluster_indices |} ]
           else [])
      (label_set labels).

Definition is_marked (row : Trade) : bool := Str.eqb (Duplicated row) (u "Y").

Definition detect_duplicates (trades_df : list Trade) : option Detection :=
  match trades_df with
  | [] => None
  | _ =>
    let total := length trades_df in
    let marked_duplicates := length (List.filter is_marked trades_df) in
    let duplicate_groups :=
      flat_map
        (fun account =>
           account_groups account
             (List.filter (fun row => Str.eqb (Account row) account) trades_df))
        (unique (map Account trades_df)) in
    let ai_detected := fold_left Nat.add (map g_count duplicate_groups) 0%nat in
    Some
      {| total := total;
         marked_duplicates := marked_duplicates;
         ai_detected := ai_detected;
         duplicate_rate :=
           if (0 <? total)%nat
           then (float_of_Z (Z.of_nat marked_duplicates)
                 / float_of_Z (Z.of_nat total) * 100)%float
           else 0%float;
         duplicate_groups := duplicate_groups;
         duplicate_trades := List.filter is_marked trades_df |}
  end.

End Detect.

(** The part of [analysis_results] that [generate_recommendations]
    reads: for each of the three analyses, [None] when its key is
    missing, else the rate stored in its dict ([None] when the dict
    has no such rate, as for an empty table). *)
Record AnalysisResults := {
  match_status : option (option float);
  duplicate_detection : option (option float);
  delay_prediction : option (option float)
}.

(** One recommendation. *)
Record Recommendation := {
  priority : pystr;
  category : pystr;
  issue : pystr;
  recommendation : pystr;
  expected_improvement : pystr
}.

(** [priority_order.get(x['priority'], 3)]. *)
Definition priority_order (priority : pystr) : nat :=
  if Str.eqb priority (u "High") then 0
  else if Str.eqb priority (u "Medium") then 1
  else if Str.eqb priority (u "Low") then 2
  else 3.

(** [list.sort(key=...)] on integer keys: a stable insertion. *)
Fixpoint insert_by_priority (x : Recommendation) (sorted : list Recommendation)
  : list Recommendation :=
  match sorted with
  | [] => [x]
  | y :: rest =>
    if (priority_order (priority x) <? priority_order (priority y))%nat
    then x :: sorted
    else y :: insert_by_priority x rest
  end.

Definition sort_by_priority (recommendations : list Recommendation)
  : list Recommendation :=
  fold_left (fun sorted x => insert_by_priority x sorted) recommendations [].

Section Recommendations.

(** [f'{x:.1f}']. *)
Variable format_1f : float -> pystr.

Definition generate_recommendations (analysis_results : AnalysisResults)
  : list Recommendation :=
  let recommendations := [] in
  let recommendations :=
    match match_status analysis_results with
    | Some status =>
      let match_rate := default 0%float status in
      if (match_rate <? 90)%float then
        recommendations ++ [
          {| priority := u "High";
             category := u "匹配问题";
             issue := u "匹配率仅为 " ++ format_1f match_rate ++ u "%，低于90%目标";
             recommendation :=
               u "建议检查未匹配交易的Ticket Number是否正确，确认Combined Match数据是否完整";
             expected_improvement := u "提升匹配率至95%以上" |} ]
      else if (match_rate <? 95)%float then
        recommendations ++ [
          {| priority := u "Medium";
             category := u "匹配优化";
             issue := u "匹配率为 " ++ format_1f match_rate ++ u "%，接近但未达到95%目标";
             recommendation := u "建议优化匹配规则，考虑模糊匹配算法";
             expected_improvement := u "提升匹配率至98%以上" |} ]
      else recommendations
    | None => recommendations
    end in
  let recommendations :=
    match duplicate_detection analysis_results with
    | Some detection =>
      let dup_rate := default 0%float detection in
      if gtb dup_rate 5 then
        recommendations ++ [
          {| priority := u "High";
             category := u "重复交易";
             issue := u "重复交易率为 " ++ format_1f dup_rate ++ u "%，超过5%警戒线";
             recommendation := u "建议加强交易录入前的重复检查，实施自动去重机制";
             expected_improvement := u "降低重复率至2%以下" |} ]
      else if gtb dup_rate 2 then
        recommendations ++ [
          {| priority := u "Medium";
             category := u "重复控制";
             issue := u "重复交易率为 " ++ format_1f dup_rate ++ u "%，需要关注";
             recommendation := u "建议定期审查重复交易模式，优化录入流程";
             expected_improvement := u "降低重复率至1%以下" |} ]
      else recommendations
    | None => recommendations
    end in
  let recommendations :=
    match delay_prediction analysis_results with
    | Some prediction =>
      let delay_rate := default 0%float prediction in
      if gtb delay_rate 10 then
        recommendations ++ [
          {| priority := u "High";
             category := u "交收延迟";
             issue := u "交收延迟率为 " ++ format_1f delay_rate ++ u "%，超过10%警戒线";
             recommendation := u "建议分析延迟原因，优化交收流程，加强与对手方沟通";
             expected_improvement := u "降低延迟率至5%以下" |} ]
      else if gtb delay_rate 5 then
        recommendations ++ [
          {| priority := u "Medium";
             category := u "交收优化";
             issue := u "交收延迟率为 " ++ format_1f delay_rate ++ u "%，有改进空间";
             recommendation := u "建议建立延迟预警机制，提前介入处理";
             expected_improvement := u "降低延迟率至3%以下" |} ]
      else recommendations
    | None => recommendations
    end in
  sort_by_priority recommendations.

End Recommendations.

(** ** A reference clustering

    Standardisation to zero mean and unit variance followed by DBSCAN
    with [eps = 0.5] and [min_samples = 2], written out on binary64
    floats.  It is used to evaluate [detect_duplicates] on concrete
    tables; the theorems about [detect_duplicates] hold for every
    clustering function. *)
Module Reference.

Definition vsub (a b : list float) : list float :=
  zip_with (fun x y => (x - y)%float) a b.
Definition vadd (a b : list float) : list float :=
  zip_with (fun x y => (x + y)%float) a b.
Definition fsum (xs : list float) : float :=
  fold_left (fun acc x => (acc + x)%float) xs 0%float.
Definition sq (x : float) : float := (x * x)%float.

Definition column_sums (dim : nat) (X : list (list float)) : list float :=
  fold_left vadd X (repeat 0%float dim).

(** [StandardScaler().fit_transform(X)]: a column of zero variance is
    left unscaled. *)
Definition standardize (X : list (list float)) : list (list float) :=
  let dim := length (hd [] X) in
  let n := float_of_Z (Z.of_nat (length X)) in
  let mean := map (fun s => (s / n)%float) (column_sums dim X) in
  let var :=
    map (fun s => (s / n)%float)
      (column_sums dim (map (fun x => map sq (vsub x mean)) X)) in
  let scale :=
    map (fun v => let s := sqrt v in if (s =? 0)%float then 1%float else s) var in
  map (fun x => zip_with (fun d s => (d / s)%float) (vsub x mean) scale) X.

Definition distance (a b : list float) : float :=
  sqrt (fsum (map sq (vsub a b))).

Definition eps : float := 0.5.
Definition min_samples : nat := 2.

(** Positions of the points within [eps] of point [i] (itself
    included). *)
Definition neighborhood (X : list (list float)) (i : nat) : list nat :=
  let p := nth i X [] in
  List.filter (fun j => (distance p (nth j X []) <=? eps)%float)
    (seq 0 (length X)).

Definition is_core (X : list (list float)) (i : nat) : bool :=
  (min_samples <=? length (neighborhood X i))%nat.

(** The inner loop of DBSCAN from a seed [i]: label [i] if it has no
    label yet, push the unlabelled neighbours of a core point, and go
    on from the top of the stack. *)
Fixpoint expand (fuel : nat) (X : list (list float)) (label_num : Z)
  (labels : list Z) (stack : list nat) (i : nat) : list Z :=
  match fuel with
  | O => labels
  | S fuel' =>
    let '(labels, stack) :=
      if (nth i labels (-1) =? -1)%Z then
        let labels := <[ i := label_num ]> labels in
        if is_core X i then
          (labels,
           fold_left
             (fun st v => if (nth v labels (-1) =? -1)%Z then v :: st else st)
             (neighborhood X i) stack)
        else (labels, stack)
      else (labels, stack) in
    match stack with
    | [] => labels
    | top :: stack' => expand fuel' X label_num labels stack' top
    end
  end.

(** The outer loop of DBSCAN over the points in order. *)
Fixpoint scan_points (X : list (list float)) (points : list nat)
  (label_num : Z) (labels : list Z) : list Z :=
  match points with
  | [] => labels
  | i :: rest =>
    if negb (nth i labels (-1) =? -1)%Z || negb (is_core X i)
    then scan_points X rest label_num labels
    else
      let n := length X in
      let labels := expand (n * n + n + 1) X label_num labels [] i in
      scan_points X rest (label_num + 1)%Z labels
  end.

Definition dbscan_labels (X : list (list float)) : list Z :=
  scan_points X (seq 0 (length X)) 0%Z (repeat (-1)%Z (length X)).

Definition fit_labels (X : list (list float)) : list Z :=
  dbscan_labels (standardize X).

(** What [StandardScaler.fit] learns: the mean of each column and its
    standard deviation, 1 for a column of zero variance. *)
Definition scaler_fit (X : list (list float)) : list float * list float :=
  let dim := length (hd [] X) in
  let n := float_of_Z (Z.of_nat (length X)) in
  let mean := map (fun s => (s / n)%float) (column_sums dim X) in
  let var :=
    map (fun s => (s / n)%float)
      (column_sums dim (map (fun x => map sq (vsub x mean)) X)) in
  let scale :=
    map (fun v => let s := sqrt v in if (s =? 0)%float then 1%float else s) var in
  (mean, scale).

(** [StandardScaler.transform] with learnt [mean_] and [scale_]. *)
Definition scaler_transform (fitted : list float * list float)
  (X : list (list float)) : list (list float) :=
  map (fun x => zip_with (fun d s => (d / s)%float) (vsub x (fst fitted)) (snd fitted)) X.

End Reference.

(** ** Two interpreter runs

    The values of [hash(s) % 10000] that CPython 3.11 (64-bit) gives
    the two security names below under PYTHONHASHSEED=1 and under
    PYTHONHASHSEED=2; other strings are not used with them. *)
Definition hash_seed1 (s : pystr) : Z :=
  if Str.eqb s (u "AR") then 7438
  else if Str.eqb s (u "FP") then 7438
  else 0.

Definition hash_seed2 (s : pystr) : Z :=
  if Str.eqb s (u "AR") then 3423
  else if Str.eqb s (u "FP") then 7570
  else 0.

(** ** The method and its objects

    [detect_duplicates] above is the function of the table that the
    method computes.  The method itself is called on an analyzer and
    works with objects: it is handed a DataFrame, which it reads at
    several lines, and for each account it creates a [StandardScaler]
    and a [DBSCAN] estimator and fits them; a fitted estimator keeps
    what it has learnt in its attributes.  Below the lines of the
    method are written over the store of the interpreter's objects,
    which makes explicit what a call reads and what it writes.  What
    the method selects from the table with [.copy()] is a value of its
    own, as are its local lists. *)
Module Method.

(** The objects the method can meet: an analyzer with the three
    attributes [__init__] sets, a table of trades, a scaler with
    [mean_] and [scale_], a clustering (of [eps=0.5] and
    [min_samples=2]) with [labels_].  The attributes of an estimator
    are unset until it is fitted. *)
Inductive Object :=
| Analyzer (duplicate_detector delay_predictor type_classifier : option positive)
| DataFrame (rows : list Trade)
| StandardScaler (fitted : option (list float * list float))
| DBSCAN (labels_ : option (list Z)).

(** The objects of the interpreter, by reference. *)
Abbreviation Store := (gmap positive Object).

(** A statement runs on a store, returns or raises, and leaves a
    store. *)
Definition stmt (A : Type) : Type := Store -> py A * Store.

Definition ret {A} (a : A) : stmt A := fun objects => (Return a, objects).

Definition bind {A B} (m : stmt A) (k : A -> stmt B) : stmt B :=
  fun objects =>
    match m objects with
    | (Return a, objects') => k a objects'
    | (Raise e, objects') => (Raise e, objects')
    end.

Notation "'let!' x ':=' m 'in' k" := (bind m (fun x => k))
  (at level 10, x name, m at level 100, k at level 200).

(** A [for] loop whose body is a statement. *)
Fixpoint for_each {A S} (xs : list A) (st : S) (body : S -> A -> stmt S) : stmt S :=
  match xs with
  | [] => ret st
  | x :: xs' => let! st' := body st x in for_each xs' st' body
  end.

(** [Class(...)]: the new object gets a reference no object has. *)
Definition new (o : Object) : stmt positive :=
  fun objects =>
    let reference := fresh (dom objects) in
    (Return reference, <[reference := o]> objects).

(** Reading a table: [trades_df.empty], [len(trades_df)], a column of
    [trades_df] and a selection of its rows all read the rows it holds
    when the line runs. *)
Definition rows_of (table : positive) : stmt (list Trade) :=
  fun objects =>
    match objects !! table with
    | Some (DataFrame rows) => (Return rows, objects)
    | _ => (Raise AttributeError, objects)
    end.

Section Estimators.

(** What scikit-learn computes, none of it with random numbers: the
    [mean_] and [scale_] that [StandardScaler.fit] learns from the
    rows, the rows that [transform] makes with them, and the labels
    that [DBSCAN(eps=0.5, min_samples=2).fit] gives the rows. *)
Variable scaler_fit : list (list float) -> list float * list float.
Variable scaler_transform :
  list float * list float -> list (list float) -> list (list float).
Variable dbscan : list (list float) -> list Z.

(** [scaler.fit(X)] stores what it learns in the scaler and returns the
    scaler. *)
Definition fit_scaler (scaler : positive) (X : list (list float)) : stmt positive :=
  fun objects =>
    match objects !! scaler with
    | Some (StandardScaler _) =>
      (Return scaler, <[scaler := StandardScaler (Some (scaler_fit X))]> objects)
    | _ => (Raise AttributeError, objects)
    end.

(** [scaler.transform(X)] reads the attributes of the scaler; a scaler
    that was not fitted raises [NotFittedError], a subclass of
    [ValueError] and [AttributeError]. *)
Definition transform (scaler : positive) (X : list (list float))
  : stmt (list (list float)) :=
  fun objects =>
    match objects !! scaler with
    | Some (StandardScaler (Some fitted)) =>
      (Return (scaler_transform fitted X), objects)
    | Some (StandardScaler None) => (Raise ValueError, objects)
    | _ => (Raise AttributeError, objects)
    end.

(** [scaler.fit_transform(X)] is [scaler.fit(X).transform(X)]. *)
Definition fit_transform (scaler : positive) (X : list (list float))
  : stmt (list (list float)) :=
  let! scaler := fit_scaler scaler X in
  transform scaler X.

(** [clustering.fit(X)] stores the labels in the clustering and returns
    the clustering. *)
Definition fit (clustering : positive) (X : list (list float)) : stmt positive :=
  fun objects =>
    match objects !! clustering with
    | Some (DBSCAN _) =>
      (Return clustering, <[clustering := DBSCAN (Some (dbscan X))]> objects)
    | _ => (Raise AttributeError, objects)
    end.

(** [clustering.labels_]. *)
Definition labels_ (clustering : positive) : stmt (list Z) :=
  fun objects =>
    match objects !! clustering with
    | Some (DBSCAN (Some labels)) => (Return labels, objects)
    | _ => (Raise AttributeError, objects)
    end.

(** The built-in [hash] on [str] of the running interpreter. *)
Variable hash : pystr -> Z.

(** The body of the loop over the accounts, from the copy of the
    account's trades to the groups it appends. *)
Definition account_groups (account : pystr) (account_trades : list Trade)
  : stmt (list DuplicateGroup) :=
  if (length account_trades <? 2)%nat then ret []
  else
    let features := map (feature hash) account_trades in
    let indices := map index account_trades in
    if (length features <? 2)%nat then ret []
    else
      let! scaler := new (StandardScaler None) in
      let! features_scaled := fit_transform scaler features in
      let! clustering := new (DBSCAN None) in
      let! clustering := fit clustering features_scaled in
      let! labels := labels_ clustering in
      ret (flat_map
             (fun label =>
                if (label =? -1)%Z then []
                else
                  let cluster_indices :=
                    map fst (List.filter (fun il => (snd il =? label)%Z)
                               (combine indices labels)) in
                  if (2 <=? length cluster_indices)%nat then
                    [ {| g_account := account;
                         g_indices := cluster_indices;
                         g_count := length cluster_indices |} ]
                  else [])
             (label_set labels)).

(** The method: [self] is the analyzer it is called on and [trades_df]
    the table it is handed. *)
Definition detect_duplicates (self trades_df : positive)
  : stmt (option Detection) :=
  let! rows := rows_of trades_df in
  match rows with
  | [] => ret None
  | _ =>
    let! rows := rows_of trades_df in
    let total := length rows in
    let! rows := rows_of trades_df in
    let marked_duplicates := length (List.filter is_marked rows) in
    let! rows := rows_of trades_df in
    let! duplicate_groups :=
      for_each (unique (map Account rows)) []
        (fun duplicate_groups account =>
           let! rows := rows_of trades_df in
           let account_trades :=
             List.filter (fun row => Str.eqb (Account row) account) rows in
           let! groups := account_groups account account_trades in
           ret (duplicate_groups ++ groups)) in
    let ai_detected := fold_left Nat.add (map g_count duplicate_groups) 0%nat in
    let! rows := rows_of trades_df in
    let duplicate_trades := List.filter is_marked rows in
    ret (Some
           {| total := total;
              marked_duplicates := marked_duplicates;
              ai_detected := ai_detected;
              duplicate_rate :=
                if (0 <? total)%nat
                then (float_of_Z (Z.of_nat marked_duplicates)
                      / float_of_Z (Z.of_nat total) * 100)%float
                else 0%float;
              duplicate_groups := duplicate_groups;
              duplicate_trades := duplicate_trades |})
  end.

End Estimators.

End Method.

End SettlementAIAnalyzer.

(* ===================================================================== *)
(** * Vocabulary of the statements *)
(* ===================================================================== *)

Module Vocabulary.
Import DataValidator.

(** ** Outcomes *)

(** A value when the extraction returns one; [None] when it returns
    [None] or raises. *)
Definition value_or_none {A} (m : py (option A)) : option A :=
  match m with
  | Return o => o
  | Raise _ => None
  end.

(** ** The value extractor *)

(** Removing the thousands separators and the spaces. *)
Definition clean (s : pystr) : pystr :=
  Str.remove_char space (Str.remove_char comma s).

(** The strings [_parse_number] rejects before parsing. *)
Definition dv_null (s : pystr) : bool :=
  Str.eqb s [] || existsb (Str.eqb s) [u ""; u "None"; u "nan"; u "-"].

(** [_parse_number] after its first test, as a function of the cleaned
    string. *)
Definition dv_tail (c : pystr) : py (option float) :=
  try_except
    (let value_str := Str.strip c in
     let is_negative :=
       Str.startswith value_str [PyFloat.minus]
       || Str.startswith value_str [lparen] in
     let value_str :=
       if is_negative
       then Str.remove_char rparen
              (Str.remove_char lparen (Str.remove_char PyFloat.minus value_str))
       else value_str in
     match Str.re_search_run digit_or_dot value_str with
     | Some matched =>
       let* value := PyFloat.float matched in
       Return (Some (if is_negative then (- value)%float else value))
     | None => Return None
     end)
    [ValueError; AttributeError] (Return None).

(** The cleaned string announces a negative value. *)
Definition negative_form (c : pystr) : bool :=
  Str.startswith (Str.strip c) [PyFloat.minus]
  || Str.startswith (Str.strip c) [lparen].

(** The strings [FinancialReconciliation._parse_number] rejects before
    parsing. *)
Definition fr_null (s : pystr) : bool :=
  Str.eqb s []
  || existsb (Str.eqb s) [u ""; u "None"; u "nan"; u "-"; u "NaN"].

(** [FinancialReconciliation._parse_number] after its first test, as a
    function of the cleaned string. *)
Definition fr_tail (c : pystr) : py (option float) :=
  try_except
    (let value_str := Str.strip c in
     let is_negative :=
       Str.startswith value_str [PyFloat.minus]
       || Str.startswith value_str [lparen] in
     let value_str :=
       if is_negative
       then Str.remove_char rparen
              (Str.remove_char lparen (Str.remove_char PyFloat.minus value_str))
       else value_str in
     let* value := PyFloat.float value_str in
     Return (Some (if is_negative then (- value)%float else value)))
    [ValueError; AttributeError] (Return None).

(** The value of a cell: what [DataValidator._parse_number] returns
    for it. *)
Definition parsed (s : pystr) : option float :=
  match _parse_number s with
  | Return o => o
  | Raise _ => None
  end.

(** The value of a cell for [FinancialReconciliation._parse_number]. *)
Definition fr_parsed (s : pystr) : option float :=
  match FinancialReconciliation._parse_number s with
  | Return o => o
  | Raise _ => None
  end.

(** ** Decimals as cells write them *)

(** A decimal digit and its ASCII character. *)
Inductive digit := D0 | D1 | D2 | D3 | D4 | D5 | D6 | D7 | D8 | D9.

Definition digit_N (d : digit) : N :=
  match d with
  | D0 => 0 | D1 => 1 | D2 => 2 | D3 => 3 | D4 => 4
  | D5 => 5 | D6 => 6 | D7 => 7 | D8 => 8 | D9 => 9
  end.

Definition digit_char (d : digit) : N := (48 + digit_N d)%N.

Definition digits_text (ds : list digit) : pystr := map digit_char ds.

(** The text of an unsigned decimal: integer digits, then a point and
    fraction digits when there are any. *)
Definition decimal_text (ip fp : list digit) : pystr :=
  digits_text ip
  ++ match fp with
     | [] => []
     | _ => PyFloat.dot :: digits_text fp
     end.

(** The float nearest to the decimal [ip.fp]. *)
Definition decimal_value (ip fp : list digit) : float :=
  PyFloat.of_decimal false
    (PyFloat.digits_value (map digit_N (ip ++ fp)))
    (- Z.of_nat (length fp)).

(** A character that is a digit or the decimal point. *)
Definition numeric_char (c : N) : Prop :=
  (exists d, c = digit_char d) \/ c = PyFloat.dot.

(** Nothing that can continue a run of digits follows. *)
Definition digits_stop (rest : pystr) : Prop :=
  match rest with
  | [] => True
  | c :: _ => Str.digit_value c = None /\ (c =? PyFloat.underscore)%N = false
  end.

(** The three ways a cell writes a decimal: bare, in parentheses, or
    after a minus sign. *)
Inductive decimal_form := Bare | Parenthesized | Minus.

Definition formatted (form : decimal_form) (ip fp : list digit) : pystr :=
  match form with
  | Bare => decimal_text ip fp
  | Parenthesized => lparen :: decimal_text ip fp ++ [rparen]
  | Minus => PyFloat.minus :: decimal_text ip fp
  end.

(** The value the form denotes. *)
Definition formatted_value (form : decimal_form) (ip fp : list digit) : float :=
  match form with
  | Bare => decimal_value ip fp
  | _ => (- decimal_value ip fp)%float
  end.

(** White space only: every character is one [str.strip] removes. *)
Definition white (w : pystr) : Prop :=
  List.Forall (fun c => Str.isspace c = true) w.

(** What [replace(',', '').replace(' ', '').strip()] leaves of a cell. *)
Definition stripped (s : pystr) : pystr := Str.strip (clean s).

Definition tab : N := 9.
Definition line_feed : N := 10.
Definition no_break_space : N := 160.

(** ** Extraction from a table *)

(** The label of the row contains the item name. *)
Definition label_contains (item_name : pystr) (row : list pystr) : bool :=
  Str.contains (first_col row) item_name.

(** The leftmost value among the cells 1 to 3 of a row. *)
Definition row_value (row : list pystr) : option float :=
  head (omap parsed (value_cells row)).

(** The first value carried by a row whose label contains the item. *)
Definition extracted (table : option DataFrame) (item_name : pystr) : option float :=
  if table_is_blank table then None
  else head (omap row_value (List.filter (label_contains item_name) (table_rows table))).

(** The extraction rule in the words of the specification: the first
    row whose label contains the item decides, whether or not a value
    can be read from it. *)
Definition first_match_wins (table : option DataFrame) (item_name : pystr)
  : option float :=
  if table_is_blank table then None
  else
    match List.filter (label_contains item_name) (table_rows table) with
    | [] => None
    | row :: _ => row_value row
    end.

(** The header of a table ([None] has none). *)
Definition table_columns (table : option DataFrame) : list pystr :=
  match table with
  | Some t => columns t
  | None => []
  end.

(** The value [_find_value_in_df] reads from one row, for a column
    position [col]: the row must be non-empty and its label must
    contain one of the aliases. *)
Definition fr_row_value (col : nat) (item_names : list pystr) (row : list pystr)
  : option float :=
  if ReconciliationRules.is_empty row then None
  else if existsb (fun item_name => Str.contains (first_col row) item_name) item_names
  then fr_parsed (nth col row [])
  else None.

(** ** The synonym resolver *)

(** [sub] occurs in [s] as a contiguous run. *)
Definition Substring (sub s : pystr) : Prop :=
  exists pre post, s = pre ++ sub ++ post.

(** The static synonym table: both rule dictionaries together. *)
Definition registered_synonyms : gmap pystr (list pystr) :=
  ReconciliationRules.BALANCE_SHEET_RULES ∪ ReconciliationRules.INCOME_STATEMENT_RULES.

(** The aliases of an item: its registered synonyms, else itself. *)
Definition aliases (item : pystr) : list pystr :=
  match registered_synonyms !! item with
  | Some synonyms => synonyms
  | None => [item]
  end.

(** Some alias is contained in the label or contains it. *)
Definition label_matches (item label : pystr) : bool :=
  existsb (fun a => Str.contains label a || Str.contains a label) (aliases item).

(** Number of occurrences of a label in a list of labels. *)
Definition occurrences (label : pystr) (labels : list pystr) : nat :=
  length (List.filter (Str.eqb label) labels).

(** ** Summation *)

(** The record [validate_summation] appends for a total item. *)
Definition summation_record (tolerance : float) (total_item : pystr)
  (sub_items : list pystr) (total_value calculated_total : float)
  : SummationDifference :=
  let diff := abs (total_value - calculated_total)%float in
  {| sm_type := u "加总错误";
     sm_total_item := total_item;
     sm_sub_items := sub_items;
     sm_reported_total := total_value;
     sm_calculated_total := calculated_total;
     sm_difference := diff;
     sm_difference_rate := difference_rate diff total_value;
     sm_severity := _assess_severity diff total_value |}.

(** What one summation rule contributes: nothing unless the total and
    at least one sub-item have a value and the total differs from the
    sum of the sub-item values by more than the tolerance. *)
Definition summation_step (tolerance : float) (table : option DataFrame)
  (rule : pystr * list pystr) : list SummationDifference :=
  match extracted table (fst rule) with
  | Some total_value =>
    match omap (extracted table) (snd rule) with
    | [] => []
    | sub_values =>
      if gtb (abs (total_value - sum sub_values)%float) tolerance
      then [summation_record tolerance (fst rule) (snd rule) total_value
              (sum sub_values)]
      else []
    end
  | None => []
  end.

(** The table of the worked example. *)
Definition example_table : option DataFrame :=
  Some {| columns := [u "项目"; u "本期金额"; u "上期金额"];
          rows := [[u "资产总计"; u "1000000"; u "900000"];
                   [u "流动资产"; u "600000"; u "500000"];
                   [u "非流动资产"; u "400000"; u "400000"]] |}.

(** ** The table reconciler *)

(** The record appended for a pair of items with values [m] and [n]. *)
Definition reconciliation_record (tolerance : float)
  (main_name note_name : option pystr) (main_item note_item : pystr)
  (m n : float) : ReconciliationDifference :=
  let diff := abs (m - n)%float in
  {| rc_type := u "勾稽差异";
     rc_main_table := main_name;
     rc_note_table := note_name;
     rc_main_item := main_item;
     rc_note_item := note_item;
     rc_main_value := m;
     rc_note_value := n;
     rc_difference := diff;
     rc_difference_rate := difference_rate diff m;
     rc_severity := _assess_severity diff m |}.

(** What one pair of items contributes, given the two extractions. *)
Definition pair_step (tolerance : float) (main_name note_name : option pystr)
  (main_item note_item : pystr) (m n : option float)
  : list ReconciliationDifference :=
  match m, n with
  | Some m, Some n =>
    if gtb (abs (m - n)%float) tolerance
    then [reconciliation_record tolerance main_name note_name main_item note_item m n]
    else []
  | _, _ => []
  end.

(** A label that is empty or white space only. *)
Definition blank_label (s : pystr) : bool :=
  ReconciliationRules.is_empty s || ReconciliationRules.is_empty (Str.strip s).

(** The row labels of the note table ([[]] for a blank table). *)
Definition note_labels (note_table : option DataFrame) : list pystr :=
  if negb (table_is_blank note_table) then first_column note_table else [].

(** What one row label of the main table contributes. *)
Definition item_step (tolerance : float) (main_table note_table : option DataFrame)
  (main_name note_name : pystr) (main_item : pystr)
  : list ReconciliationDifference :=
  if blank_label main_item then []
  else
    flat_map
      (fun note_item =>
         pair_step tolerance (Some main_name) (Some note_name) main_item note_item
           (extracted main_table main_item) (extracted note_table note_item))
      (ReconciliationRules.find_matching_items main_item (note_labels note_table)).

(** A main table and a note table that disagree by 10 on cash. *)
Definition cash_main : option DataFrame :=
  Some {| columns := [u "项目"; u "期末余额"];
          rows := [[u "货币资金"; u "100"]] |}.
Definition cash_note : option DataFrame :=
  Some {| columns := [u "项目"; u "期末余额"];
          rows := [[u "银行存款"; u "90"]] |}.

(** ** Cross-period reconciliation *)

(** The prior-period value found in the current report. *)
Definition prior_in_current (current_report : Report) (item : pystr) : option float :=
  value_or_none (_extract_last_year_value current_report item).

(** The current-period value found in the prior report. *)
Definition current_in_prior (previous_report : Report) (item : pystr) : option float :=
  value_or_none (_extract_current_year_value previous_report item).

(** The record [validate_cross_year] appends for an item with values
    [c] and [p]. *)
Definition cross_year_record (item : pystr) (c p : float) : CrossYearDifference :=
  let diff := abs (c - p)%float in
  {| cy_type := u "跨年不一致";
     cy_item := item;
     cy_current_report_last_year := c;
     cy_previous_report := p;
     cy_difference := diff;
     cy_difference_rate := difference_rate diff p;
     cy_severity := High |}.

(** What one item contributes to [validate_cross_year]. *)
Definition cross_year_contribution (current_report previous_report : Report)
  (item : pystr) : list CrossYearDifference :=
  match prior_in_current current_report item,
        current_in_prior previous_report item with
  | Some c, Some p => if neqb c p then [cross_year_record item c p] else []
  | _, _ => []
  end.

(** The record [validate_cross_year_consistency] appends for an entry
    with values [c] and [p]. *)
Definition consistency_record (tolerance : float) (item_name : pystr) (c p : float)
  : FinancialReconciliation.CrossYearResult :=
  let difference := abs (c - p)%float in
  let is_pass := (difference <=? tolerance)%float in
  {| FinancialReconciliation.x_item := item_name;
     FinancialReconciliation.x_current_year_comparable := c;
     FinancialReconciliation.x_previous_year_current := p;
     FinancialReconciliation.x_difference := difference;
     FinancialReconciliation.x_is_pass := is_pass;
     FinancialReconciliation.x_status :=
       if is_pass then u "✓ 一致" else u "❌ 不一致";
     FinancialReconciliation.x_formula :=
       u "当年上年度可比区间" ++ item_name ++ u " = 上一年本期" ++ item_name |}.

(** What one entry contributes to [validate_cross_year_consistency]. *)
Definition consistency_contribution (tolerance : float)
  (current_year_data previous_year_data : gmap pystr float)
  (entry : pystr * pystr * pystr) : option FinancialReconciliation.CrossYearResult :=
  match current_year_data !! (fst (fst entry)),
        previous_year_data !! (snd (fst entry)) with
  | Some c, Some p => Some (consistency_record tolerance (snd entry) c p)
  | _, _ => None
  end.

(** Comparative total assets of 100.005 in the current year's data
    against 100 reported the year before. *)
Definition restated_current : gmap pystr float :=
  {[ u "上年度可比区间资产总计" := 100.005%float ]}.
Definition restated_previous : gmap pystr float :=
  {[ u "期末资产总计" := 100%float ]}.

(** ** The rule evaluator *)

(** The dict [_check_rule] returns when a rule applies and its
    predicate gives [difference]. *)
Definition rule_result (tolerance : float) (rule : FinancialReconciliation.Rule)
  (financial_data : gmap pystr float) (category : pystr) (difference : float)
  : FinancialReconciliation.RuleResult :=
  let is_pass := (difference <=? tolerance)%float in
  {| FinancialReconciliation.r_category := category;
     FinancialReconciliation.r_name := FinancialReconciliation.name rule;
     FinancialReconciliation.r_formula := FinancialReconciliation.formula rule;
     FinancialReconciliation.r_items := FinancialReconciliation.items rule;
     FinancialReconciliation.r_values :=
       map (fun item => (item, default 0%float (financial_data !! item)))
         (FinancialReconciliation.items rule);
     FinancialReconciliation.r_difference := difference;
     FinancialReconciliation.r_is_pass := is_pass;
     FinancialReconciliation.r_status :=
       if is_pass then u "✓ 通过" else u "❌ 不通过" |}.

(** Every required item of the rule has a value in the data. *)
Definition all_present (rule : FinancialReconciliation.Rule)
  (financial_data : gmap pystr float) : bool :=
  forallb (fun item => bool_decide (is_Some (financial_data !! item)))
    (FinancialReconciliation.items rule).

(** A balance sheet that balances: 1000 = 400 + 600. *)
Definition balanced_data : gmap pystr float :=
  {[ u "资产总计" := 1000%float;
     u "负债合计" := 400%float;
     u "净资产合计" := 600%float ]}.

(** The first built-in rule, total assets = liabilities + net assets. *)
Definition balance_rule : FinancialReconciliation.Rule :=
  {| FinancialReconciliation.name := u "资产负债平衡";
     FinancialReconciliation.formula := u "资产总计 = 负债合计 + 净资产合计";
     FinancialReconciliation.items := [u "资产总计"; u "负债合计"; u "净资产合计"];
     FinancialReconciliation.check := fun data =>
       Return (abs (FinancialReconciliation.get data "资产总计"
                    - (FinancialReconciliation.get data "负债合计"
                       + FinancialReconciliation.get data "净资产合计")))%float |}.

(** ** Similarity retrieval *)

(** The dict [_find_similar_cases] appends for a case and its
    similarity. *)
Definition similar_case (case : ValuationAIAnalyzer.HistoricalCase) (sim : float)
  : ValuationAIAnalyzer.SimilarCase :=
  {| ValuationAIAnalyzer.s_case_id := ValuationAIAnalyzer.case_id case;
     ValuationAIAnalyzer.s_date := ValuationAIAnalyzer.date case;
     ValuationAIAnalyzer.s_difference_type := ValuationAIAnalyzer.difference_type case;
     ValuationAIAnalyzer.s_root_cause := ValuationAIAnalyzer.root_cause case;
     ValuationAIAnalyzer.s_resolution := ValuationAIAnalyzer.resolution case;
     ValuationAIAnalyzer.s_resolution_time := ValuationAIAnalyzer.resolution_time case;
     ValuationAIAnalyzer.s_similarity := sim;
     ValuationAIAnalyzer.s_asset_class := ValuationAIAnalyzer.asset_class case |}.

(** What the position [idx] contributes: its case, when its similarity
    is above the floor. *)
Definition pick_similar (filtered_cases : list ValuationAIAnalyzer.HistoricalCase)
  (similarities : list float) (idx : nat) : option ValuationAIAnalyzer.SimilarCase :=
  match nth_error similarities idx, nth_error filtered_cases idx with
  | Some sim, Some case =>
    if gtb sim 0.05 then Some (similar_case case sim) else None
  | _, _ => None
  end.

(** Similarities do not increase along a list of results. *)
Definition descending {A} (score : A -> float) (results : list A) : Prop :=
  StronglySorted (fun a b => (score b <=? score a)%float = true) results.

(** A corpus of one case that shares no term with any query. *)
Definition unrelated_case : CaseRetriever.Case :=
  {| CaseRetriever.case_id := u "CASE001";
     CaseRetriever.product_type := u "QDII";
     CaseRetriever.case_type := u "失败案例";
     CaseRetriever.segmented_text := u "QDII 估值 差异" |}.

(** Three historical cases of one asset class with similarities 0.9,
    0.02 and 0.4 to the query. *)
Definition sample_cases : list ValuationAIAnalyzer.HistoricalCase :=
  map (fun id =>
         {| ValuationAIAnalyzer.case_id := id;
            ValuationAIAnalyzer.date := u "2024-01-01";
            ValuationAIAnalyzer.difference_type := u "价格差异";
            ValuationAIAnalyzer.root_cause := id;
            ValuationAIAnalyzer.resolution := u "更新价格";
            ValuationAIAnalyzer.resolution_time := 2;
            ValuationAIAnalyzer.asset_class := u "股票" |})
      [u "A"; u "B"; u "C"].

Definition sample_similarity (query case_text : pystr) : float :=
  if Str.startswith case_text (u "价格差异 A") then 0.9%float
  else if Str.startswith case_text (u "价格差异 B") then 0.02%float
  else 0.4%float.

Definition sample_argsort (xs : list float) : list nat := [1; 2; 0]%nat.

Definition sample_record : ValuationAIAnalyzer.DiffRecord :=
  {| ValuationAIAnalyzer.d_asset_class := u "股票";
     ValuationAIAnalyzer.d_difference_pct := 0.5%float |}.

(** ** Duplicate detection *)

(** Two trades of one account with the same amount and settlement date
    and different securities. *)
Definition two_trades : list SettlementAIAnalyzer.Trade :=
  [ {| SettlementAIAnalyzer.index := 0;
       SettlementAIAnalyzer.Account := u "ACC001";
       SettlementAIAnalyzer.Amount := 100000%float;
       SettlementAIAnalyzer.Settlement_Date := Some 738000%Z;
       SettlementAIAnalyzer.Security := u "AR";
       SettlementAIAnalyzer.Duplicated := u "N" |};
    {| SettlementAIAnalyzer.index := 1;
       SettlementAIAnalyzer.Account := u "ACC001";
       SettlementAIAnalyzer.Amount := 100000%float;
       SettlementAIAnalyzer.Settlement_Date := Some 738000%Z;
       SettlementAIAnalyzer.Security := u "FP";
       SettlementAIAnalyzer.Duplicated := u "N" |} ].

(** The groups of a detection result ([[]] for the empty dict). *)
Definition groups_of (result : option SettlementAIAnalyzer.Detection)
  : list SettlementAIAnalyzer.DuplicateGroup :=
  match result with
  | Some d => SettlementAIAnalyzer.duplicate_groups d
  | None => []
  end.

(** The labels the method reads from its clustering: those of the rows
    transformed with what the scaler learnt from them. *)
Definition estimated_labels
  (scaler_fit : list (list float) -> list float * list float)
  (scaler_transform : list float * list float -> list (list float) -> list (list float))
  (dbscan : list (list float) -> list Z)
  (X : list (list float)) : list Z :=
  dbscan (scaler_transform (scaler_fit X) X).

(** Every object of the first store is in the second, as it was. *)
Definition kept (objects objects' : SettlementAIAnalyzer.Method.Store) : Prop :=
  forall reference o,
    objects !! reference = Some o -> objects' !! reference = Some o.

(** An interpreter that holds a new analyzer and the table of the two
    trades, and one in which estimators fitted earlier are still
    alive. *)
Definition new_interpreter : SettlementAIAnalyzer.Method.Store :=
  list_to_map
    [ (1%positive, SettlementAIAnalyzer.Method.Analyzer None None None);
      (2%positive, SettlementAIAnalyzer.Method.DataFrame two_trades) ].

Definition used_interpreter : SettlementAIAnalyzer.Method.Store :=
  list_to_map
    [ (1%positive,
       SettlementAIAnalyzer.Method.StandardScaler (Some ([7%float], [3%float])));
      (2%positive, SettlementAIAnalyzer.Method.DBSCAN (Some [0; 0; -1]%Z));
      (5%positive, SettlementAIAnalyzer.Method.Analyzer None None None);
      (6%positive, SettlementAIAnalyzer.Method.DataFrame two_trades) ].

(** ** Summation relationships *)

(** The label marks a total or subtotal row. *)
Definition is_total_label (item : pystr) : bool :=
  ReconciliationRules.any_keyword_in ReconciliationRules.total_keywords item.

(** The label ends the upward scan: it carries 合计, 总计 or 总额. *)
Definition is_stop_label (item : pystr) : bool :=
  ReconciliationRules.any_keyword_in ReconciliationRules.stop_keywords item.

(** The labels met going up from a row, the nearest first, before the
    first stop label. *)
Fixpoint until_stop (above : list pystr) : list pystr :=
  match above with
  | [] => []
  | item :: rest => if is_stop_label item then [] else item :: until_stop rest
  end.

(** The sub-items of a total row below the labels [above] (in table
    order): the item names of the block that ends just above the row
    and starts after the last stop label. *)
Definition sub_items_above (above : list pystr) : list pystr :=
  List.filter ReconciliationRules.is_item_name (rev (until_stop (rev above))).

(** The relationships recorded while going down the label column:
    [above] has been read, [rest] is still to read. *)
Fixpoint relationships_from (above rest : list pystr)
  (relationships : list (pystr * list pystr)) : list (pystr * list pystr) :=
  match rest with
  | [] => relationships
  | item :: rest' =>
    relationships_from (above ++ [item]) rest'
      (if is_total_label item
          && negb (ReconciliationRules.is_empty (sub_items_above above))
       then Dict.set relationships item (sub_items_above above)
       else relationships)
  end.

(** What an entry of the relationships of a label column is: a total
    label with the sub-items above one of its occurrences. *)
Definition relationship_of (labels : list pystr) (entry : pystr * list pystr) : Prop :=
  snd entry <> []
  /\ is_total_label (fst entry) = true
  /\ exists above below,
       labels = above ++ fst entry :: below
       /\ snd entry = sub_items_above above.

(** A small balance sheet with a subtotal and a total. *)
Definition assets_table : option DataFrame :=
  Some {| columns := [u "项目"; u "期末余额"];
          rows := [[u "货币资金"; u "100"];
                   [u "应收款项"; u "50"];
                   [u "流动资产合计"; u "150"];
                   [u "固定资产"; u "30"];
                   [u "资产总计"; u "180"]] |}.

(** ** Validation of a whole report *)

(** The summation differences of one table of a report: its own
    relationships are checked on it, and each difference is tagged
    with the table name. *)
Definition table_summation (tolerance : float)
  (entry : pystr * option DataFrame) : list TableSummationDifference :=
  map (fun diff => {| ts_difference := diff; ts_table_name := fst entry |})
    (flat_map (summation_step tolerance (snd entry))
       (ReconciliationRules.identify_summation_relationships (snd entry))).

(** The topics a note table must name to be reconciled with a main
    table of the given name. *)
Definition note_topics (main_table_name : pystr) : list pystr :=
  if Str.contains main_table_name (u "资产负债表") then [u "资产"; u "负债"]
  else if Str.contains main_table_name (u "利润表")
  then [u "收入"; u "费用"; u "损益"]
  else [].

(** The name makes the table a main table. *)
Definition is_main_name (table_name : pystr) : bool :=
  Str.contains table_name (u "主表").

(** The name makes the table a note table. *)
Definition is_note_name (table_name : pystr) : bool :=
  negb (Str.contains table_name (u "主表"))
  && (Str.contains table_name (u "附注") || Str.contains table_name (u "明细")).

(** The pairs of a main table and a note table that
    [smart_reconciliation] reconciles, in the order it does. *)
Definition reconciled_pairs (tables : list (pystr * option DataFrame))
  : list ((pystr * option DataFrame) * (pystr * option DataFrame)) :=
  flat_map
    (fun main =>
       map (pair main)
         (List.filter
            (fun note =>
               ReconciliationRules.any_keyword_in (note_topics (fst main)) (fst note))
            (snd (split_tables tables))))
    (fst (split_tables tables)).

(** The differences between a main table and a note table. *)
Definition table_differences (tolerance : float)
  (pair : (pystr * option DataFrame) * (pystr * option DataFrame))
  : list ReconciliationDifference :=
  let main := fst pair in
  let note := snd pair in
  if table_is_blank (snd main) then []
  else flat_map (item_step tolerance (snd main) (snd note) (fst main) (fst note))
         (first_column (snd main)).

(** A report with the table of assets alone. *)
Definition assets_report : Report :=
  {| year := Some 2023%Z;
     tables := [(u "资产负债表", assets_table)] |}.

(** A report with a main balance sheet, a note on cash and a table
    that is neither. *)
Definition cash_report : Report :=
  {| year := Some 2023%Z;
     tables := [(u "资产负债表主表", cash_main);
                (u "货币资金资产附注", cash_note);
                (u "利润表", example_table)] |}.

(** A report whose balance sheet is not named as a main table. *)
Definition plain_report : Report :=
  {| year := Some 2023%Z;
     tables := [(u "资产负债表", cash_main);
                (u "货币资金资产附注", cash_note)] |}.

(** ** Validation of several reports *)

(** The differences found inside one report: those of the reconciled
    pairs of tables, then the summation differences of its tables. *)
Definition report_differences (tolerance : float) (report : Report)
  : list Difference :=
  map Reconciliation
    (flat_map (table_differences tolerance) (reconciled_pairs (tables report)))
  ++ map Summation (flat_map (table_summation tolerance) (tables report)).

(** The cross-year differences between the reports of two years, the
    earlier first. *)
Definition year_pair_differences (reports : list (pystr * Report))
  (years : pystr * pystr) : list Difference :=
  match Dict.get reports (snd years), Dict.get reports (fst years) with
  | Some current_report, Some previous_report =>
    map CrossYear
      (flat_map (cross_year_contribution current_report previous_report)
         ReconciliationRules.CROSS_YEAR_ITEMS)
  | _, _ => []
  end.

(** The cross-year differences of a set of reports: each year against
    the next one in increasing order of the year keys. *)
Definition cross_year_differences (reports : list (pystr * Report))
  : list Difference :=
  flat_map (year_pair_differences reports)
    (consecutive (Dict.sorted (map fst reports))).

(** Number of differences of a severity, and of a type. *)
Definition count_severity (severity : Severity) (ds : list Difference) : nat :=
  length (List.filter (fun d => severity_eqb (severity_of d) severity) ds).

Definition count_type (diff_type : pystr) (ds : list Difference) : nat :=
  length (List.filter (fun d => Str.eqb (type_of d) diff_type) ds).

(** One turn of the loop that counts the differences by type. *)
Definition count_step (by_type : list (pystr * nat)) (diff : Difference)
  : list (pystr * nat) :=
  let diff_type := type_of diff in
  let by_type :=
    if negb (Dict.mem by_type diff_type)
    then Dict.set by_type diff_type 0%nat
    else by_type in
  Dict.set by_type diff_type (default 0%nat (Dict.get by_type diff_type) + 1)%nat.

(** The sum of the counts of a dict of counts. *)
Definition total_count (counts : list (pystr * nat)) : nat :=
  fold_right Nat.add 0%nat (map snd counts).

(** The cross-year differences among a list of differences. *)
Definition cross_year_of (ds : list Difference) : list CrossYearDifference :=
  omap (fun d => match d with CrossYear c => Some c | _ => None end) ds.

(** The three types of difference. *)
Definition difference_types : list pystr :=
  [u "勾稽差异"; u "跨年不一致"; u "加总错误"].

(** Two reports of consecutive years, and the same two inserted in
    the other order. *)
Definition report_2022 : Report :=
  {| year := Some 2022%Z;
     tables := [(u "资产负债表", 
                 Some {| columns := [u "项目"; u "期末余额"; u "上年年末余额"];
                         rows := [[u "资产总计"; u "180"; u "150"]] |})] |}.
Definition report_2023 : Report :=
  {| year := Some 2023%Z;
     tables := [(u "资产负债表", 
                 Some {| columns := [u "项目"; u "期末余额"; u "上年年末余额"];
                         rows := [[u "资产总计"; u "200"; u "185"]] |})] |}.
Definition two_reports : list (pystr * Report) :=
  [(u "2023", report_2023); (u "2022", report_2022)].

(** ** The rule catalogue *)

(** The built-in rules with the category [validate_reconciliation]
    checks them under, in the order it checks them. *)
Definition categorized_rules : list (pystr * FinancialReconciliation.Rule) :=
  map (pair (u "资产负债表内部勾稽")) FinancialReconciliation.balance_sheet_internal
  ++ map (pair (u "利润表内部勾稽")) FinancialReconciliation.income_statement_internal
  ++ map (pair (u "利润表与资产负债表勾稽")) FinancialReconciliation.income_to_balance
  ++ map (pair (u "净资产变动表勾稽")) FinancialReconciliation.net_asset_changes.

(** The result of a rule under a category: none when an item is
    missing. *)
Definition rule_outcome (tolerance : float) (financial_data : gmap pystr float)
  (entry : pystr * FinancialReconciliation.Rule)
  : option FinancialReconciliation.RuleResult :=
  if all_present (snd entry) financial_data then
    match FinancialReconciliation.check (snd entry) financial_data with
    | Return difference =>
      Some (rule_result tolerance (snd entry) financial_data (fst entry) difference)
    | Raise _ => None
    end
  else None.

(** ** Extraction of the financial data *)

(** The value [_find_value_in_df] finds for the aliases in the column
    at position [col]. *)
Definition found_in_column (df : option DataFrame) (item_names : list pystr)
  (col : nat) : option float :=
  if table_is_blank df then None
  else if (length (table_columns df) <=? col)%nat then None
  else head (omap (fr_row_value col item_names) (table_rows df)).

(** The position of the last column. *)
Definition last_column (df : option DataFrame) : nat :=
  (length (table_columns df) - 1)%nat.

(** Storing a value under a key, when there is a value. *)
Definition store (data : gmap pystr float) (assignment : pystr * option float)
  : gmap pystr float :=
  match snd assignment with
  | Some value => <[ fst assignment := value ]> data
  | None => data
  end.

(** The keys a loop over [items_to_extract] writes and the values it
    writes under them, in order, [value_of aliases col] being the
    value found for the aliases in column [col]. *)
Definition column_assignments (value_of : list pystr -> nat -> option float)
  (items_to_extract : list (pystr * list pystr)) (col : nat)
  (keys_of : pystr -> list pystr) : list (pystr * option float) :=
  flat_map
    (fun entry =>
       map (fun k => (k, value_of (snd entry) col)) (keys_of (fst entry)))
    items_to_extract.

(** The assignments of [_extract_from_balance_sheet]: the third column
    under each key and under 期末 + key, then the fourth column under
    期初 + key and under 上年度可比区间 + key. *)
Definition balance_sheet_assignments
  (value_of : list pystr -> nat -> option float) : list (pystr * option float) :=
  column_assignments value_of
    FinancialReconciliation.balance_sheet_items_to_extract 2
    (fun key => [key; u "期末" ++ key])
  ++ column_assignments value_of
       FinancialReconciliation.balance_sheet_items_to_extract 3
       (fun key => [u "期初" ++ key; u "上年度可比区间" ++ key]).

(** The assignments of [_extract_from_income_statement]. *)
Definition income_statement_assignments
  (value_of : list pystr -> nat -> option float) : list (pystr * option float) :=
  column_assignments value_of
    FinancialReconciliation.income_statement_items_to_extract 2
    (fun key => [key; u "本期" ++ key])
  ++ column_assignments value_of
       FinancialReconciliation.income_statement_items_to_extract 3
       (fun key => [u "上期" ++ key]).

(** The column [_extract_from_net_asset_changes] reads a fund item
    from. *)
Definition fund_column (key : pystr) : nat :=
  if Str.contains key (u "实收基金") then 1%nat else 2%nat.

(** The assignments of the two loops of
    [_extract_from_net_asset_changes], [last] being the position of
    the last column. *)
Definition net_asset_assignments
  (value_of : list pystr -> nat -> option float) (last : nat)
  : list (pystr * option float) :=
  column_assignments value_of
    FinancialReconciliation.net_asset_items_to_extract last
    (fun key =>
       if Str.startswith key (u "本期")
       then [key; Str.remove_sub (u "本期") key]
       else [key])
  ++ map (fun entry =>
            (fst entry, value_of (snd entry) (fund_column (fst entry))))
       FinancialReconciliation.fund_items.

(** The data each extraction function returns. *)
Definition balance_sheet_data (df : option DataFrame) : gmap pystr float :=
  fold_left store (balance_sheet_assignments (found_in_column df)) ∅.

Definition income_statement_data (df : option DataFrame) : gmap pystr float :=
  fold_left store (income_statement_assignments (found_in_column df)) ∅.

Definition net_asset_data (df : option DataFrame) : gmap pystr float :=
  FinancialReconciliation.store_change (u "本期未分配利润变动")
    (u "期末未分配利润") (u "期初未分配利润")
    (FinancialReconciliation.store_change (u "本期实收基金变动")
       (u "期末实收基金") (u "期初实收基金")
       (fold_left store
          (net_asset_assignments (found_in_column df) (last_column df)) ∅)).

(** The data of a sheet of the workbook: empty when the workbook has
    no such sheet. *)
Definition sheet_data (sheets : gmap pystr (option DataFrame)) (sheet_name : pystr)
  (data_of : option DataFrame -> gmap pystr float) : gmap pystr float :=
  match sheets !! sheet_name with
  | Some sheet => data_of sheet
  | None => ∅
  end.

(** The value a list of assignments with distinct keys leaves under a
    key. *)
Definition assigned (assignments : list (pystr * option float)) (k : pystr)
  : option float :=
  match List.find (fun a => Str.eqb (fst a) k) assignments with
  | Some a => snd a
  | None => None
  end.

(** The result of comparing the two values of an item, when both are
    there. *)
Definition compared (tolerance : float)
  (item : pystr * option float * option float)
  : option FinancialReconciliation.CrossYearResult :=
  match snd (fst item), snd item with
  | Some c, Some p => Some (consistency_record tolerance (fst (fst item)) c p)
  | _, _ => None
  end.

(** The first value there is, from the left. *)
Definition first_of (values : list (option float)) : option float :=
  head (omap (fun v => v) values).

(** A workbook with the three sheets the extraction reads. *)
Definition workbook (balance_sheet income_statement net_assets : option DataFrame)
  : gmap pystr (option DataFrame) :=
  {[ u "资产负债表" := balance_sheet;
     u "利润表" := income_statement;
     u "净资产变动表" := net_assets ]}.

(** A workbook of three small sheets. *)
Definition sample_balance_sheet (closing opening : string) : option DataFrame :=
  Some {| columns := [u "项目"; u "附注"; u "期末"; u "上年度末"];
          rows := [[u "资产总计"; u ""; u closing; u opening];
                   [u "实收基金"; u ""; u "70"; u "60"]] |}.
Definition sample_income_statement : option DataFrame :=
  Some {| columns := [u "项目"; u "附注"; u "本期"; u "上期"];
          rows := [[u "一、营业总收入"; u ""; u "12"; u "10"]] |}.
Definition sample_net_assets : option DataFrame :=
  Some {| columns := [u "项目"; u "实收基金"; u "未分配利润"; u "净资产合计"];
          rows := [[u "二、本期期初净资产（基金净值）"; u "60"; u "20"; u "80"];
                   [u "四、本期期末净资产（基金净值）"; u "75"; u "25"; u "100"]] |}.
Definition sample_workbook (closing opening : string)
  : gmap pystr (option DataFrame) :=
  workbook (sample_balance_sheet closing opening) sample_income_statement
    sample_net_assets.

(** ** Urgency and recommended solutions *)

(** Low, then Medium, then High. *)
Definition severity_rank (s : Severity) : nat :=
  match s with
  | Low => 0
  | Medium => 1
  | High => 2
  end.

(** A valuation difference of the given amount and percentage on a
    bond whose custodian and internal prices and rates agree. *)
Definition bond_difference (difference difference_pct : float)
  : ValuationAIAnalyzer.ValuationDifference :=
  {| ValuationAIAnalyzer.v_difference := difference;
     ValuationAIAnalyzer.v_difference_pct := difference_pct;
     ValuationAIAnalyzer.v_asset_class := u "Bond";
     ValuationAIAnalyzer.v_price_custodian := 100;
     ValuationAIAnalyzer.v_price_internal := 100;
     ValuationAIAnalyzer.v_fx_rate_custodian := 1;
     ValuationAIAnalyzer.v_fx_rate_internal := 1 |}.

(** The solutions the rule engine can propose. *)
Definition rule_engine_solutions : list ValuationAIAnalyzer.Solution :=
  [ValuationAIAnalyzer.check_bond_price_source;
   ValuationAIAnalyzer.confirm_equity_price_time;
   ValuationAIAnalyzer.check_accrued_interest_method;
   ValuationAIAnalyzer.unify_fx_source].

(** The solutions [_recommend_solutions] chooses from: those of the
    first three similar cases, then those of the rule engine. *)
Definition candidate_solutions
  (diff_record : ValuationAIAnalyzer.ValuationDifference)
  (similar_cases : list ValuationAIAnalyzer.SimilarCase) (predicted_type : pystr)
  : list ValuationAIAnalyzer.Solution :=
  map ValuationAIAnalyzer.case_solution (firstn 3 similar_cases)
  ++ ValuationAIAnalyzer._get_rule_based_solutions diff_record predicted_type.

(** A similar case resolved by the rule engine's own advice on bond
    prices. *)
Definition bond_price_case : ValuationAIAnalyzer.SimilarCase :=
  {| ValuationAIAnalyzer.s_case_id := u "CASE007";
     ValuationAIAnalyzer.s_date := u "2024-03-01";
     ValuationAIAnalyzer.s_difference_type := u "价格差异";
     ValuationAIAnalyzer.s_root_cause := u "价格源不一致";
     ValuationAIAnalyzer.s_resolution := u "检查债券价格源是否一致";
     ValuationAIAnalyzer.s_resolution_time := 25;
     ValuationAIAnalyzer.s_similarity := 0.9;
     ValuationAIAnalyzer.s_asset_class := u "Bond" |}.

(** ** Settlement recommendations *)

(** The recommendation has the given priority. *)
Definition has_priority (p : string) (r : SettlementAIAnalyzer.Recommendation) : bool :=
  Str.eqb (SettlementAIAnalyzer.priority r) (u p).

(** The result of the analyses of an empty table: each of them is the
    empty dict. *)
Definition empty_table_analysis : SettlementAIAnalyzer.AnalysisResults :=
  {| SettlementAIAnalyzer.match_status := Some None;
     SettlementAIAnalyzer.duplicate_detection := Some None;
     SettlementAIAnalyzer.delay_prediction := Some None |}.

(** The rate an analysis contributes: 0 when its dict has none,
    nothing when the analysis is missing. *)
Definition rate_of (analysis : option (option float)) : option float :=
  option_map (default 0%float) analysis.

(** ** Numbers followed by a unit *)

(** A character that can stand in a unit after a number: not white
    space, not a minus sign, not a parenthesis. *)
Definition unit_char (c : N) : bool :=
  negb (Str.isspace c) && negb (c =? PyFloat.minus)%N
  && negb (c =? lparen)%N && negb (c =? rparen)%N.

(** A text that can follow a number as its unit, such as 元 or %: it
    is not empty, it does not start with a digit, a point, an
    underscore or the letter e, and it is made of unit characters. *)
Definition is_unit_text (suffix : pystr) : bool :=
  match suffix with
  | [] => false
  | c :: _ =>
    negb (Str.isdigit c) && negb (c =? PyFloat.dot)%N
    && negb (c =? PyFloat.underscore)%N && negb (c =? 101)%N && negb (c =? 69)%N
  end
  && forallb unit_char suffix.

(** ** Labels at the edges *)

(** The main items that have registered synonyms. *)
Definition registered_items : list pystr :=
  [u "资产总计"; u "负债总计"; u "净资产"; u "流动资产"; u "非流动资产";
   u "货币资金"; u "交易性金融资产"; u "应收款项"; u "流动负债"; u "应付款项";
   u "营业收入"; u "营业成本"; u "净利润"; u "投资收益"; u "公允价值变动收益"].

(** ** Tolerance *)

(** The differences a validation returns ([[]] if it raised). *)
Definition differences_of {A} (m : py (list A)) : list A :=
  match m with
  | Return differences => differences
  | Raise _ => []
  end.

End Vocabulary.
Import Vocabulary.

(* ===================================================================== *)
(** * Properties of the value extractor *)
(* ===================================================================== *)

Section ParseNumber.

(** [float(str)] either returns or raises [ValueError], nothing else. *)
Lemma float_value_or_error (s : pystr) :
  (exists x, PyFloat.float s = Return x) \/ PyFloat.float s = Raise ValueError.
Proof.
  unfold PyFloat.float.
  destruct (PyFloat.sign (PyFloat.strip s)) as [neg body].
  destruct (Str.eqb _ _ || Str.eqb _ _); [left; eauto|].
  destruct (Str.eqb _ _); [left; eauto|].
  destruct (PyFloat.number body) as [[[ip fp] r]|]; [|now right].
  destruct (PyFloat.exponent r); [left; eauto | now right].
Qed.

Lemma bind_float_caught {A} (s : pystr) (k : float -> py (option A)) :
  (forall x, returns (k x)) ->
  returns (try_except (let* v := PyFloat.float s in k v)
             [ValueError; AttributeError] (Return None)).
Proof.
  intros Hk. destruct (float_value_or_error s) as [[x ->] | ->]; simpl.
  - destruct (Hk x) as [r ->]. now exists r.
  - now exists None.
Qed.

Lemma dv_parse_number_returns (s : pystr) : returns (DataValidator._parse_number s).
Proof.
  unfold DataValidator._parse_number.
  destruct (_ || _); [now exists None|].
  cbv zeta.
  destruct (Str.re_search_run _ _) as [m|]; [|now exists None].
  apply bind_float_caught. intros x. eexists; reflexivity.
Qed.

Lemma fr_parse_number_returns (s : pystr) :
  returns (FinancialReconciliation._parse_number s).
Proof.
  unfold FinancialReconciliation._parse_number.
  destruct (_ || _); [now exists None|].
  cbv zeta. apply bind_float_caught. intros x. eexists; reflexivity.
Qed.

End ParseNumber.

Section Separators.

Import DataValidator.

Lemma dv_parse_number_unfold (s : pystr) :
  _parse_number s = if dv_null s then Return None else dv_tail (clean s).
Proof. reflexivity. Qed.

Lemma dv_null_cases (s : pystr) :
  dv_null s = true -> s = u "" \/ s = u "None" \/ s = u "nan" \/ s = u "-".
Proof.
  unfold dv_null, Str.eqb. simpl existsb.
  rewrite !orb_true_iff, !bool_decide_eq_true. intros H.
  destruct H as [H | [H | [H | [H | [H | H]]]]]; try discriminate; auto.
Qed.

Lemma clean_idempotent (s : pystr) : clean (clean s) = clean s.
Proof.
  unfold clean, Str.remove_char.
  induction s as [|c s IH]; [reflexivity|].
  simpl. destruct (c =? comma)%N eqn:Hc; simpl; [exact IH|].
  destruct (c =? space)%N eqn:Hs; simpl; [exact IH|].
  rewrite Hc. simpl. rewrite Hs. simpl. now rewrite IH.
Qed.

Lemma dv_parse_number_clean (s : pystr) :
  _parse_number (clean s) = _parse_number s.
Proof.
  rewrite !dv_parse_number_unfold, clean_idempotent.
  destruct (dv_null s) eqn:Hs.
  - apply dv_null_cases in Hs.
    destruct Hs as [-> | [-> | [-> | ->]]]; reflexivity.
  - destruct (dv_null (clean s)) eqn:Hc; [|reflexivity].
    apply dv_null_cases in Hc.
    destruct Hc as [-> | [-> | [-> | ->]]]; reflexivity.
Qed.

End Separators.

Section DecimalText.

Import DataValidator.

Lemma digit_char_value (d : digit) :
  Str.digit_value (digit_char d) = Some (digit_N d).
Proof. destruct d; reflexivity. Qed.

Lemma decimal_text_numeric (ip fp : list digit) :
  List.Forall numeric_char (decimal_text ip fp).
Proof.
  unfold decimal_text, digits_text. apply List.Forall_app. split.
  - apply List.Forall_forall. intros c Hc. apply in_map_iff in Hc.
    destruct Hc as [d [<- _]]. left. now exists d.
  - destruct fp as [|f fs]; [constructor|]. constructor; [now right|].
    apply List.Forall_forall. intros c Hc. apply in_map_iff in Hc.
    destruct Hc as [d [<- _]]. left. now exists d.
Qed.

(** What the parser needs to know of a numeric character. *)
Lemma numeric_char_facts (c : N) :
  numeric_char c ->
  digit_or_dot c = true
  /\ Str.isspace c = false /\ PyFloat.isspace c = false
  /\ (c =? comma)%N = false /\ (c =? space)%N = false
  /\ (c =? PyFloat.minus)%N = false /\ (c =? PyFloat.plus)%N = false
  /\ (c =? lparen)%N = false /\ (c =? rparen)%N = false
  /\ PyFloat.tolower c = c
  /\ c <> 105%N /\ c <> 110%N /\ c <> 78%N.
Proof.
  intros [[d ->] | ->]; [destruct d|]; repeat split; try reflexivity; discriminate.
Qed.

Lemma remove_char_keeps (c : N) (s : pystr) :
  List.Forall (fun x => (x =? c)%N = false) s -> Str.remove_char c s = s.
Proof.
  unfold Str.remove_char. induction 1 as [|x s Hx _ IH]; [reflexivity|].
  simpl. rewrite Hx. simpl. now rewrite IH.
Qed.

Lemma lstrip_nonspace (s : pystr) :
  List.Forall (fun c => Str.isspace c = false) s -> Str.lstrip s = s.
Proof. intros H. destruct H as [|c s Hc _]; [reflexivity|]. simpl. now rewrite Hc. Qed.

(** [strip] leaves a string without white space alone. *)
Lemma strip_nonspace (s : pystr) :
  List.Forall (fun c => Str.isspace c = false) s -> Str.strip s = s.
Proof.
  intros H. unfold Str.strip, Str.rstrip. rewrite (lstrip_nonspace s H).
  rewrite lstrip_nonspace by now apply List.Forall_rev.
  apply rev_involutive.
Qed.

Lemma drop_space_nonspace (s : pystr) :
  List.Forall (fun c => PyFloat.isspace c = false) s ->
  Str.drop_while PyFloat.isspace s = s.
Proof. intros H. destruct H as [|c s Hc _]; [reflexivity|]. simpl. now rewrite Hc. Qed.

Lemma float_strip_nonspace (s : pystr) :
  List.Forall (fun c => PyFloat.isspace c = false) s -> PyFloat.strip s = s.
Proof.
  intros H. unfold PyFloat.strip. rewrite (drop_space_nonspace s H).
  rewrite drop_space_nonspace by now apply List.Forall_rev.
  apply rev_involutive.
Qed.

Lemma digits_tail_text (ds : list digit) (rest : pystr) :
  digits_stop rest ->
  PyFloat.digits_tail (digits_text ds ++ rest) = (map digit_N ds, rest).
Proof.
  intros Hstop. induction ds as [|d ds IH].
  - destruct rest as [|c r]; [reflexivity|].
    destruct Hstop as [Hv Hu]. cbn [digits_text map app PyFloat.digits_tail].
    now rewrite Hv, Hu.
  - cbn [digits_text map app PyFloat.digits_tail].
    rewrite digit_char_value. fold (digits_text ds). now rewrite IH.
Qed.

Lemma digitpart_text (d : digit) (ds : list digit) (rest : pystr) :
  digits_stop rest ->
  PyFloat.digitpart (digits_text (d :: ds) ++ rest)
  = Some (map digit_N (d :: ds), rest).
Proof.
  intros Hstop. cbn [digits_text map app PyFloat.digitpart].
  rewrite digit_char_value. fold (digits_text ds).
  now rewrite (digits_tail_text ds rest Hstop).
Qed.

Lemma number_decimal (d : digit) (ip fp : list digit) :
  PyFloat.number (decimal_text (d :: ip) fp)
  = Some (map digit_N (d :: ip), map digit_N fp, []).
Proof.
  unfold PyFloat.number, decimal_text. destruct fp as [|f fs].
  - rewrite digitpart_text by exact I. reflexivity.
  - rewrite digitpart_text by (split; reflexivity).
    rewrite N.eqb_refl.
    rewrite <- (app_nil_r (digits_text (f :: fs))).
    rewrite digitpart_text by exact I. reflexivity.
Qed.

Lemma eqb_head_differs (c c' : N) (s s' : pystr) :
  c <> c' -> Str.eqb (c :: s) (c' :: s') = false.
Proof.
  intros H. unfold Str.eqb. apply bool_decide_eq_false_2. intros [= E _]. now apply H.
Qed.

Lemma decimal_text_head (d : digit) (ip fp : list digit) :
  exists rest, decimal_text (d :: ip) fp = digit_char d :: rest.
Proof. unfold decimal_text. cbn [digits_text map app]. eauto. Qed.

Lemma map_tolower_numeric (s : pystr) :
  List.Forall numeric_char s -> map PyFloat.tolower s = s.
Proof.
  induction 1 as [|c s Hc _ IH]; [reflexivity|].
  simpl. rewrite IH. f_equal. now apply numeric_char_facts.
Qed.

Lemma forall_numeric (P : N -> Prop) (s : pystr) :
  (forall c, numeric_char c -> P c) -> List.Forall numeric_char s -> List.Forall P s.
Proof. intros HP H. eapply List.Forall_impl; eauto. Qed.

(** [float] reads the text of a decimal as the nearest float. *)
Lemma float_decimal (d : digit) (ip fp : list digit) :
  PyFloat.float (decimal_text (d :: ip) fp) = Return (decimal_value (d :: ip) fp).
Proof.
  pose proof (decimal_text_numeric (d :: ip) fp) as Hnum.
  unfold PyFloat.float.
  rewrite float_strip_nonspace
    by (apply (forall_numeric _ _ (fun c H => proj1 (proj2 (proj2 (numeric_char_facts c H)))) Hnum)).
  destruct (decimal_text_head d ip fp) as [rest Hhead].
  assert (Hd : numeric_char (digit_char d)) by (left; now exists d).
  pose proof (numeric_char_facts _ Hd)
    as (_ & _ & _ & _ & _ & Hminus & Hplus & _ & _ & _ & Hi & Hn & _).
  assert (Hsign : PyFloat.sign (decimal_text (d :: ip) fp)
                  = (false, decimal_text (d :: ip) fp)).
  { rewrite Hhead. unfold PyFloat.sign. now rewrite Hminus, Hplus. }
  rewrite Hsign, (map_tolower_numeric _ Hnum).
  change (u "inf") with ([105; 110; 102]%N).
  change (u "infinity") with ([105; 110; 102; 105; 110; 105; 116; 121]%N).
  change (u "nan") with ([110; 97; 110]%N).
  rewrite Hhead, !eqb_head_differs by assumption. rewrite <- Hhead.
  cbn [orb]. rewrite number_decimal. cbn [PyFloat.exponent].
  unfold decimal_value. now rewrite map_app, length_map.
Qed.

Lemma startswith_head (c m : N) (s : pystr) :
  Str.startswith (c :: s) [m] = (m =? c)%N.
Proof. simpl. destruct s; apply andb_true_r. Qed.

Lemma re_search_whole (cls : N -> bool) (c : N) (s : pystr) :
  List.Forall (fun x => cls x = true) (c :: s) ->
  Str.re_search_run cls (c :: s) = Some (c :: s).
Proof.
  intros H. unfold Str.re_search_run.
  assert (Hdrop : Str.drop_while (fun x => negb (cls x)) (c :: s) = c :: s).
  { inversion H as [|? ? Hc _]; subst. simpl. now rewrite Hc. }
  rewrite Hdrop.
  assert (Htake : forall l, List.Forall (fun x => cls x = true) l ->
                            Str.take_while cls l = l).
  { induction 1 as [|x l Hx _ IH]; [reflexivity|]. simpl. now rewrite Hx, IH. }
  rewrite (Htake _ H). reflexivity.
Qed.

Lemma formatted_nonspace (form : decimal_form) (ip fp : list digit) :
  List.Forall (fun c => Str.isspace c = false) (formatted form ip fp).
Proof.
  pose proof (forall_numeric (fun c => Str.isspace c = false) _
                (fun c H => proj1 (proj2 (numeric_char_facts c H)))
                (decimal_text_numeric ip fp)) as H.
  destruct form; cbn [formatted]; [exact H | |].
  - constructor; [reflexivity|]. apply List.Forall_app. split; [exact H|].
    constructor; [reflexivity | constructor].
  - constructor; [reflexivity | exact H].
Qed.

Lemma remove_char_text (c : N) (ip fp : list digit) :
  (forall x, numeric_char x -> (x =? c)%N = false) ->
  Str.remove_char c (decimal_text ip fp) = decimal_text ip fp.
Proof.
  intros H. apply remove_char_keeps.
  exact (forall_numeric _ _ H (decimal_text_numeric ip fp)).
Qed.

Lemma remove_char_same (c : N) (s : pystr) :
  Str.remove_char c (c :: s) = Str.remove_char c s.
Proof. unfold Str.remove_char. simpl. now rewrite N.eqb_refl. Qed.

Lemma remove_char_other (c x : N) (s : pystr) :
  (x =? c)%N = false -> Str.remove_char c (x :: s) = x :: Str.remove_char c s.
Proof. intros H. unfold Str.remove_char. simpl. now rewrite H. Qed.

Lemma remove_char_app (c : N) (s t : pystr) :
  Str.remove_char c (s ++ t) = Str.remove_char c s ++ Str.remove_char c t.
Proof. apply List.filter_app. Qed.

(** What is left of a form once the sign characters are removed. *)
Lemma formatted_unsigned (form : decimal_form) (ip fp : list digit) :
  form <> Bare ->
  Str.remove_char rparen
    (Str.remove_char lparen (Str.remove_char PyFloat.minus (formatted form ip fp)))
  = decimal_text ip fp.
Proof.
  assert (Hm : forall x, numeric_char x -> (x =? PyFloat.minus)%N = false)
    by (intros x Hx; now apply numeric_char_facts).
  assert (Hl : forall x, numeric_char x -> (x =? lparen)%N = false)
    by (intros x Hx; now apply numeric_char_facts).
  assert (Hr : forall x, numeric_char x -> (x =? rparen)%N = false)
    by (intros x Hx; now apply numeric_char_facts).
  intros Hform. destruct form; [congruence | |]; cbn [formatted].
  - rewrite (remove_char_other PyFloat.minus lparen) by reflexivity.
    rewrite remove_char_app, (remove_char_text _ _ _ Hm).
    rewrite (remove_char_other PyFloat.minus rparen) by reflexivity.
    rewrite remove_char_same.
    rewrite remove_char_app, (remove_char_text _ _ _ Hl).
    rewrite (remove_char_other lparen rparen) by reflexivity.
    rewrite remove_char_app, (remove_char_text _ _ _ Hr).
    rewrite remove_char_same. apply app_nil_r.
  - rewrite remove_char_same.
    now rewrite (remove_char_text _ _ _ Hm), (remove_char_text _ _ _ Hl),
      (remove_char_text _ _ _ Hr).
Qed.

Lemma formatted_is_negative (form : decimal_form) (d : digit) (ip fp : list digit) :
  Str.startswith (formatted form (d :: ip) fp) [PyFloat.minus]
  || Str.startswith (formatted form (d :: ip) fp) [lparen]
  = match form with Bare => false | _ => true end.
Proof.
  destruct form; cbn [formatted].
  - destruct (decimal_text_head d ip fp) as [rest ->].
    rewrite !startswith_head. now destruct d.
  - cbn [app]. now rewrite !startswith_head.
  - now rewrite !startswith_head.
Qed.

(** Both parsers read every form of a decimal as its value. *)
Lemma dv_tail_formatted (form : decimal_form) (d : digit) (ip fp : list digit) :
  dv_tail (formatted form (d :: ip) fp)
  = Return (Some (formatted_value form (d :: ip) fp)).
Proof.
  unfold dv_tail. cbv zeta.
  rewrite (strip_nonspace _ (formatted_nonspace form (d :: ip) fp)).
  rewrite formatted_is_negative.
  assert (Hrun : Str.re_search_run digit_or_dot (decimal_text (d :: ip) fp)
                 = Some (decimal_text (d :: ip) fp)).
  { destruct (decimal_text_head d ip fp) as [rest Hhead].
    pose proof (decimal_text_numeric (d :: ip) fp) as Hnum.
    rewrite Hhead in *. apply re_search_whole.
    apply (forall_numeric _ _ (fun c H => proj1 (numeric_char_facts c H)) Hnum). }
  destruct form; cbn [formatted_value].
  - cbn [formatted]. rewrite Hrun, float_decimal. reflexivity.
  - rewrite formatted_unsigned by discriminate.
    rewrite Hrun, float_decimal. reflexivity.
  - rewrite formatted_unsigned by discriminate.
    rewrite Hrun, float_decimal. reflexivity.
Qed.

Lemma fr_tail_formatted (form : decimal_form) (d : digit) (ip fp : list digit) :
  fr_tail (formatted form (d :: ip) fp)
  = Return (Some (formatted_value form (d :: ip) fp)).
Proof.
  unfold fr_tail. cbv zeta.
  rewrite (strip_nonspace _ (formatted_nonspace form (d :: ip) fp)).
  rewrite formatted_is_negative.
  destruct form; cbn [formatted_value].
  - cbn [formatted]. rewrite float_decimal. reflexivity.
  - rewrite formatted_unsigned by discriminate. rewrite float_decimal. reflexivity.
  - rewrite formatted_unsigned by discriminate. rewrite float_decimal. reflexivity.
Qed.

(** A form of a decimal is none of the strings that mean "no value". *)
Lemma formatted_not_null (form : decimal_form) (d : digit) (ip fp : list digit)
  (s : pystr) :
  In s [u ""; u "None"; u "nan"; u "-"; u "NaN"] ->
  formatted form (d :: ip) fp <> s.
Proof.
  intros Hs Heq.
  destruct (decimal_text_head d ip fp) as [rest Hhead].
  destruct form; cbn [formatted] in Heq; rewrite Hhead in Heq;
    simpl in Hs;
    destruct Hs as [<- | [<- | [<- | [<- | [<- | []]]]]];
    try discriminate Heq; destruct d; discriminate Heq.
Qed.

Lemma fr_null_cases (s : pystr) :
  fr_null s = true -> In s [u ""; u "None"; u "nan"; u "-"; u "NaN"].
Proof.
  unfold fr_null, Str.eqb. simpl existsb.
  rewrite !orb_true_iff, !bool_decide_eq_true. intros H. simpl.
  destruct H as [H | [H | [H | [H | [H | [H | H]]]]]]; try discriminate; auto 10.
Qed.

Lemma dv_parse_number_formatted (form : decimal_form) (d : digit)
  (ip fp : list digit) (s : pystr) :
  clean s = formatted form (d :: ip) fp ->
  _parse_number s = Return (Some (formatted_value form (d :: ip) fp)).
Proof.
  intros Hs. rewrite <- dv_parse_number_clean, dv_parse_number_unfold.
  rewrite clean_idempotent, Hs.
  destruct (dv_null (formatted form (d :: ip) fp)) eqn:Hnull.
  - exfalso. apply dv_null_cases in Hnull.
    apply (formatted_not_null form d ip fp (formatted form (d :: ip) fp));
      [|reflexivity].
    simpl. destruct Hnull as [H | [H | [H | H]]]; rewrite H; auto 10.
  - apply dv_tail_formatted.
Qed.

Lemma fr_parse_number_formatted (form : decimal_form) (d : digit)
  (ip fp : list digit) (s : pystr) :
  clean s = formatted form (d :: ip) fp ->
  FinancialReconciliation._parse_number s
  = Return (Some (formatted_value form (d :: ip) fp)).
Proof.
  intros Hs.
  change (FinancialReconciliation._parse_number s)
    with (if fr_null s then Return None else fr_tail (clean s)).
  destruct (fr_null s) eqn:Hnull.
  - exfalso. apply fr_null_cases in Hnull.
    assert (Hclean : clean s = s).
    { simpl in Hnull.
      destruct Hnull as [<- | [<- | [<- | [<- | [<- | []]]]]]; reflexivity. }
    rewrite Hclean in Hs.
    now apply (formatted_not_null form d ip fp s).
  - rewrite Hs. apply fr_tail_formatted.
Qed.

End DecimalText.

Section WhiteSpace.

Import DataValidator.

Lemma lstrip_white (w s : pystr) : white w -> Str.lstrip (w ++ s) = Str.lstrip s.
Proof.
  induction 1 as [|c w Hc _ IH]; [reflexivity|].
  cbn [app Str.lstrip]. now rewrite Hc.
Qed.

Lemma lstrip_app (s t : pystr) :
  Str.lstrip (s ++ t)
  = match Str.lstrip s with
    | [] => Str.lstrip t
    | _ => Str.lstrip s ++ t
    end.
Proof.
  induction s as [|c s IH]; [reflexivity|].
  cbn [app Str.lstrip]. destruct (Str.isspace c); [exact IH | reflexivity].
Qed.

Lemma white_rev (w : pystr) : white w -> white (rev w).
Proof. apply List.Forall_rev. Qed.

Lemma rstrip_white (s w : pystr) : white w -> Str.rstrip (s ++ w) = Str.rstrip s.
Proof.
  intros H. unfold Str.rstrip. rewrite List.rev_app_distr.
  now rewrite (lstrip_white _ _ (white_rev _ H)).
Qed.

Lemma lstrip_all_white (w : pystr) : white w -> Str.lstrip w = [].
Proof.
  intros H. rewrite <- (List.app_nil_r w). now rewrite lstrip_white.
Qed.

(** [strip] does not see white space at the two ends. *)
Lemma strip_white_ends (w1 s w2 : pystr) :
  white w1 -> white w2 -> Str.strip (w1 ++ s ++ w2) = Str.strip s.
Proof.
  intros H1 H2. unfold Str.strip. rewrite (lstrip_white _ _ H1), lstrip_app.
  destruct (Str.lstrip s) as [|c r] eqn:E.
  - now rewrite (lstrip_all_white _ H2).
  - now rewrite rstrip_white.
Qed.

Lemma lstrip_idempotent (s : pystr) : Str.lstrip (Str.lstrip s) = Str.lstrip s.
Proof.
  induction s as [|c s IH]; [reflexivity|].
  cbn [Str.lstrip]. destruct (Str.isspace c) eqn:Hc; [exact IH|].
  cbn [Str.lstrip]. now rewrite Hc.
Qed.

Lemma lstrip_suffix (s : pystr) : exists w, white w /\ s = w ++ Str.lstrip s.
Proof.
  induction s as [|c s [w [Hw IH]]];
    [exists []; split; [constructor | reflexivity]|].
  cbn [Str.lstrip]. destruct (Str.isspace c) eqn:Hc.
  - exists (c :: w). split; [now constructor|]. cbn [app]. now rewrite <- IH.
  - exists []. split; [constructor | reflexivity].
Qed.

(** A string is its stripped part between two runs of white space. *)
Lemma strip_decompose (s : pystr) :
  exists w1 w2, white w1 /\ white w2 /\ s = w1 ++ Str.strip s ++ w2.
Proof.
  destruct (lstrip_suffix s) as [w1 [H1 E1]].
  destruct (lstrip_suffix (rev (Str.lstrip s))) as [w2 [H2 E2]].
  exists w1, (rev w2). split; [exact H1|]. split; [now apply white_rev|].
  unfold Str.strip, Str.rstrip.
  rewrite <- List.rev_app_distr, <- E2, List.rev_involutive. exact E1.
Qed.

Lemma strip_idempotent (s : pystr) : Str.strip (Str.strip s) = Str.strip s.
Proof.
  destruct (strip_decompose s) as (w1 & w2 & H1 & H2 & E).
  rewrite E at 2. now rewrite strip_white_ends.
Qed.

Lemma white_clean (w : pystr) : white w -> white (clean w).
Proof.
  intros H. unfold clean, Str.remove_char, white in *.
  rewrite !List.Forall_forall in *. intros c Hc.
  apply List.filter_In in Hc. destruct Hc as [Hc _].
  apply List.filter_In in Hc. destruct Hc as [Hc _]. now apply H.
Qed.

Lemma clean_app (s t : pystr) : clean (s ++ t) = clean s ++ clean t.
Proof. unfold clean. now rewrite !remove_char_app. Qed.

(** White space at the two ends of a cell is gone once the cell is
    cleaned and stripped. *)
Lemma stripped_white_ends (w1 s w2 : pystr) :
  white w1 -> white w2 -> stripped (w1 ++ s ++ w2) = stripped s.
Proof.
  intros H1 H2. unfold stripped. rewrite !clean_app.
  apply strip_white_ends; now apply white_clean.
Qed.

Lemma dv_tail_stripped (c : pystr) : dv_tail c = dv_tail (Str.strip c).
Proof. unfold dv_tail. now rewrite strip_idempotent. Qed.

Lemma fr_tail_stripped (c : pystr) : fr_tail c = fr_tail (Str.strip c).
Proof. unfold fr_tail. now rewrite strip_idempotent. Qed.

(** A string that means "no value" holds no white space, comma or
    space: cleaning and stripping leave it alone. *)
Lemma null_stripped (s : pystr) :
  In s [u ""; u "None"; u "nan"; u "-"; u "NaN"] -> stripped s = s.
Proof.
  simpl. intros [<- | [<- | [<- | [<- | [<- | []]]]]]; reflexivity.
Qed.

Lemma null_not_white_ended (w1 s w2 : pystr) :
  white w1 -> white w2 ->
  In (w1 ++ s ++ w2) [u ""; u "None"; u "nan"; u "-"; u "NaN"] ->
  w1 ++ s ++ w2 = s.
Proof.
  intros H1 H2 Hin.
  assert (Hnone : List.Forall (fun c => Str.isspace c = false) (w1 ++ s ++ w2)).
  { simpl in Hin. destruct Hin as [<- | [<- | [<- | [<- | [<- | []]]]]];
      repeat constructor. }
  apply List.Forall_app in Hnone. destruct Hnone as [N1 N2].
  apply List.Forall_app in N2. destruct N2 as [_ N2].
  destruct w1 as [|c w1].
  - destruct w2 as [|c w2]; [now rewrite List.app_nil_r|].
    inversion H2; inversion N2; congruence.
  - inversion H1; inversion N1; congruence.
Qed.

Lemma dv_null_in (s : pystr) :
  dv_null s = true <-> In s [u ""; u "None"; u "nan"; u "-"].
Proof.
  split.
  - intros H. apply dv_null_cases in H.
    destruct H as [-> | [-> | [-> | ->]]]; simpl; auto.
  - simpl. intros [<- | [<- | [<- | [<- | []]]]]; reflexivity.
Qed.

Lemma fr_null_in (s : pystr) :
  fr_null s = true <-> In s [u ""; u "None"; u "nan"; u "-"; u "NaN"].
Proof.
  split; [apply fr_null_cases|].
  simpl. intros [<- | [<- | [<- | [<- | [<- | []]]]]]; reflexivity.
Qed.

(** The second validator reads a cell as it reads the cell without its
    commas and spaces, unless what is left is one of the strings it
    rejects before parsing. *)
Lemma fr_parse_number_clean (s : pystr) :
  ~ In (clean s) [u ""; u "None"; u "nan"; u "-"; u "NaN"] ->
  FinancialReconciliation._parse_number (clean s)
  = FinancialReconciliation._parse_number s.
Proof.
  intros Hc.
  change (FinancialReconciliation._parse_number (clean s))
    with (if fr_null (clean s) then Return None else fr_tail (clean (clean s))).
  change (FinancialReconciliation._parse_number s)
    with (if fr_null s then Return None else fr_tail (clean s)).
  rewrite clean_idempotent.
  destruct (fr_null (clean s)) eqn:Nc; [apply fr_null_in in Nc; contradiction|].
  destruct (fr_null s) eqn:Ns; [|reflexivity].
  apply fr_null_in in Ns. exfalso. apply Hc.
  simpl in Ns. destruct Ns as [<- | [<- | [<- | [<- | [<- | []]]]]];
    vm_compute; auto 10.
Qed.

(** The condition is needed: the strings that mean "no value" are
    looked for before the cell is cleaned, and [float] reads what is
    left of nan with a comma or a space as the float NaN. *)
Remark fr_parse_number_nan_separated :
  FinancialReconciliation._parse_number (u "nan,") = Return (Some nan)
  /\ FinancialReconciliation._parse_number (u " nan") = Return (Some nan)
  /\ FinancialReconciliation._parse_number (u "nan") = Return None.
Proof. repeat apply conj; vm_compute; reflexivity. Qed.

(** The first validator does not see white space at the two ends of
    a cell. *)
Lemma dv_parse_number_white_ends (w1 s w2 : pystr) :
  white w1 -> white w2 -> _parse_number (w1 ++ s ++ w2) = _parse_number s.
Proof.
  intros H1 H2. rewrite !dv_parse_number_unfold.
  rewrite (dv_tail_stripped (clean (w1 ++ s ++ w2))), (dv_tail_stripped (clean s)).
  fold (stripped (w1 ++ s ++ w2)). fold (stripped s).
  rewrite (stripped_white_ends _ _ _ H1 H2).
  destruct (dv_null (w1 ++ s ++ w2)) eqn:Nx.
  - apply dv_null_in in Nx.
    assert (E : w1 ++ s ++ w2 = s).
    { apply null_not_white_ended; try assumption.
      apply List.in_or_app with (l := [u ""; u "None"; u "nan"; u "-"]) (m := [u "NaN"]).
      now left. }
    rewrite E in Nx. apply dv_null_in in Nx. now rewrite Nx.
  - destruct (dv_null s) eqn:Ns; [|reflexivity].
    apply dv_null_in in Ns.
    rewrite null_stripped
      by (apply List.in_or_app with (l := [u ""; u "None"; u "nan"; u "-"])
                                    (m := [u "NaN"]); now left).
    simpl in Ns. destruct Ns as [<- | [<- | [<- | [<- | []]]]]; reflexivity.
Qed.

(** Nor does the second, on a cell that is none of the strings it
    rejects before parsing. *)
Lemma fr_parse_number_white_ends (w1 s w2 : pystr) :
  white w1 -> white w2 ->
  ~ In s [u ""; u "None"; u "nan"; u "-"; u "NaN"] ->
  FinancialReconciliation._parse_number (w1 ++ s ++ w2)
  = FinancialReconciliation._parse_number s.
Proof.
  intros H1 H2 Hs.
  change (FinancialReconciliation._parse_number (w1 ++ s ++ w2))
    with (if fr_null (w1 ++ s ++ w2) then Return None
          else fr_tail (clean (w1 ++ s ++ w2))).
  change (FinancialReconciliation._parse_number s)
    with (if fr_null s then Return None else fr_tail (clean s)).
  rewrite (fr_tail_stripped (clean (w1 ++ s ++ w2))), (fr_tail_stripped (clean s)).
  fold (stripped (w1 ++ s ++ w2)). fold (stripped s).
  rewrite (stripped_white_ends _ _ _ H1 H2).
  destruct (fr_null s) eqn:Ns; [apply fr_null_in in Ns; contradiction|].
  destruct (fr_null (w1 ++ s ++ w2)) eqn:Nx; [|reflexivity].
  apply fr_null_in in Nx. exfalso. apply Hs.
  now rewrite <- (null_not_white_ended w1 s w2 H1 H2 Nx).
Qed.

Lemma stripped_formatted_not_null (form : decimal_form) (d : digit)
  (ip fp : list digit) (s : pystr) :
  stripped s = formatted form (d :: ip) fp ->
  ~ In s [u ""; u "None"; u "nan"; u "-"; u "NaN"].
Proof.
  intros Hs Hin. rewrite (null_stripped s Hin) in Hs.
  now apply (formatted_not_null form d ip fp s).
Qed.

(** Both parsers read a decimal in any of its forms, whatever commas
    and spaces it holds and whatever white space surrounds it. *)
Lemma dv_parse_number_stripped (form : decimal_form) (d : digit)
  (ip fp : list digit) (s : pystr) :
  stripped s = formatted form (d :: ip) fp ->
  _parse_number s = Return (Some (formatted_value form (d :: ip) fp)).
Proof.
  intros Hs. pose proof (stripped_formatted_not_null _ _ _ _ _ Hs) as Hnull.
  rewrite dv_parse_number_unfold.
  destruct (dv_null s) eqn:N.
  - exfalso. apply Hnull. apply dv_null_in in N.
    apply List.in_or_app with (l := [u ""; u "None"; u "nan"; u "-"]) (m := [u "NaN"]).
    now left.
  - rewrite dv_tail_stripped. fold (stripped s). rewrite Hs.
    apply dv_tail_formatted.
Qed.

Lemma fr_parse_number_stripped (form : decimal_form) (d : digit)
  (ip fp : list digit) (s : pystr) :
  stripped s = formatted form (d :: ip) fp ->
  FinancialReconciliation._parse_number s
  = Return (Some (formatted_value form (d :: ip) fp)).
Proof.
  intros Hs. pose proof (stripped_formatted_not_null _ _ _ _ _ Hs) as Hnull.
  change (FinancialReconciliation._parse_number s)
    with (if fr_null s then Return None else fr_tail (clean s)).
  destruct (fr_null s) eqn:N.
  - exfalso. apply Hnull. now apply fr_null_in.
  - rewrite fr_tail_stripped. fold (stripped s). rewrite Hs.
    apply fr_tail_formatted.
Qed.

End WhiteSpace.

(** The first worked example is the parenthesized form of 1234.50. *)
Example formatted_example :
  clean (u "(1,234.50)") = formatted Parenthesized [D1; D2; D3; D4] [D5; D0]
  /\ formatted_value Parenthesized [D1; D2; D3; D4] [D5; D0] = (-1234.5)%float.
Proof. split; vm_compute; reflexivity. Qed.

Section ValueExtractor.

Import DataValidator.

Lemma dv_tail_sign (c : pystr) (v : float) :
  dv_tail c = Return (Some v) ->
  exists matched x,
    PyFloat.float matched = Return x
    /\ v = if negative_form c then (- x)%float else x.
Proof.
  unfold dv_tail, negative_form. cbv zeta.
  destruct (Str.re_search_run _ _) as [m|]; [|discriminate].
  destruct (float_value_or_error m) as [[x Hx] | Hx]; rewrite Hx; simpl.
  - intros [= <-]. now exists m, x.
  - discriminate.
Qed.

(** The claim as worded fails: white space other than U+0020 is not
    removed from the inside of a cell.  With a tab or a no-break space
    after its first digit, the cell 1000 is read as 1 by the first
    validator, which takes the first run of digits, and as no value by
    the second; with a space or a comma there, both read 1000. *)
Lemma C5_interior_white_space_is_kept :
  Str.isspace tab = true /\ Str.isspace no_break_space = true
  /\ _parse_number (u "1" ++ [tab] ++ u "000") = Return (Some 1%float)
  /\ _parse_number (u "1" ++ [no_break_space] ++ u "000") = Return (Some 1%float)
  /\ FinancialReconciliation._parse_number (u "1" ++ [tab] ++ u "000") = Return None
  /\ FinancialReconciliation._parse_number (u "1" ++ [no_break_space] ++ u "000")
     = Return None
  /\ _parse_number (u "1 000") = Return (Some 1000%float)
  /\ FinancialReconciliation._parse_number (u "1 000") = Return (Some 1000%float).
Proof. repeat apply conj; vm_compute; reflexivity. Qed.

(** C5 (amended).  The value extractor of both validators: the two
    worked examples; the four strings that mean "no value"; no
    exception on any input; every comma and every space (U+0020) is
    removed, and other white space is stripped at the two ends of the
    cell only; the sign is taken from a leading minus or parenthesis;
    and every decimal written bare, in parentheses or after a minus
    sign, with commas and spaces anywhere and white space around it,
    is read as the nearest float of its value. *)
Theorem C5_parse_number_contract :
  _parse_number (u "(1,234.50)") = Return (Some (-1234.5)%float)
  /\ _parse_number (u "1,000") = Return (Some 1000%float)
  /\ FinancialReconciliation._parse_number (u "(1,234.50)")
     = Return (Some (-1234.5)%float)
  /\ FinancialReconciliation._parse_number (u "1,000") = Return (Some 1000%float)
  /\ (_parse_number (u "") = Return None
      /\ _parse_number (u "None") = Return None
      /\ _parse_number (u "nan") = Return None
      /\ _parse_number (u "-") = Return None)
  /\ (FinancialReconciliation._parse_number (u "") = Return None
      /\ FinancialReconciliation._parse_number (u "None") = Return None
      /\ FinancialReconciliation._parse_number (u "nan") = Return None
      /\ FinancialReconciliation._parse_number (u "-") = Return None)
  /\ (forall s, exists r, _parse_number s = Return r)
  /\ (forall s, exists r, FinancialReconciliation._parse_number s = Return r)
  /\ (forall s, _parse_number (clean s) = _parse_number s)
  /\ (forall s,
        match _parse_number s with
        | Return (Some v) =>
          exists matched x,
            PyFloat.float matched = Return x
            /\ v = if negative_form (clean s) then (- x)%float else x
        | _ => True
        end)
  /\ (forall form d ip fp s,
        clean s = formatted form (d :: ip) fp ->
        _parse_number s = Return (Some (formatted_value form (d :: ip) fp)))
  /\ (forall form d ip fp s,
        clean s = formatted form (d :: ip) fp ->
        FinancialReconciliation._parse_number s
        = Return (Some (formatted_value form (d :: ip) fp)))
  /\ (forall s,
        ~ In (clean s) [u ""; u "None"; u "nan"; u "-"; u "NaN"] ->
        FinancialReconciliation._parse_number (clean s)
        = FinancialReconciliation._parse_number s)
  /\ (forall w1 s w2,
        white w1 -> white w2 ->
        _parse_number (w1 ++ s ++ w2) = _parse_number s)
  /\ (forall w1 s w2,
        white w1 -> white w2 ->
        ~ In s [u ""; u "None"; u "nan"; u "-"; u "NaN"] ->
        FinancialReconciliation._parse_number (w1 ++ s ++ w2)
        = FinancialReconciliation._parse_number s)
  /\ (forall form d ip fp s,
        stripped s = formatted form (d :: ip) fp ->
        _parse_number s = Return (Some (formatted_value form (d :: ip) fp))
        /\ FinancialReconciliation._parse_number s
           = Return (Some (formatted_value form (d :: ip) fp)))
  /\ (_parse_number ([tab] ++ u "-5" ++ [line_feed]) = Return (Some (-5)%float)
      /\ FinancialReconciliation._parse_number ([tab] ++ u "-5" ++ [line_feed])
         = Return (Some (-5)%float)
      /\ _parse_number ([no_break_space] ++ u "(1,234.50)" ++ [tab])
         = Return (Some (-1234.5)%float)
      /\ FinancialReconciliation._parse_number
           ([no_break_space] ++ u "(1,234.50)" ++ [tab])
         = Return (Some (-1234.5)%float)).
Proof.
  do 4 (split; [vm_compute; reflexivity|]).
  split; [repeat split; vm_compute; reflexivity|].
  split; [repeat split; vm_compute; reflexivity|].
  repeat apply conj.
  - apply dv_parse_number_returns.
  - apply fr_parse_number_returns.
  - apply dv_parse_number_clean.
  - intros s. destruct (_parse_number s) as [[v|]|] eqn:H; try exact I.
    rewrite dv_parse_number_unfold in H.
    destruct (dv_null s); [discriminate|].
    now apply dv_tail_sign.
  - apply dv_parse_number_formatted.
  - apply fr_parse_number_formatted.
  - apply fr_parse_number_clean.
  - apply dv_parse_number_white_ends.
  - apply fr_parse_number_white_ends.
  - intros form d ip fp s Hs. split.
    + now apply dv_parse_number_stripped.
    + now apply fr_parse_number_stripped.
  - vm_compute; reflexivity.
  - vm_compute; reflexivity.
  - vm_compute; reflexivity.
  - vm_compute; reflexivity.
Qed.

End ValueExtractor.

(* ===================================================================== *)
(** * The severity classifier *)
(* ===================================================================== *)

Section Severity.

Import DataValidator.

(** C4.  The severity classifier, for every difference and base
    value: with a zero base it answers High above 100 and Medium
    otherwise, never Low; with a non-zero base it answers High when
    the rate exceeds 0.01 or the difference exceeds 1000, otherwise
    Medium when the rate exceeds 0.001 or the difference exceeds 100,
    otherwise Low. *)
Theorem C4_assess_severity_thresholds (diff base_value : float) :
  let rate := abs (diff / base_value)%float in
  let s := _assess_severity diff base_value in
  if (base_value =? 0)%float then
    (s = High <-> gtb diff 100 = true)
    /\ (s = Medium <-> gtb diff 100 = false)
    /\ s <> Low
  else
    (s = High <-> gtb rate 0.01 = true \/ gtb diff 1000 = true)
    /\ (s = Medium <->
        ~ (gtb rate 0.01 = true \/ gtb diff 1000 = true)
        /\ (gtb rate 0.001 = true \/ gtb diff 100 = true))
    /\ (s = Low <->
        ~ (gtb rate 0.01 = true \/ gtb diff 1000 = true)
        /\ ~ (gtb rate 0.001 = true \/ gtb diff 100 = true)).
Proof.
  cbv zeta. unfold _assess_severity.
  destruct (base_value =? 0)%float.
  - destruct (gtb diff 100); repeat split; intros; congruence.
  - destruct (gtb (abs (diff / base_value)) 0.01), (gtb diff 1000),
      (gtb (abs (diff / base_value)) 0.001), (gtb diff 100);
      simpl; repeat split; intros; try congruence;
      repeat match goal with
      | H : _ /\ _ |- _ => destruct H
      | H : ~ (_ \/ _) |- _ => exfalso; apply H; auto
      | H : _ \/ _ |- _ => destruct H
      | |- _ \/ _ => (left; reflexivity) || (right; reflexivity)
      | |- ~ _ => intros [?|?]
      end; try congruence.
Qed.

End Severity.

(* ===================================================================== *)
(** * The synonym resolver *)
(* ===================================================================== *)

Section Substrings.

Lemma startswith_spec (s p : pystr) :
  Str.startswith s p = true <-> exists post, s = p ++ post.
Proof.
  revert s. induction p as [|c p IH]; intros s; simpl.
  - split; [intros _; now exists s | now destruct s].
  - destruct s as [|d s]; simpl;
      [split; [discriminate | intros [post H]; discriminate]|].
    rewrite andb_true_iff, N.eqb_eq, IH. split.
    + intros [-> [post ->]]. now exists post.
    + intros [post H]. injection H as -> ->. split; [reflexivity | now exists post].
Qed.

Lemma contains_spec (s sub : pystr) :
  Str.contains s sub = true <-> Substring sub s.
Proof.
  unfold Substring. induction s as [|c s IH].
  - change (Str.contains [] sub) with (Str.startswith [] sub || false).
    rewrite orb_false_r, startswith_spec. split.
    + intros [post H]. now exists [], post.
    + intros [pre [post H]]. destruct pre; [now exists post | discriminate].
  - change (Str.contains (c :: s) sub)
      with (Str.startswith (c :: s) sub || Str.contains s sub).
    rewrite orb_true_iff, startswith_spec, IH. split.
    + intros [[post H] | [pre [post H]]].
      * now exists [], post.
      * exists (c :: pre), post. simpl. now rewrite H.
    + intros [pre [post H]]. destruct pre as [|d pre].
      * left. now exists post.
      * right. injection H as -> ->. now exists pre, post.
Qed.

End Substrings.

Section SynonymResolver.

Import ReconciliationRules.

Lemma is_empty_true {A} (xs : list A) : is_empty xs = true <-> xs = [].
Proof. destruct xs; simpl; split; congruence. Qed.

Lemma balance_sheet_nonempty (item : pystr) (l : list pystr) :
  BALANCE_SHEET_RULES !! item = Some l -> is_empty l = false.
Proof.
  intros H. apply elem_of_list_to_map_2 in H.
  repeat (apply elem_of_cons in H; destruct H as [[= _ ->] | H]; [reflexivity|]).
  now apply elem_of_nil in H.
Qed.

Lemma income_statement_nonempty (item : pystr) (l : list pystr) :
  INCOME_STATEMENT_RULES !! item = Some l -> is_empty l = false.
Proof.
  intros H. apply elem_of_list_to_map_2 in H.
  repeat (apply elem_of_cons in H; destruct H as [[= _ ->] | H]; [reflexivity|]).
  now apply elem_of_nil in H.
Qed.

Lemma synonyms_for_aliases (item : pystr) : synonyms_for item = aliases item.
Proof.
  unfold synonyms_for, aliases, registered_synonyms.
  rewrite lookup_union.
  destruct (BALANCE_SHEET_RULES !! item) as [l|] eqn:Hb; simpl.
  - rewrite (balance_sheet_nonempty _ _ Hb).
    rewrite (balance_sheet_nonempty _ _ Hb).
    now destruct (INCOME_STATEMENT_RULES !! item).
  - destruct (INCOME_STATEMENT_RULES !! item) as [l|] eqn:Hi; simpl.
    + now rewrite (income_statement_nonempty _ _ Hi).
    + reflexivity.
Qed.

Lemma some_synonym_matches_existsb (synonyms : list pystr) (note_item : pystr) :
  some_synonym_matches synonyms note_item
  = existsb (fun a => Str.contains note_item a || Str.contains a note_item) synonyms.
Proof.
  induction synonyms as [|a l IH]; simpl; [reflexivity|].
  rewrite IH. now destruct (_ || _).
Qed.

Lemma fold_append_filter {A} (p : A -> bool) (xs acc : list A) :
  fold_left (fun matches x => if p x then matches ++ [x] else matches) xs acc
  = acc ++ List.filter p xs.
Proof.
  revert acc. induction xs as [|x xs IH]; intros acc; simpl.
  - now rewrite app_nil_r.
  - rewrite IH. destruct (p x); [|reflexivity].
    now rewrite <- app_assoc.
Qed.

(** C8.  [find_matching_items] keeps exactly the candidate labels that
    contain an alias of the item or are contained in one, each
    occurrence once and in the order of the candidates; the aliases
    are the registered synonyms of the item, or the item itself when
    it has none. *)
Theorem C8_find_matching_items_filter (main_item : pystr) (note_items : list pystr) :
  synonyms_for main_item = aliases main_item
  /\ (forall label,
        label_matches main_item label = true <->
        exists a, In a (aliases main_item)
                  /\ (Substring a label \/ Substring label a))
  /\ find_matching_items main_item note_items
     = List.filter (label_matches main_item) note_items
  /\ (forall label,
        occurrences label (find_matching_items main_item note_items)
        = if label_matches main_item label
          then occurrences label note_items
          else 0%nat).
Proof.
  assert (Hf : find_matching_items main_item note_items
               = List.filter (label_matches main_item) note_items).
  { unfold find_matching_items. rewrite fold_append_filter. simpl.
    apply filter_ext. intros label.
    now rewrite some_synonym_matches_existsb, synonyms_for_aliases. }
  split; [apply synonyms_for_aliases|].
  split; [|split; [exact Hf|]].
  - intros label. unfold label_matches. rewrite existsb_exists.
    split; intros [a [Ha H]]; exists a; split; auto.
    + apply orb_true_iff in H. now rewrite <- !contains_spec.
    + apply orb_true_iff. now rewrite !contains_spec.
  - intros label. rewrite Hf. clear Hf. unfold occurrences.
    induction note_items as [|x xs IH]; simpl.
    + now destruct (label_matches main_item label).
    + destruct (label_matches main_item x) eqn:Hx; simpl.
      * destruct (Str.eqb label x) eqn:Hl; simpl; rewrite IH.
        -- apply bool_decide_eq_true in Hl. subst x. now rewrite Hx.
        -- reflexivity.
      * rewrite IH. destruct (Str.eqb label x) eqn:Hl; simpl.
        -- apply bool_decide_eq_true in Hl. subst x. now rewrite Hx.
        -- reflexivity.
Qed.

End SynonymResolver.

(* ===================================================================== *)
(** * Extraction from a table *)
(* ===================================================================== *)

Section Extraction.

Import DataValidator.

Lemma parse_number_parsed (s : pystr) : _parse_number s = Return (parsed s).
Proof.
  unfold parsed. destruct (dv_parse_number_returns s) as [r ->]. reflexivity.
Qed.

Lemma fr_parse_number_parsed (s : pystr) :
  FinancialReconciliation._parse_number s = Return (fr_parsed s).
Proof.
  unfold fr_parsed. destruct (fr_parse_number_returns s) as [r ->]. reflexivity.
Qed.

Lemma first_parsable_head (cells : list pystr) :
  first_parsable cells = Return (head (omap parsed cells)).
Proof.
  induction cells as [|c cs IH]; [reflexivity|].
  cbn [first_parsable]. rewrite parse_number_parsed. cbn [bind omap list_omap].
  destruct (parsed c); [reflexivity | exact IH].
Qed.

Lemma scan_rows_head (item_name : pystr) (rs : list (list pystr)) :
  scan_rows item_name rs
  = Return (head (omap row_value (List.filter (label_contains item_name) rs))).
Proof.
  induction rs as [|row rs IH]; [reflexivity|].
  cbn [scan_rows List.filter]. fold (label_contains item_name row).
  destruct (label_contains item_name row); [|exact IH].
  rewrite first_parsable_head. fold (row_value row).
  cbn [bind omap list_omap]. destruct (row_value row); [reflexivity | exact IH].
Qed.

Lemma extract_value_extracted (table : option DataFrame) (item_name : pystr) :
  _extract_value table item_name = Return (extracted table item_name).
Proof.
  unfold _extract_value, extracted.
  destruct (table_is_blank table); [reflexivity | apply scan_rows_head].
Qed.

Lemma scan_rows_at_first (item_name : pystr) (col : nat) (rs : list (list pystr)) :
  scan_rows_at item_name col rs
  = match List.filter (label_contains item_name) rs with
    | [] => Return None
    | row :: _ =>
      match nth_error row col with
      | Some value_str => Return (parsed value_str)
      | None => Raise KeyError
      end
    end.
Proof.
  induction rs as [|row rs IH]; [reflexivity|].
  cbn [scan_rows_at List.filter]. fold (label_contains item_name row).
  destruct (label_contains item_name row); [|exact IH].
  destruct (nth_error row col); [apply parse_number_parsed | reflexivity].
Qed.

Lemma fr_scan_aliases_value (row : list pystr) (col : nat) (item_names : list pystr) :
  row <> [] ->
  FinancialReconciliation.scan_aliases row (Z.of_nat col) item_names
  = Return (fr_row_value col item_names row).
Proof.
  intros Hrow. unfold fr_row_value.
  destruct row as [|c0 row0]; [congruence|]. cbn [ReconciliationRules.is_empty].
  set (row := c0 :: row0).
  assert (Hcell :
    (if (Z.of_nat col <? Z.of_nat (length row))%Z
     then FinancialReconciliation.iloc row (Z.of_nat col) else Return [])
    = Return (nth col row [])).
  { destruct (Z.of_nat col <? Z.of_nat (length row))%Z eqn:Hlt.
    - unfold FinancialReconciliation.iloc. cbv zeta.
      assert ((Z.of_nat col <? 0)%Z = false) as E by (apply Z.ltb_ge; lia).
      rewrite !E, Nat2Z.id.
      apply Z.ltb_lt in Hlt. apply Nat2Z.inj_lt in Hlt.
      destruct (nth_error row col) eqn:Hn.
      + now rewrite (nth_error_nth _ _ _ Hn).
      + apply nth_error_None in Hn. lia.
    - apply Z.ltb_ge in Hlt. apply Nat2Z.inj_le in Hlt.
      now rewrite nth_overflow. }
  induction item_names as [|item_name rest IH]; [reflexivity|].
  cbn [FinancialReconciliation.scan_aliases existsb].
  destruct (Str.contains (first_col row) item_name); cbn [orb].
  - rewrite Hcell. cbn [bind]. rewrite fr_parse_number_parsed. cbn [bind].
    destruct (fr_parsed (nth col row [])) eqn:Hp; [reflexivity|].
    rewrite IH. now destruct (existsb _ rest).
  - exact IH.
Qed.

Lemma fr_scan_rows_head (rs : list (list pystr)) (col : nat) (item_names : list pystr) :
  FinancialReconciliation.scan_rows rs (Z.of_nat col) item_names
  = Return (head (omap (fr_row_value col item_names) rs)).
Proof.
  induction rs as [|row rs IH]; [reflexivity|].
  cbn [FinancialReconciliation.scan_rows omap list_omap].
  destruct row as [|c0 row0].
  - cbn [ReconciliationRules.is_empty]. unfold fr_row_value at 1.
    cbn [ReconciliationRules.is_empty]. exact IH.
  - cbn [ReconciliationRules.is_empty].
    rewrite fr_scan_aliases_value by discriminate. cbn [bind].
    destruct (fr_row_value col item_names (c0 :: row0)); [reflexivity | exact IH].
Qed.

Lemma find_value_in_df_head (df : option DataFrame) (item_names : list pystr)
  (col : nat) :
  FinancialReconciliation._find_value_in_df df item_names (Z.of_nat col)
  = Return
      (if table_is_blank df then None
       else if (length (table_columns df) <=? col)%nat
       then None
       else head (omap (fr_row_value col item_names) (table_rows df))).
Proof.
  unfold FinancialReconciliation._find_value_in_df.
  destruct df as [t|]; [|reflexivity].
  destruct (table_is_blank (Some t)); [reflexivity|].
  cbn [table_columns table_rows].
  assert ((Z.of_nat col <? 0)%Z = false) as -> by (apply Z.ltb_ge; lia).
  destruct (length (columns t) <=? col)%nat eqn:Hle.
  - apply Nat.leb_le in Hle.
    assert ((Z.of_nat (length (columns t)) <=? Z.of_nat col)%Z = true) as ->
      by (apply Z.leb_le; lia).
    reflexivity.
  - apply Nat.leb_gt in Hle.
    assert ((Z.of_nat (length (columns t)) <=? Z.of_nat col)%Z = false) as ->
      by (apply Z.leb_gt; lia).
    apply fr_scan_rows_head.
Qed.

(** The claim as worded fails: a heading row that contains the item
    but carries no number does not end the search of
    [_extract_value]. *)
Lemma C3_first_match_does_not_win :
  let table :=
    Some {| columns := [u "项目"; u "本期金额"; u "上期金额"];
            rows := [[u "资产："; u ""; u ""];
                     [u "资产总计"; u "1000000"; u "900000"]] |} in
  _extract_value table (u "资产") = Return (Some 1000000%float)
  /\ first_match_wins table (u "资产") = None.
Proof. split; vm_compute; reflexivity. Qed.

(** C3 (amended).  [_extract_value] returns the first value found when
    the rows whose label contains the item are visited top to bottom,
    a row giving the leftmost parsable cell among its cells 1 to 3 and
    being passed over when it has none; [_find_value_in_df] does the
    same for one column and a list of aliases; only
    [_extract_value_from_column] decides at the first row whose label
    contains the item. *)
Theorem C3_extract_value_first_value :
  (forall table item_name,
     _extract_value table item_name = Return (extracted table item_name))
  /\ (forall df item_names (col : nat),
        FinancialReconciliation._find_value_in_df df item_names (Z.of_nat col)
        = Return
            (if table_is_blank df then None
             else if (length (table_columns df) <=? col)%nat
             then None
             else head (omap (fr_row_value col item_names) (table_rows df))))
  /\ (forall t item_name column_keywords,
        _extract_value_from_column (Some t) item_name column_keywords
        = if table_is_blank (Some t) then Return None
          else
            match find_target_col (columns t) column_keywords with
            | None => Return None
            | Some target_col =>
              match List.filter (label_contains item_name) (rows t) with
              | [] => Return None
              | row :: _ =>
                match nth_error row target_col with
                | Some value_str => Return (parsed value_str)
                | None => Raise KeyError
                end
              end
            end).
Proof.
  split; [exact extract_value_extracted|].
  split; [exact find_value_in_df_head|].
  intros t item_name column_keywords. unfold _extract_value_from_column.
  destruct (table_is_blank (Some t)); [reflexivity|].
  destruct (find_target_col (columns t) column_keywords); [|reflexivity].
  apply scan_rows_at_first.
Qed.

End Extraction.

(* ===================================================================== *)
(** * Summation *)
(* ===================================================================== *)

Section Loops.

(** A loop whose body never raises and only appends. *)
Lemma for_each_append {A B} (g : A -> list B) (body : list B -> A -> py (list B)) :
  (forall st x, body st x = Return (st ++ g x)) ->
  forall xs st, for_each xs st body = Return (st ++ flat_map g xs).
Proof.
  intros Hbody xs. induction xs as [|x xs IH]; intros st; simpl.
  - now rewrite app_nil_r.
  - rewrite Hbody. simpl. rewrite IH. now rewrite <- app_assoc.
Qed.

Lemma flat_map_option {A B} (f : A -> option B) (xs : list A) :
  flat_map (fun x => match f x with Some y => [y] | None => [] end) xs = omap f xs.
Proof.
  induction xs as [|x xs IH]; [reflexivity|].
  cbn [flat_map omap list_omap]. rewrite IH. now destruct (f x).
Qed.

End Loops.

Section Summation.

Import DataValidator.

Lemma collect_sub_values_omap (table : option DataFrame) (sub_items : list pystr) :
  collect_sub_values table sub_items = Return (omap (extracted table) sub_items).
Proof.
  unfold collect_sub_values.
  rewrite (for_each_append
             (fun sub_item =>
                match extracted table sub_item with Some v => [v] | None => [] end)).
  - simpl. now rewrite flat_map_option.
  - intros st x. rewrite extract_value_extracted. simpl.
    destruct (extracted table x); [reflexivity | now rewrite app_nil_r].
Qed.

Lemma validate_summation_steps (tolerance : float) (table : option DataFrame)
  (summation_rules : list (pystr * list pystr)) :
  validate_summation tolerance table summation_rules
  = Return (flat_map (summation_step tolerance table) summation_rules).
Proof.
  unfold validate_summation.
  rewrite (for_each_append (summation_step tolerance table)); [reflexivity|].
  intros st [total_item sub_items]. unfold summation_step. cbn [fst snd].
  rewrite extract_value_extracted, collect_sub_values_omap. cbn [bind].
  destruct (extracted table total_item) as [total_value|];
    [|simpl; now rewrite app_nil_r].
  destruct (omap (extracted table) sub_items) as [|v vs];
    [simpl; now rewrite app_nil_r|].
  cbn [ReconciliationRules.is_empty negb].
  destruct (gtb _ tolerance); simpl; [reflexivity | now rewrite app_nil_r].
Qed.

Lemma summation_step_sound (tolerance : float) (table : option DataFrame)
  (rule : pystr * list pystr) (d : SummationDifference) :
  In d (summation_step tolerance table rule) ->
  exists total_value,
    extracted table (fst rule) = Some total_value
    /\ omap (extracted table) (snd rule) <> []
    /\ sm_reported_total d = total_value
    /\ sm_calculated_total d = sum (omap (extracted table) (snd rule))
    /\ sm_difference d
       = abs (total_value - sum (omap (extracted table) (snd rule)))%float
    /\ gtb (sm_difference d) tolerance = true.
Proof.
  unfold summation_step.
  destruct (extracted table (fst rule)) as [total_value|]; [|intros []].
  destruct (omap (extracted table) (snd rule)) as [|v vs] eqn:Hs; [intros []|].
  destruct (gtb _ tolerance) eqn:Hgt; [|intros []].
  intros [<- | []]. exists total_value. simpl. repeat split; auto; discriminate.
Qed.

(** C7.  On the worked example nothing is reported, nor is anything
    reported there for a rule none of whose sub-items has a value (a
    missing value is not a zero); in general the
    report is, rule by rule, one record when the total item has a value,
    some sub-item has a value and the total differs by more than the
    tolerance from the sum of the sub-item values that exist (the
    sub-items without a value add nothing), and no record otherwise. *)
Theorem C7_validate_summation :
  validate_summation 2 example_table
    [(u "资产总计", [u "流动资产"; u "非流动资产"])] = Return []
  /\ validate_summation 2 example_table
       [(u "资产总计", [u "长期股权投资"; u "固定资产"])] = Return []
  /\ (forall tolerance table summation_rules,
        validate_summation tolerance table summation_rules
        = Return (flat_map (summation_step tolerance table) summation_rules))
  /\ (forall tolerance table summation_rules d,
        In d (flat_map (summation_step tolerance table) summation_rules) ->
        exists total_item sub_items total_value,
          In (total_item, sub_items) summation_rules
          /\ extracted table total_item = Some total_value
          /\ sm_reported_total d = total_value
          /\ sm_calculated_total d = sum (omap (extracted table) sub_items)
          /\ sm_difference d
             = abs (total_value - sum (omap (extracted table) sub_items))%float
          /\ gtb (sm_difference d) tolerance = true).
Proof.
  split; [vm_compute; reflexivity|].
  split; [vm_compute; reflexivity|].
  split; [exact validate_summation_steps|].
  intros tolerance table summation_rules d Hd.
  apply in_flat_map in Hd. destruct Hd as [[total_item sub_items] [Hin Hd]].
  apply summation_step_sound in Hd. destruct Hd as [total_value H].
  exists total_item, sub_items, total_value. simpl in H. tauto.
Qed.

End Summation.

(* ===================================================================== *)
(** * The table reconciler *)
(* ===================================================================== *)

Section TableReconciler.

Import DataValidator.

Lemma reconcile_tables_steps (tolerance : float)
  (main_table note_table : option DataFrame) (main_name note_name : pystr) :
  _reconcile_tables tolerance main_table note_table main_name note_name
  = Return
      (if table_is_blank main_table then []
       else flat_map (item_step tolerance main_table note_table main_name note_name)
              (first_column main_table)).
Proof.
  unfold _reconcile_tables.
  destruct (table_is_blank main_table); [reflexivity|].
  fold (note_labels note_table).
  rewrite (for_each_append
             (item_step tolerance main_table note_table main_name note_name));
    [reflexivity|].
  intros st main_item. unfold item_step. fold (blank_label main_item).
  destruct (blank_label main_item); [simpl; now rewrite app_nil_r|].
  destruct (ReconciliationRules.find_matching_items main_item (note_labels note_table))
    as [|x xs] eqn:Hm; [simpl; now rewrite app_nil_r|].
  cbn [ReconciliationRules.is_empty negb].
  rewrite extract_value_extracted. cbn [bind].
  apply for_each_append. intros st' note_item.
  rewrite extract_value_extracted. cbn [bind]. unfold pair_step.
  destruct (extracted main_table main_item) as [m|];
    [|simpl; now rewrite app_nil_r].
  destruct (extracted note_table note_item) as [n|];
    [|simpl; now rewrite app_nil_r].
  unfold reconciliation_record.
  destruct (gtb _ tolerance); [reflexivity | simpl; now rewrite app_nil_r].
Qed.

Lemma validate_reconciliation_steps (tolerance : float)
  (main_table note_table : option DataFrame) (mapping : list (pystr * pystr)) :
  validate_reconciliation tolerance main_table note_table mapping
  = Return
      (flat_map
         (fun p =>
            pair_step tolerance None None (fst p) (snd p)
              (extracted main_table (fst p)) (extracted note_table (snd p)))
         mapping).
Proof.
  unfold validate_reconciliation.
  rewrite (for_each_append
             (fun p =>
                pair_step tolerance None None (fst p) (snd p)
                  (extracted main_table (fst p)) (extracted note_table (snd p))));
    [reflexivity|].
  intros st [main_item note_item]. cbn [fst snd].
  rewrite !extract_value_extracted. cbn [bind]. unfold pair_step.
  destruct (extracted main_table main_item) as [m|];
    [|simpl; now rewrite app_nil_r].
  destruct (extracted note_table note_item) as [n|];
    [|simpl; now rewrite app_nil_r].
  unfold reconciliation_record.
  destruct (gtb _ tolerance); [reflexivity | simpl; now rewrite app_nil_r].
Qed.

Lemma float_neq_by_ltb (x y z : float) :
  (x <? z)%float <> (y <? z)%float -> x <> y.
Proof. intros H ->. now apply H. Qed.

(** The claim as worded fails: the rate recorded for a difference of
    10 on a main value of 100 is 10 (a percentage), while
    [difference / main_value] is 0.1. *)
Lemma C2_rate_is_a_percentage :
  exists r,
    _reconcile_tables 2 cash_main cash_note (u "资产负债表主表") (u "货币资金附注")
    = Return [r]
    /\ rc_difference_rate r = 10%float
    /\ (rc_difference r / rc_main_value r)%float = 0.1%float
    /\ rc_difference_rate r <> (rc_difference r / rc_main_value r)%float.
Proof.
  eexists. split; [vm_compute; reflexivity|]. cbn [rc_difference_rate rc_difference rc_main_value].
  split; [reflexivity|]. split; [vm_compute; reflexivity|].
  apply (float_neq_by_ltb _ _ 1%float). vm_compute. discriminate.
Qed.

(** C2 (amended).  For a pair of items whose two values exist the
    table reconciler appends a record exactly when the absolute
    difference exceeds the tolerance, and the record's rate is
    [difference / main_value * 100], or 0 for a zero main value; the
    whole report is the concatenation of these contributions over the
    non-blank row labels of the main table and their matches among the
    note labels, and over the given pairs for [validate_reconciliation]. *)
Theorem C2_reconcile_tables_records :
  (forall tolerance main_name note_name main_item note_item m n r,
     In r (pair_step tolerance main_name note_name main_item note_item
             (Some m) (Some n))
     <-> gtb (abs (m - n)%float) tolerance = true
         /\ r = reconciliation_record tolerance main_name note_name
                  main_item note_item m n)
  /\ (forall tolerance main_name note_name main_item note_item m n,
        let r := reconciliation_record tolerance main_name note_name
                   main_item note_item m n in
        rc_difference r = abs (m - n)%float
        /\ rc_difference_rate r
           = if neqb m 0 then (abs (m - n) / m * 100)%float else 0%float)
  /\ (forall tolerance main_table note_table main_name note_name,
        _reconcile_tables tolerance main_table note_table main_name note_name
        = Return
            (if table_is_blank main_table then []
             else flat_map
                    (item_step tolerance main_table note_table main_name note_name)
                    (first_column main_table)))
  /\ (forall tolerance main_table note_table mapping,
        validate_reconciliation tolerance main_table note_table mapping
        = Return
            (flat_map
               (fun p =>
                  pair_step tolerance None None (fst p) (snd p)
                    (extracted main_table (fst p)) (extracted note_table (snd p)))
               mapping)).
Proof.
  split; [|split; [|split]].
  - intros. unfold pair_step. destruct (gtb _ tolerance); simpl.
    + split; [intros [<- | []]; auto | intros [_ ->]; auto].
    + split; [intros [] | intros [H _]; discriminate].
  - intros. split; reflexivity.
  - exact reconcile_tables_steps.
  - exact validate_reconciliation_steps.
Qed.

End TableReconciler.

(* ===================================================================== *)
(** * Cross-period reconciliation *)
(* ===================================================================== *)

Section CrossPeriod.

Import DataValidator.

Lemma validate_cross_year_contributions (current_report previous_report : Report)
  (items : list pystr) :
  validate_cross_year current_report previous_report items
  = Return (flat_map (cross_year_contribution current_report previous_report) items).
Proof.
  unfold validate_cross_year.
  rewrite (for_each_append
             (cross_year_contribution current_report previous_report));
    [reflexivity|].
  intros st item.
  unfold cross_year_contribution, prior_in_current, current_in_prior.
  destruct (_extract_last_year_value current_report item) as [[c|]|e];
    destruct (_extract_current_year_value previous_report item) as [[p|]|e'];
    cbn [bind try_except_all value_or_none]; try (now rewrite app_nil_r).
  unfold cross_year_record.
  destruct (neqb c p); cbn [try_except_all]; [reflexivity | now rewrite app_nil_r].
Qed.

Lemma validate_cross_year_consistency_omap (tolerance : float)
  (current_year_data previous_year_data : gmap pystr float) :
  FinancialReconciliation.validate_cross_year_consistency tolerance
    current_year_data previous_year_data
  = omap (consistency_contribution tolerance current_year_data previous_year_data)
      FinancialReconciliation.cross_year_items.
Proof.
  unfold FinancialReconciliation.validate_cross_year_consistency.
  generalize FinancialReconciliation.cross_year_items as entries.
  assert (H : forall entries acc,
    fold_left (FinancialReconciliation.cross_year_step tolerance
                 current_year_data previous_year_data) entries acc
    = acc ++ omap (consistency_contribution tolerance
                     current_year_data previous_year_data) entries).
  { induction entries as [|[[ck pk] nm] entries IH]; intros acc.
    - simpl. now rewrite app_nil_r.
    - cbn [fold_left omap list_omap]. rewrite IH.
      unfold FinancialReconciliation.cross_year_step, consistency_contribution.
      cbn [fst snd].
      destruct (current_year_data !! ck) as [c|]; [|reflexivity].
      destruct (previous_year_data !! pk) as [p|]; [|reflexivity].
      now rewrite <- app_assoc. }
  intros entries. now rewrite H.
Qed.

(** The claim as worded fails on [validate_cross_year_consistency]:
    with its tolerance of 0.01 a comparative restated from 100 to
    100.005 is recorded as consistent. *)
Lemma C1_restatement_within_tolerance_passes :
  neqb 100.005 100 = true
  /\ map FinancialReconciliation.x_is_pass
       (FinancialReconciliation.validate_cross_year_consistency 0.01
          restated_current restated_previous)
     = [true].
Proof. split; vm_compute; reflexivity. Qed.

(** C1 (amended).  [validate_cross_year] reports, item by item and in
    order, one High record when both extractions give a value and the
    two values are not equal, whatever the size of the difference, and
    nothing otherwise (also when an extraction gives no value or
    fails); [validate_cross_year_consistency] instead records every
    entry whose two values are present, and marks it passed exactly
    when the absolute difference is at most the tolerance. *)
Theorem C1_cross_year_exact_and_tolerant :
  (forall current_report previous_report items,
     validate_cross_year current_report previous_report items
     = Return (flat_map (cross_year_contribution current_report previous_report)
                 items))
  /\ (forall current_report previous_report item r,
        In r (cross_year_contribution current_report previous_report item)
        <-> exists c p,
              prior_in_current current_report item = Some c
              /\ current_in_prior previous_report item = Some p
              /\ neqb c p = true
              /\ r = cross_year_record item c p)
  /\ (forall current_report previous_report item,
        (length (cross_year_contribution current_report previous_report item) <= 1)%nat)
  /\ (forall item c p, cy_severity (cross_year_record item c p) = High)
  /\ (forall tolerance current_year_data previous_year_data,
        FinancialReconciliation.validate_cross_year_consistency tolerance
          current_year_data previous_year_data
        = omap (consistency_contribution tolerance
                  current_year_data previous_year_data)
            FinancialReconciliation.cross_year_items)
  /\ (forall tolerance item_name c p,
        FinancialReconciliation.x_is_pass (consistency_record tolerance item_name c p)
        = (abs (c - p) <=? tolerance)%float).
Proof.
  split; [exact validate_cross_year_contributions|].
  split; [|split; [|split; [|split]]].
  - intros current_report previous_report item r.
    unfold cross_year_contribution.
    destruct (prior_in_current current_report item) as [c|].
    + destruct (current_in_prior previous_report item) as [p|].
      * destruct (neqb c p) eqn:Hne; simpl.
        -- split.
           ++ intros [<- | []]. now exists c, p.
           ++ intros [c' [p' [[= <-] [[= <-] [_ ->]]]]]. now left.
        -- split; [intros [] |].
           intros [c' [p' [[= <-] [[= <-] [H _]]]]]. congruence.
      * split; [intros [] | intros [c' [p' [_ [H _]]]]; discriminate].
    + split; [intros [] | intros [c' [p' [H _]]]; discriminate].
  - intros current_report previous_report item. unfold cross_year_contribution.
    destruct (prior_in_current current_report item) as [c|]; [|simpl; lia].
    destruct (current_in_prior previous_report item) as [p|]; [|simpl; lia].
    destruct (neqb c p); simpl; lia.
  - reflexivity.
  - exact validate_cross_year_consistency_omap.
  - reflexivity.
Qed.

End CrossPeriod.

(* ===================================================================== *)
(** * The rule evaluator *)
(* ===================================================================== *)

Section RuleEvaluator.

Import FinancialReconciliation.

Lemma missing_items_empty (rule : Rule) (financial_data : gmap pystr float) :
  List.filter (fun item => negb (bool_decide (is_Some (financial_data !! item))))
    (items rule) = []
  <-> forall item, In item (items rule) -> is_Some (financial_data !! item).
Proof.
  induction (items rule) as [|x xs IH]; simpl.
  - split; [intros _ item [] | reflexivity].
  - destruct (bool_decide (is_Some (financial_data !! x))) eqn:Hx; simpl.
    + apply bool_decide_eq_true in Hx. rewrite IH. split.
      * intros H item [<- | Hin]; auto.
      * intros H item Hin. apply H. now right.
    + apply bool_decide_eq_false in Hx. split; [discriminate|].
      intros H. exfalso. apply Hx, H. now left.
Qed.

Lemma all_present_spec (rule : Rule) (financial_data : gmap pystr float) :
  all_present rule financial_data = true
  <-> forall item, In item (items rule) -> is_Some (financial_data !! item).
Proof.
  unfold all_present. rewrite forallb_forall.
  split; intros H item Hin.
  - specialize (H item Hin). now apply bool_decide_eq_true in H.
  - apply bool_decide_eq_true. now apply H.
Qed.

(** Every built-in rule has a predicate that returns on every data. *)
Lemma builtin_checks_return (rule : Rule) (financial_data : gmap pystr float) :
  In rule reconciliation_rules -> returns (check rule financial_data).
Proof.
  unfold reconciliation_rules, balance_sheet_internal, income_statement_internal,
    income_to_balance, net_asset_changes. simpl.
  intros H.
  repeat (destruct H as [<- | H]; [eexists; reflexivity|]).
  destruct H.
Qed.

(** [_check_rule] for a rule whose predicate returns. *)
Lemma check_rule_cases (tolerance : float) (rule : Rule)
  (financial_data : gmap pystr float) (category : pystr) (difference : float) :
  check rule financial_data = Return difference ->
  _check_rule tolerance rule financial_data category
  = Return
      (if all_present rule financial_data
       then Some (rule_result tolerance rule financial_data category difference)
       else None).
Proof.
  intros Hcheck. unfold _check_rule.
  destruct (List.filter _ (items rule)) as [|x xs] eqn:Hmiss.
  - rewrite (proj2 (all_present_spec rule financial_data)
               (proj1 (missing_items_empty rule financial_data) Hmiss)).
    cbn [ReconciliationRules.is_empty negb]. rewrite Hcheck. reflexivity.
  - destruct (all_present rule financial_data) eqn:Hall; [|reflexivity].
    pose proof (proj2 (missing_items_empty rule financial_data)
                  (proj1 (all_present_spec rule financial_data) Hall)).
    congruence.
Qed.

(** [_check_rule] never raises, whatever the predicate does. *)
Lemma check_rule_returns (tolerance : float) (rule : Rule)
  (financial_data : gmap pystr float) (category : pystr) :
  exists outcome, _check_rule tolerance rule financial_data category = Return outcome.
Proof.
  unfold _check_rule.
  destruct (negb _); [now exists None|].
  destruct (check rule financial_data) as [difference | e]; simpl.
  - eexists; reflexivity.
  - now exists None.
Qed.

Lemma check_rule_missing (tolerance : float) (rule : Rule)
  (financial_data : gmap pystr float) (category : pystr) :
  (exists item, In item (items rule) /\ financial_data !! item = None) ->
  _check_rule tolerance rule financial_data category = Return None.
Proof.
  intros [item [Hin Hnone]]. unfold _check_rule.
  destruct (List.filter _ (items rule)) as [|x xs] eqn:Hmiss; [|reflexivity].
  pose proof (proj1 (missing_items_empty rule financial_data) Hmiss item Hin)
    as [v Hv].
  congruence.
Qed.

(** C6.  [_check_rule] never raises; it returns [None] when some
    required item is absent from the data; and for a rule whose
    predicate returns a difference on the data (every built-in rule's
    does) it returns [None] exactly in that case, and otherwise a
    result holding that difference and whose [is_pass] is
    [difference <= tolerance]. *)
Theorem C6_check_rule_applicability (tolerance : float) (rule : Rule)
  (financial_data : gmap pystr float) (category : pystr) :
  (exists outcome,
     _check_rule tolerance rule financial_data category = Return outcome)
  /\ ((exists item, In item (items rule) /\ financial_data !! item = None) ->
      _check_rule tolerance rule financial_data category = Return None)
  /\ (forall difference,
        check rule financial_data = Return difference ->
        (_check_rule tolerance rule financial_data category = Return None
         <-> exists item, In item (items rule) /\ financial_data !! item = None)
        /\ ((forall item, In item (items rule) ->
                          is_Some (financial_data !! item)) ->
            exists result,
              _check_rule tolerance rule financial_data category
              = Return (Some result)
              /\ r_difference result = difference
              /\ r_is_pass result = (difference <=? tolerance)%float))
  /\ (In rule reconciliation_rules ->
      exists difference, check rule financial_data = Return difference).
Proof.
  split; [apply check_rule_returns|].
  split; [apply check_rule_missing|].
  split; [|apply builtin_checks_return].
  intros difference Hcheck. rewrite (check_rule_cases _ _ _ _ _ Hcheck).
  destruct (all_present rule financial_data) eqn:Hall.
  - pose proof (proj1 (all_present_spec rule financial_data) Hall) as Hpresent.
    split; [split|].
    + discriminate.
    + intros [item [Hin Hnone]]. destruct (Hpresent item Hin) as [v Hv]. congruence.
    + intros _. eexists. split; [reflexivity|]. split; reflexivity.
  - assert (Hmissing : ~ forall item, In item (items rule) ->
                                      is_Some (financial_data !! item))
      by (rewrite <- all_present_spec; congruence).
    split; [split|].
    + intros _.
      assert (Hdec : forall item : pystr,
                {financial_data !! item = None} + {financial_data !! item <> None}).
      { intros item. destruct (financial_data !! item);
          [right; discriminate | now left]. }
      destruct (List.Exists_dec (fun item => financial_data !! item = None)
                  (items rule) Hdec) as [Hex | Hnex].
      * apply List.Exists_exists in Hex. exact Hex.
      * exfalso. apply Hmissing. intros item Hin.
        destruct (financial_data !! item) eqn:Hv; [eauto|].
        exfalso. apply Hnex, List.Exists_exists. eauto.
    + reflexivity.
    + intros H. contradiction.
Qed.

(** The balancing rule is built in, and on balanced data it passes
    with difference 0; on data without net assets it does not apply. *)
Example check_rule_on_balanced_data :
  In balance_rule reconciliation_rules
  /\ check balance_rule balanced_data = Return 0%float
  /\ option_map r_is_pass
       (value_or_none
          (_check_rule 0.01 balance_rule balanced_data (u "资产负债表内部勾稽")))
     = Some true
  /\ _check_rule 0.01 balance_rule (delete (u "净资产合计") balanced_data)
       (u "资产负债表内部勾稽") = Return None.
Proof.
  split; [left; reflexivity|]. repeat split; vm_compute; reflexivity.
Qed.

End RuleEvaluator.

(* ===================================================================== *)
(** * Similarity retrieval *)
(* ===================================================================== *)

Section Sortedness.

Context {A : Type}.

Lemma StronglySorted_skipn (R : A -> A -> Prop) (l : list A) (n : nat) :
  StronglySorted R l -> StronglySorted R (skipn n l).
Proof.
  revert l. induction n as [|n IH]; intros l H; [exact H|].
  destruct l as [|x l]; [constructor|].
  simpl. apply IH. now inversion H.
Qed.

Lemma Forall_firstn_keep (P : A -> Prop) (l : list A) (n : nat) :
  List.Forall P l -> List.Forall P (firstn n l).
Proof.
  revert l. induction n as [|n IH]; intros l H; [constructor|].
  destruct l as [|x l]; [constructor|].
  simpl. inversion H; subst. constructor; auto.
Qed.

Lemma StronglySorted_firstn (R : A -> A -> Prop) (l : list A) (n : nat) :
  StronglySorted R l -> StronglySorted R (firstn n l).
Proof.
  revert l. induction n as [|n IH]; intros l H; [constructor|].
  destruct l as [|x l]; [constructor|].
  simpl. inversion H as [|? ? Hs Hx]; subst. constructor; [now apply IH|].
  now apply Forall_firstn_keep.
Qed.

Lemma StronglySorted_snoc (R : A -> A -> Prop) (l : list A) (x : A) :
  StronglySorted R l -> List.Forall (fun y => R y x) l -> StronglySorted R (l ++ [x]).
Proof.
  induction 1 as [|y l Hs IH Hy]; intros Hall; simpl.
  - constructor; constructor.
  - inversion Hall; subst. constructor; [now apply IH|].
    apply List.Forall_app. split; [exact Hy | now constructor].
Qed.

Lemma StronglySorted_rev (R : A -> A -> Prop) (l : list A) :
  StronglySorted R l -> StronglySorted (fun a b => R b a) (rev l).
Proof.
  induction 1 as [|x l Hs IH Hx]; simpl; [constructor|].
  apply StronglySorted_snoc; [exact IH|].
  rewrite List.Forall_forall in *. intros y Hy. apply Hx. now apply in_rev.
Qed.

Lemma StronglySorted_omap {B} (R : A -> A -> Prop) (S : B -> B -> Prop)
  (f : A -> option B) (l : list A) :
  (forall a b a' b', R a b -> f a = Some a' -> f b = Some b' -> S a' b') ->
  StronglySorted R l -> StronglySorted S (omap f l).
Proof.
  intros Hf. induction 1 as [|x l Hs IH Hx]; [constructor|].
  cbn [omap list_omap]. destruct (f x) as [x'|] eqn:Hfx; [|exact IH].
  constructor; [exact IH|].
  rewrite List.Forall_forall in *. intros y' Hy'.
  apply list_elem_of_In, list_elem_of_omap in Hy'.
  destruct Hy' as [y [Hy Hfy]]. apply list_elem_of_In in Hy. eauto.
Qed.

Lemma omap_length_le {B} (f : A -> option B) (l : list A) :
  (length (omap f l) <= length l)%nat.
Proof.
  induction l as [|x l IH]; [reflexivity|].
  cbn [omap list_omap]. destruct (f x); simpl; lia.
Qed.

End Sortedness.

Section Retrieval.

Import ValuationAIAnalyzer.

Lemma slice_from_last_length {A} (xs : list A) (top_n : Z) :
  (1 <= top_n)%Z -> (Z.of_nat (length (Slice.from xs (- top_n))) <= top_n)%Z.
Proof.
  intros Hn. unfold Slice.from.
  assert (((- top_n <? 0)%Z) = true) as -> by (apply Z.ltb_lt; lia).
  rewrite length_skipn. lia.
Qed.

Lemma slice_upto_firstn {A} (xs : list A) (top_n : Z) :
  (0 <= top_n)%Z -> Slice.upto xs top_n = firstn (Z.to_nat top_n) xs.
Proof.
  intros Hn. unfold Slice.upto.
  assert (((top_n <? 0)%Z) = false) as -> by (apply Z.ltb_ge; lia).
  destruct (Z.le_ge_cases top_n (Z.of_nat (length xs))) as [Hle | Hge].
  - now rewrite Z.min_l.
  - rewrite Z.min_r by lia. rewrite Nat2Z.id.
    rewrite !firstn_all2; [reflexivity | lia | lia].
Qed.

Lemma collect_similar_omap (filtered_cases : list HistoricalCase)
  (similarities : list float) (top_indices : list nat) :
  length filtered_cases = length similarities ->
  List.Forall (fun idx => (idx < length similarities)%nat) top_indices ->
  collect_similar filtered_cases similarities top_indices
  = Return (omap (pick_similar filtered_cases similarities) top_indices).
Proof.
  intros Hlen Hvalid. unfold collect_similar.
  assert (H : forall acc,
    for_each top_indices acc
      (fun similar_cases idx =>
         match nth_error similarities idx with
         | None => Raise IndexError
         | Some sim =>
           if gtb sim 0.05 then
             match nth_error filtered_cases idx with
             | None => Raise IndexError
             | Some case =>
               Return (similar_cases ++ [
                 {| s_case_id := case_id case;
                    s_date := date case;
                    s_difference_type := difference_type case;
                    s_root_cause := root_cause case;
                    s_resolution := resolution case;
                    s_resolution_time := resolution_time case;
                    s_similarity := sim;
                    s_asset_class := asset_class case |} ])
             end
           else Return similar_cases
         end)
    = Return (acc ++ omap (pick_similar filtered_cases similarities) top_indices)).
  { induction Hvalid as [|idx idxs Hidx _ IH]; intros acc.
    - simpl. now rewrite app_nil_r.
    - cbn [for_each omap list_omap]. unfold pick_similar at 1.
      destruct (nth_error similarities idx) as [sim|] eqn:Hs;
        [|apply nth_error_None in Hs; lia].
      destruct (nth_error filtered_cases idx) as [case|] eqn:Hc;
        [|apply nth_error_None in Hc; lia].
      destruct (gtb sim 0.05); cbn [bind]; rewrite IH; [|reflexivity].
      now rewrite <- app_assoc. }
  apply H.
Qed.

Lemma pick_similar_score (filtered_cases : list HistoricalCase)
  (similarities : list float) (idx : nat) (r : SimilarCase) :
  pick_similar filtered_cases similarities idx = Some r ->
  s_similarity r = nth idx similarities nan
  /\ gtb (s_similarity r) 0.05 = true.
Proof.
  unfold pick_similar.
  destruct (nth_error similarities idx) as [sim|] eqn:Hs; [|discriminate].
  destruct (nth_error filtered_cases idx) as [case|]; [|discriminate].
  destruct (gtb sim 0.05) eqn:Hgt; [|discriminate].
  intros [= <-]. simpl. split; [|exact Hgt].
  symmetry. now apply nth_error_nth.
Qed.

Lemma Forall_skipn_keep {A} (P : A -> Prop) (l : list A) (n : nat) :
  List.Forall P l -> List.Forall P (skipn n l).
Proof.
  revert l. induction n as [|n IH]; intros l H; [exact H|].
  destruct l as [|x l]; [constructor|]. simpl. apply IH. now inversion H.
Qed.

Lemma argsort_valid (xs : list float) (order : list nat) :
  argsort_spec xs order -> List.Forall (fun idx => (idx < length xs)%nat) order.
Proof.
  intros [Hperm _]. apply List.Forall_forall. intros idx Hin.
  apply (Permutation_in _ Hperm), in_seq in Hin. lia.
Qed.

End Retrieval.

Section FloatOrder.

(** The order of binary64 floats, read off its specification: a value
    above a bound stays above it when it grows. *)
Lemma SF_lt_le_trans (a b c : spec_float) :
  SFltb a b = true -> SFleb b c = true -> SFltb a c = true.
Proof.
  unfold SFltb, SFleb.
  destruct a as [sa | sa | | sa ma ea], b as [sb | sb | | sb mb eb],
    c as [sc | sc | | sc mc ec]; simpl;
    try discriminate; try reflexivity;
    repeat match goal with s : bool |- _ => destruct s end;
    simpl; try discriminate; try reflexivity.
  all: change (Pos.compare_cont Eq) with Pos.compare.
  all: destruct (Z.compare_spec ea eb); destruct (Z.compare_spec eb ec);
       destruct (Z.compare_spec ea ec); subst; try lia; simpl;
       try discriminate; try reflexivity.
  all: destruct (Pos.compare_spec ma mb); destruct (Pos.compare_spec mb mc);
       destruct (Pos.compare_spec ma mc); subst; try lia; simpl;
       try discriminate; try reflexivity.
Qed.

Lemma gtb_leb_trans (bound y x : float) :
  gtb y bound = true -> (y <=? x)%float = true -> gtb x bound = true.
Proof. unfold gtb. rewrite !ltb_spec, leb_spec. apply SF_lt_le_trans. Qed.

End FloatOrder.

Section PrefixFilter.

Context {A B : Type}.

(** Along a list where everything that passes a test comes first,
    testing the first [k] elements gives the first [k] that pass. *)
Lemma omap_firstn_sorted (R : A -> A -> Prop) (f : A -> option B)
  (l : list A) (k : nat) :
  (forall a b, R a b -> f a = None -> f b = None) ->
  StronglySorted R l ->
  omap f (firstn k l) = firstn k (omap f l).
Proof.
  intros Hclosed Hsorted. revert k.
  induction Hsorted as [|x l Hs IH Hx]; intros k.
  - now destruct k.
  - destruct k as [|k]; [reflexivity|].
    cbn [firstn omap list_omap]. destruct (f x) as [y|] eqn:Hfx.
    + cbn [firstn]. now rewrite IH.
    + assert (Hnone : forall l', List.Forall (R x) l' -> omap f l' = []).
      { induction 1 as [|b l' Hb _ IHl']; [reflexivity|].
        cbn [omap list_omap]. now rewrite (Hclosed x b Hb Hfx). }
      rewrite (Hnone l Hx), (Hnone (firstn k l)).
      * now destruct k.
      * now apply Forall_firstn_keep.
  Qed.

End PrefixFilter.

Section FloorOrder.

Import ValuationAIAnalyzer.

Lemma rev_slice_from_last {A} (xs : list A) (top_n : Z) :
  (1 <= top_n)%Z ->
  rev (Slice.from xs (- top_n)) = firstn (Z.to_nat top_n) (rev xs).
Proof.
  intros Hn. unfold Slice.from.
  assert (((- top_n <? 0)%Z) = true) as -> by (apply Z.ltb_lt; lia).
  rewrite firstn_rev. do 2 f_equal. lia.
Qed.

Lemma pick_similar_none (filtered_cases : list HistoricalCase)
  (similarities : list float) (idx : nat) :
  (idx < length similarities)%nat ->
  length filtered_cases = length similarities ->
  pick_similar filtered_cases similarities idx = None ->
  gtb (nth idx similarities nan) 0.05 = false.
Proof.
  intros Hidx Hlen. unfold pick_similar.
  destruct (nth_error similarities idx) as [sim|] eqn:Hs;
    [|apply nth_error_None in Hs; lia].
  destruct (nth_error filtered_cases idx) as [case|] eqn:Hc;
    [|apply nth_error_None in Hc; lia].
  rewrite (nth_error_nth _ _ nan Hs).
  now destruct (gtb sim 0.05).
Qed.

(** Applying the floor to the [top_n] most similar positions gives the
    same cases as applying it to all positions and keeping the first
    [top_n]. *)
Lemma floor_commutes_with_truncation (filtered_cases : list HistoricalCase)
  (similarities : list float) (order : list nat) (top_n : Z) :
  length filtered_cases = length similarities ->
  argsort_spec similarities order ->
  (1 <= top_n)%Z ->
  omap (pick_similar filtered_cases similarities) (rev (Slice.from order (- top_n)))
  = firstn (Z.to_nat top_n)
      (omap (pick_similar filtered_cases similarities) (rev order)).
Proof.
  intros Hlen Hspec Htop. rewrite rev_slice_from_last by exact Htop.
  pose proof (argsort_valid _ _ Hspec) as Hvalid.
  assert (Hsorted :
    StronglySorted
      (fun i j => (i < length similarities)%nat /\ (j < length similarities)%nat
                  /\ (nth j similarities nan <=? nth i similarities nan)%float = true)
      (rev order)).
  { destruct Hspec as [_ Hs].
    apply (StronglySorted_rev
             (fun i j => (j < length similarities)%nat /\ (i < length similarities)%nat
                         /\ (nth i similarities nan <=? nth j similarities nan)%float = true)).
    clear Htop. induction Hs as [|i l Hs IH Hi]; [constructor|].
    inversion Hvalid as [|? ? Hiv Hlv]; subst.
    constructor; [now apply IH|].
    rewrite List.Forall_forall in *. intros j Hj. auto. }
  eapply omap_firstn_sorted; [|exact Hsorted].
  intros a b (Ha & Hb & Hle) Hnone.
  apply (pick_similar_none _ _ _ Ha Hlen) in Hnone.
  destruct (pick_similar filtered_cases similarities b) as [r|] eqn:Hr;
    [|reflexivity].
  apply pick_similar_score in Hr. destruct Hr as [Hscore Hgt].
  rewrite Hscore in Hgt.
  rewrite (gtb_leb_trans _ _ _ Hgt Hle) in Hnone. discriminate.
Qed.

End FloorOrder.

Section RetrievalContract.

Import ValuationAIAnalyzer.

(** The claim as worded fails on [search_cases]: it has no floor, and
    returns a case whose similarity to the query is 0. *)
Lemma C9_search_cases_returns_zero_similarity :
  CaseRetriever.search_cases (fun query => query) (fun _ _ => 0%float)
    (fun results => results) [unrelated_case] (u "港股通 交收") None None 5
  = [(unrelated_case, 0%float)]
  /\ gtb 0 0.05 = false.
Proof. split; reflexivity. Qed.

(** C9 (amended).  With [argsort] and the pandas sort doing what they
    promise on the data at hand and [top_n >= 1]:
    [_find_similar_cases] returns at most [top_n] cases, by
    non-increasing similarity, each with a similarity above 0.05; it
    applies the floor to the [top_n] most similar positions, which
    gives the same cases as applying the floor first and keeping the
    first [top_n]; [search_cases] returns the first [top_n] rows of
    the sorted frame, by non-increasing similarity, and applies no
    floor. *)
Theorem C9_similarity_search_contract
  (format_float : float -> pystr)
  (cosine_similarity : pystr -> pystr -> float)
  (argsort : list float -> list nat)
  (segment : pystr -> pystr)
  (case_similarity : pystr -> pystr -> float)
  (sort_values_desc : list (CaseRetriever.Case * float)
                      -> list (CaseRetriever.Case * float))
  (historical_cases : list HistoricalCase) (diff_record : DiffRecord)
  (predicted_type : pystr)
  (cases_df : list CaseRetriever.Case) (query : pystr)
  (product_type case_type : option pystr) (top_n : Z) :
  let filtered_cases :=
    filter_cases historical_cases (d_asset_class diff_record) predicted_type in
  let similarities :=
    similarities_of format_float cosine_similarity filtered_cases
      diff_record predicted_type in
  let results :=
    CaseRetriever.filter_by case_type CaseRetriever.case_type
      (CaseRetriever.filter_by product_type CaseRetriever.product_type
         (map (fun c => (c, case_similarity (segment query)
                              (CaseRetriever.segmented_text c))) cases_df)) in
  argsort_spec similarities (argsort similarities) ->
  CaseRetriever.sort_spec results (sort_values_desc results) ->
  (1 <= top_n)%Z ->
  (exists similar_cases,
     _find_similar_cases format_float cosine_similarity argsort
       (Some historical_cases) diff_record predicted_type top_n
     = Return similar_cases
     /\ similar_cases
        = omap (pick_similar filtered_cases similarities)
            (rev (Slice.from (argsort similarities) (- top_n)))
     /\ (Z.of_nat (length similar_cases) <= top_n)%Z
     /\ descending s_similarity similar_cases
     /\ List.Forall (fun r => gtb (s_similarity r) 0.05 = true) similar_cases
     /\ similar_cases
        = firstn (Z.to_nat top_n)
            (omap (pick_similar filtered_cases similarities)
               (rev (argsort similarities))))
  /\ (let found :=
        CaseRetriever.search_cases segment case_similarity sort_values_desc
          cases_df query product_type case_type top_n in
      found = firstn (Z.to_nat top_n) (sort_values_desc results)
      /\ (Z.of_nat (length found) <= top_n)%Z
      /\ descending snd found).
Proof.
  intros filtered_cases similarities results Hargsort Hsort Htop. split.
  - exists (omap (pick_similar filtered_cases similarities)
              (rev (Slice.from (argsort similarities) (- top_n)))).
    assert (Hvalid : List.Forall (fun idx => (idx < length similarities)%nat)
                       (rev (Slice.from (argsort similarities) (- top_n)))).
    { apply List.Forall_rev. unfold Slice.from. apply Forall_skipn_keep.
      now apply argsort_valid. }
    assert (Hlen : length filtered_cases = length similarities).
    { unfold similarities, similarities_of. now rewrite length_map. }
    split; [|split; [reflexivity|split; [|split; [|split]]]].
    + unfold _find_similar_cases. fold filtered_cases. fold similarities.
      destruct historical_cases as [|c cs] eqn:Hh.
      * assert (Hnil : similarities = []) by reflexivity.
        revert Hvalid. rewrite Hnil. simpl.
        destruct (rev _) as [|i l]; [reflexivity|].
        intros H. inversion H; subst. simpl in *. lia.
      * now apply collect_similar_omap.
    + eapply Z.le_trans; [|apply (slice_from_last_length (argsort similarities)); exact Htop].
      apply Nat2Z.inj_le. etransitivity; [apply omap_length_le|].
      now rewrite length_rev.
    + unfold descending.
      apply (StronglySorted_omap
               (fun i j => (nth j similarities nan <=? nth i similarities nan)%float = true)).
      * intros i j ri rj Hij Hi Hj.
        apply pick_similar_score in Hi, Hj. destruct Hi as [-> _], Hj as [-> _].
        exact Hij.
      * apply (StronglySorted_rev
                 (fun i j => (nth i similarities nan <=? nth j similarities nan)%float = true)).
        unfold Slice.from. apply StronglySorted_skipn. apply Hargsort.
    + apply List.Forall_forall. intros r Hr.
      apply list_elem_of_In, list_elem_of_omap in Hr. destruct Hr as [idx [_ Hr]].
      now apply pick_similar_score in Hr.
    + now apply floor_commutes_with_truncation.
  - cbv zeta. unfold CaseRetriever.search_cases. fold results.
    rewrite slice_upto_firstn by lia. split; [reflexivity|]. split.
    + rewrite length_firstn. lia.
    + unfold descending. apply StronglySorted_firstn. apply Hsort.
Qed.

(** The contract on three cases with similarities 0.9, 0.02 and 0.4
    and [top_n = 3]: two cases come back. *)
Lemma C9_contract_on_samples :
  (exists similar_cases,
     _find_similar_cases (fun _ => u "0.5") sample_similarity sample_argsort
       (Some sample_cases) sample_record (u "价格差异") 3
     = Return similar_cases
     /\ map s_similarity similar_cases = [0.9; 0.4]%float)
  /\ CaseRetriever.search_cases (fun q => q) (fun _ _ => 0%float) (fun rs => rs)
       [unrelated_case] (u "港股通 交收") None None 3
     = [(unrelated_case, 0%float)].
Proof.
  destruct (C9_similarity_search_contract
              (fun _ => u "0.5") sample_similarity sample_argsort
              (fun q => q) (fun _ _ => 0%float) (fun rs => rs)
              sample_cases sample_record (u "价格差异")
              [unrelated_case] (u "港股通 交收") None None 3)
    as [[similar_cases [Hret [Heq _]]] [Hfound _]].
  - split.
    + symmetry. apply (Permutation_cons_app [1; 2]%nat [] 0%nat). reflexivity.
    + repeat constructor.
  - split; [reflexivity|]. repeat constructor.
  - lia.
  - split; [|exact Hfound].
    exists similar_cases. split; [exact Hret|]. rewrite Heq. reflexivity.
Defined.

End RetrievalContract.

(** With [top_n = 0] the slice [[-0:]] is the whole array: the same
    query returns two cases. *)
Remark find_similar_cases_top_n_zero :
  option_map (map ValuationAIAnalyzer.s_similarity)
    (match ValuationAIAnalyzer._find_similar_cases (fun _ => u "0.5")
             sample_similarity sample_argsort
             (Some sample_cases) sample_record (u "价格差异") 0 with
     | Return r => Some r
     | Raise _ => None
     end)
  = Some [0.9; 0.4]%float.
Proof. vm_compute. reflexivity. Qed.

(* ===================================================================== *)
(** * Duplicate detection *)
(* ===================================================================== *)

Section DuplicateDetection.

Import SettlementAIAnalyzer.

Lemma feature_hash_ext (hash1 hash2 : pystr -> Z) (row : Trade) :
  (hash1 (Security row) mod 10000 = hash2 (Security row) mod 10000)%Z ->
  feature hash1 row = feature hash2 row.
Proof. intros H. unfold feature. now rewrite H. Qed.

Lemma account_groups_hash_ext (hash1 hash2 : pystr -> Z)
  (fit_labels : list (list float) -> list Z) (account : pystr)
  (account_trades : list Trade) :
  (forall row, In row account_trades ->
     (hash1 (Security row) mod 10000 = hash2 (Security row) mod 10000)%Z) ->
  account_groups hash1 fit_labels account account_trades
  = account_groups hash2 fit_labels account account_trades.
Proof.
  intros H. unfold account_groups.
  assert (map (feature hash1) account_trades = map (feature hash2) account_trades)
    as -> by (apply map_ext_in; intros row Hin; now apply feature_hash_ext, H).
  reflexivity.
Qed.

(** The claim as worded fails: the two trades are one duplicate group
    in an interpreter started with hash seed 1, where the two security
    names collide modulo 10000, and no group with hash seed 2. *)
Lemma C10_groups_differ_between_hash_seeds :
  groups_of (detect_duplicates hash_seed1 Reference.fit_labels two_trades)
  = [ {| g_account := u "ACC001"; g_indices := [0; 1]%Z; g_count := 2 |} ]
  /\ groups_of (detect_duplicates hash_seed2 Reference.fit_labels two_trades) = [].
Proof. split; vm_compute; reflexivity. Qed.

Lemma kept_refl (objects : Method.Store) : kept objects objects.
Proof. intros reference o H. exact H. Qed.

Lemma kept_trans (a b c : Method.Store) : kept a b -> kept b c -> kept a c.
Proof. intros H1 H2 reference o H. apply H2, H1, H. Qed.

Lemma fresh_unused (objects : Method.Store) :
  objects !! fresh (dom objects) = None.
Proof. apply not_elem_of_dom, is_fresh. Qed.

(** Creating an object keeps the others. *)
Lemma kept_new (objects : Method.Store) (o : Method.Object) :
  kept objects (<[fresh (dom objects) := o]> objects).
Proof.
  intros reference o' H. rewrite lookup_insert_ne; [exact H|].
  intros <-. rewrite fresh_unused in H. discriminate.
Qed.

(** A table that was there is read as it was. *)
Lemma rows_of_kept (objects0 objects : Method.Store) (table : positive)
  (rows : list Trade) :
  objects0 !! table = Some (Method.DataFrame rows) ->
  kept objects0 objects ->
  Method.rows_of table objects = (Return rows, objects).
Proof.
  intros H K. unfold Method.rows_of. now rewrite (K _ _ H).
Qed.

(** A loop whose body appends to its list and only adds objects. *)
Lemma for_each_run {A B} (f : A -> list B)
  (body : list B -> A -> Method.stmt (list B)) (xs : list A)
  (objects0 : Method.Store) :
  (forall st x objects,
     kept objects0 objects ->
     exists objects',
       body st x objects = (Return (st ++ f x), objects') /\ kept objects objects') ->
  forall st objects,
    kept objects0 objects ->
    exists objects',
      Method.for_each xs st body objects = (Return (st ++ flat_map f xs), objects')
      /\ kept objects objects'.
Proof.
  intros Hbody. induction xs as [|x xs IH]; intros st objects K0.
  - exists objects. cbn [Method.for_each flat_map]. rewrite List.app_nil_r.
    split; [reflexivity | apply kept_refl].
  - cbn [Method.for_each flat_map]. unfold Method.bind at 1.
    destruct (Hbody st x objects K0) as [objects1 [E1 K1]]. rewrite E1.
    destruct (IH (st ++ f x) objects1 (kept_trans _ _ _ K0 K1)) as [objects2 [E2 K2]].
    exists objects2. split; [|now apply (kept_trans _ objects1)].
    rewrite E2. now rewrite <- List.app_assoc.
Qed.

Section Run.

Variable scaler_fit : list (list float) -> list float * list float.
Variable scaler_transform :
  list float * list float -> list (list float) -> list (list float).
Variable dbscan : list (list float) -> list Z.
Variable hash : pystr -> Z.

(** A fresh scaler, once fitted to the rows, transforms them with what
    it has just learnt. *)
Lemma fit_transform_new (objects : Method.Store) (X : list (list float)) :
  let scaler := fresh (dom objects) in
  Method.fit_transform scaler_fit scaler_transform scaler X
    (<[scaler := Method.StandardScaler None]> objects)
  = (Return (scaler_transform (scaler_fit X) X),
     <[scaler := Method.StandardScaler (Some (scaler_fit X))]> objects).
Proof.
  cbv zeta. unfold Method.fit_transform, Method.bind, Method.fit_scaler.
  rewrite lookup_insert_eq. unfold Method.transform.
  rewrite lookup_insert_eq, insert_insert_eq. reflexivity.
Qed.

(** The loop body computes the groups of the account from the trades
    alone, whatever the store holds, and only adds objects to it. *)
Lemma account_groups_run (account : pystr) (account_trades : list Trade)
  (objects : Method.Store) :
  exists objects',
    Method.account_groups scaler_fit scaler_transform dbscan hash
      account account_trades objects
    = (Return (account_groups hash
                 (estimated_labels scaler_fit scaler_transform dbscan)
                 account account_trades),
       objects')
    /\ kept objects objects'.
Proof.
  unfold Method.account_groups, account_groups. rewrite length_map.
  destruct (length account_trades <? 2)%nat.
  - exists objects. split; [reflexivity | apply kept_refl].
  - set (X := map (feature hash) account_trades).
    eexists. split.
    + unfold Method.bind at 1. unfold Method.new at 1. cbv zeta.
      unfold Method.bind at 1. rewrite fit_transform_new.
      unfold Method.bind at 1. unfold Method.new at 1. cbv zeta.
      unfold Method.bind at 1. unfold Method.fit at 1.
      rewrite lookup_insert_eq.
      unfold Method.bind at 1. unfold Method.labels_ at 1.
      rewrite lookup_insert_eq, insert_insert_eq.
      reflexivity.
    + eapply kept_trans; apply kept_new.
Qed.

(** The method returns what the function gives on the rows the table
    holds, whatever else the store holds, and only adds objects to the
    store: the table, the analyzer and every other object are
    afterwards as they were. *)
Lemma detect_duplicates_run (self trades_df : positive) (rows : list Trade)
  (objects : Method.Store) :
  objects !! trades_df = Some (Method.DataFrame rows) ->
  exists objects',
    Method.detect_duplicates scaler_fit scaler_transform dbscan hash
      self trades_df objects
    = (Return (detect_duplicates hash
                 (estimated_labels scaler_fit scaler_transform dbscan) rows),
       objects')
    /\ kept objects objects'.
Proof.
  intros Htable.
  pose proof (rows_of_kept objects objects trades_df rows Htable (kept_refl _)) as Hread.
  unfold Method.detect_duplicates, detect_duplicates.
  unfold Method.bind at 1. rewrite Hread.
  destruct rows as [|row0 rest] eqn:Hrows.
  - exists objects. split; [reflexivity | apply kept_refl].
  - rewrite <- Hrows in *. clear Hrows.
    do 3 (unfold Method.bind at 1; rewrite Hread).
    unfold Method.bind at 1.
    match goal with
    | |- context [Method.for_each ?xs ?st0 ?body objects] =>
      destruct (for_each_run
                  (fun account =>
                     account_groups hash
                       (estimated_labels scaler_fit scaler_transform dbscan) account
                       (List.filter (fun row => Str.eqb (Account row) account) rows))
                  body xs objects) with (st := st0) (objects := objects)
        as [objects' [E K]]
    end.
    + intros st x objects0 K0. cbv beta.
      unfold Method.bind at 1.
      rewrite (rows_of_kept objects objects0 trades_df rows Htable K0). cbv zeta.
      destruct (account_groups_run x
                  (List.filter (fun row => Str.eqb (Account row) x) rows)
                  objects0) as [objects1 [E1 K1]].
      exists objects1. split; [|exact K1].
      unfold Method.bind. rewrite E1. reflexivity.
    + apply kept_refl.
    + exists objects'. split; [|exact K]. rewrite E.
      unfold Method.bind at 1.
      rewrite (rows_of_kept objects objects' trades_df rows Htable K).
      reflexivity.
Qed.

End Run.

Lemma detect_duplicates_hash_ext (hash1 hash2 : pystr -> Z)
  (fit_labels : list (list float) -> list Z) (trades_df : list Trade) :
  (forall row, In row trades_df ->
     (hash1 (Security row) mod 10000 = hash2 (Security row) mod 10000)%Z) ->
  detect_duplicates hash1 fit_labels trades_df
  = detect_duplicates hash2 fit_labels trades_df.
Proof.
  intros H. unfold detect_duplicates.
  destruct trades_df as [|row0 rest] eqn:Hdf; [reflexivity|]. rewrite <- Hdf in *.
  assert (Hgroups :
    flat_map
      (fun account =>
         account_groups hash1 fit_labels account
           (List.filter (fun row => Str.eqb (Account row) account) trades_df))
      (unique (map Account trades_df))
    = flat_map
        (fun account =>
           account_groups hash2 fit_labels account
             (List.filter (fun row => Str.eqb (Account row) account) trades_df))
        (unique (map Account trades_df))).
  { apply flat_map_ext. intros account. apply account_groups_hash_ext.
    intros row Hin. apply H. apply filter_In in Hin. tauto. }
  cbv zeta. rewrite Hgroups. reflexivity.
Qed.

(** The clustering of the counterexample is what the method reads
    from estimators that standardise and cluster as written out in
    [Reference]. *)
Remark reference_labels_estimated (X : list (list float)) :
  estimated_labels Reference.scaler_fit Reference.scaler_transform
    Reference.dbscan_labels X
  = Reference.fit_labels X.
Proof. reflexivity. Qed.

(** C10 (amended).  Within one interpreter [detect_duplicates] is a
    function of the rows of its table: a call returns what the
    function of the rows gives, whatever other objects the interpreter
    holds and whichever analyzer it is called on; it reads no other
    object that existed before it, and every object that existed,
    the table among them, is afterwards as it was (the call only
    creates and fits one scaler and one clustering per account).  So
    two invocations on the same rows return the same result, also
    when the second runs on what the first has left, and also in two
    interpreters whose string hashes agree modulo 10000 on the
    securities of the table. *)
Theorem C10_detect_duplicates_determined_by_hash
  (hash1 hash2 : pystr -> Z)
  (scaler_fit : list (list float) -> list float * list float)
  (scaler_transform :
     list float * list float -> list (list float) -> list (list float))
  (dbscan : list (list float) -> list Z)
  (self1 trades_df1 self2 trades_df2 : positive)
  (objects1 objects2 : Method.Store) (rows : list Trade) :
  objects1 !! trades_df1 = Some (Method.DataFrame rows) ->
  objects2 !! trades_df2 = Some (Method.DataFrame rows) ->
  (forall row, In row rows ->
     (hash1 (Security row) mod 10000 = hash2 (Security row) mod 10000)%Z) ->
  exists result objects1' objects2' objects1'',
    Method.detect_duplicates scaler_fit scaler_transform dbscan hash1
      self1 trades_df1 objects1
    = (Return result, objects1')
    /\ Method.detect_duplicates scaler_fit scaler_transform dbscan hash2
         self2 trades_df2 objects2
       = (Return result, objects2')
    /\ Method.detect_duplicates scaler_fit scaler_transform dbscan hash1
         self1 trades_df1 objects1'
       = (Return result, objects1'')
    /\ kept objects1 objects1' /\ kept objects2 objects2'
    /\ kept objects1' objects1''
    /\ result
       = detect_duplicates hash1
           (estimated_labels scaler_fit scaler_transform dbscan) rows
    /\ (rows = [] -> result = None)
    /\ (rows <> [] ->
        exists d, result = Some d
                  /\ total d = length rows
                  /\ duplicate_trades d = List.filter is_marked rows).
Proof.
  intros T1 T2 H.
  destruct (detect_duplicates_run scaler_fit scaler_transform dbscan hash1
              self1 trades_df1 rows objects1 T1) as [objects1' [E1 K1]].
  destruct (detect_duplicates_run scaler_fit scaler_transform dbscan hash2
              self2 trades_df2 rows objects2 T2) as [objects2' [E2 K2]].
  destruct (detect_duplicates_run scaler_fit scaler_transform dbscan hash1
              self1 trades_df1 rows objects1' (K1 _ _ T1)) as [objects1'' [E3 K3]].
  rewrite <- (detect_duplicates_hash_ext hash1 hash2 _ _ H) in E2.
  eexists _, objects1', objects2', objects1''.
  repeat apply conj; try eassumption.
  - reflexivity.
  - intros ->. reflexivity.
  - intros Hrows. destruct rows as [|row0 rest]; [congruence|].
    eexists. split; [reflexivity|]. split; reflexivity.
Qed.

(** On the two trades: a call in a new interpreter, a call in an
    interpreter that still holds estimators fitted earlier and whose
    hashes differ by a multiple of 10000, and a second call on what
    the first has left, all find the one group, and leave the table
    and the estimators of old as they were. *)
Lemma C10_same_residues_same_groups :
  exists result objects1' objects2' objects1'',
    Method.detect_duplicates Reference.scaler_fit Reference.scaler_transform
      Reference.dbscan_labels hash_seed1 1 2 new_interpreter
    = (Return result, objects1')
    /\ Method.detect_duplicates Reference.scaler_fit Reference.scaler_transform
         Reference.dbscan_labels (fun s => (hash_seed1 s + 10000)%Z)
         5 6 used_interpreter
       = (Return result, objects2')
    /\ Method.detect_duplicates Reference.scaler_fit Reference.scaler_transform
         Reference.dbscan_labels hash_seed1 1 2 objects1'
       = (Return result, objects1'')
    /\ objects1' !! 2%positive = Some (Method.DataFrame two_trades)
    /\ objects2' !! 1%positive
       = Some (Method.StandardScaler (Some ([7%float], [3%float])))
    /\ groups_of result
       = [ {| g_account := u "ACC001"; g_indices := [0; 1]%Z; g_count := 2 |} ].
Proof.
  destruct (C10_detect_duplicates_determined_by_hash
              hash_seed1 (fun s => (hash_seed1 s + 10000)%Z)
              Reference.scaler_fit Reference.scaler_transform
              Reference.dbscan_labels 1 2 5 6 new_interpreter used_interpreter
              two_trades)
    as (result & objects1' & objects2' & objects1'' & E1 & E2 & E3 & K1 & K2 & _
        & R & _).
  - reflexivity.
  - reflexivity.
  - intros row Hin. simpl in Hin.
    destruct Hin as [<- | [<- | []]]; vm_compute; reflexivity.
  - exists result, objects1', objects2', objects1''.
    repeat apply conj; try assumption.
    + apply K1. reflexivity.
    + apply K2. reflexivity.
    + rewrite R. vm_compute. reflexivity.
Defined.

End DuplicateDetection.

(* ===================================================================== *)
(** * Dicts in insertion order *)
(* ===================================================================== *)

Section DictFacts.

Context {V : Type}.

Lemma dict_set_in (d : list (pystr * V)) (k : pystr) (v : V) (x : pystr * V) :
  In x (Dict.set d k v) -> x = (k, v) \/ In x d.
Proof.
  induction d as [|[k' v'] d IH]; simpl.
  - intros [<-|[]]. now left.
  - unfold Str.eqb. case_bool_decide as E.
    + subst k'. intros [<-|H]; [now left | right; now right].
    + intros [<-|H]; [right; now left|].
      destruct (IH H) as [->|H']; [now left | right; now right].
Qed.

Lemma dict_set_keeps (d : list (pystr * V)) (k k' : pystr) (v v' : V) :
  k' <> k -> In (k', v') d -> In (k', v') (Dict.set d k v).
Proof.
  intros Hne. induction d as [|[k0 v0] d IH]; simpl; [tauto|].
  unfold Str.eqb. case_bool_decide as E.
  - subst k0. intros [[= <- <-]|H]; [congruence | now right].
  - intros [H|H]; [now left | right; auto].
Qed.

Lemma dict_set_keys (d : list (pystr * V)) (k : pystr) (v : V) :
  In k (map fst d) -> map fst (Dict.set d k v) = map fst d.
Proof.
  induction d as [|[k0 v0] d IH]; simpl; [tauto|].
  unfold Str.eqb. case_bool_decide as E; [reflexivity|].
  intros [H|H]; [congruence|]. simpl. now rewrite IH.
Qed.

Lemma dict_set_new_keys (d : list (pystr * V)) (k : pystr) (v : V) :
  ~ In k (map fst d) -> Dict.set d k v = d ++ [(k, v)].
Proof.
  induction d as [|[k0 v0] d IH]; simpl; [reflexivity|].
  unfold Str.eqb. intros H. case_bool_decide as E; [tauto|].
  rewrite IH; [reflexivity | tauto].
Qed.

Lemma dict_set_NoDup (d : list (pystr * V)) (k : pystr) (v : V) :
  List.NoDup (map fst d) -> List.NoDup (map fst (Dict.set d k v)).
Proof.
  intros H. destruct (List.in_dec (list_eq_dec) k (map fst d)) as [Hin|Hin].
  - now rewrite dict_set_keys.
  - rewrite dict_set_new_keys by exact Hin.
    rewrite List.map_app. simpl.
    apply List.NoDup_app; repeat split; auto.
    + constructor; [tauto | constructor].
    + intros x Hx [<-|[]]. tauto.
Qed.

Lemma dict_set_has (d : list (pystr * V)) (k : pystr) (v : V) :
  List.NoDup (map fst d) -> In (k, v) (Dict.set d k v).
Proof.
  induction d as [|[k0 v0] d IH]; simpl; [now left|].
  unfold Str.eqb. intros H. case_bool_decide as E.
  - subst. now left.
  - right. apply IH. now inversion H.
Qed.

Lemma dict_get_in (d : list (pystr * V)) (k : pystr) (v : V) :
  List.NoDup (map fst d) -> (Dict.get d k = Some v <-> In (k, v) d).
Proof.
  induction d as [|[k0 v0] d IH]; simpl; [intros _; split; [discriminate | tauto]|].
  intros H. inversion H as [|? ? Hn Hd]; subst.
  unfold Str.eqb. case_bool_decide as E.
  - subst k0. split.
    + intros [= <-]. now left.
    + intros [[= <-]|Hin]; [reflexivity|].
      exfalso. apply Hn. apply List.in_map_iff. now exists (k, v).
  - rewrite IH by assumption. split; [now right|].
    intros [[= -> ->]|Hin]; [congruence | assumption].
Qed.

End DictFacts.

(* ===================================================================== *)
(** * Summation relationships read from a table *)
(* ===================================================================== *)

Section SummationRelationships.

Import ReconciliationRules DataValidator.

Lemma scan_upwards_spec (above sub_items : list pystr) :
  scan_upwards above sub_items
  = sub_items ++ List.filter is_item_name (until_stop above).
Proof.
  revert sub_items. induction above as [|item rest IH]; intros sub_items;
    cbn [scan_upwards until_stop].
  - simpl. now rewrite List.app_nil_r.
  - unfold is_stop_label. destruct (any_keyword_in stop_keywords item).
    + simpl. now rewrite List.app_nil_r.
    + cbn [List.filter]. destruct (is_item_name item).
      * rewrite IH, <- List.app_assoc. reflexivity.
      * apply IH.
Qed.

Lemma rev_scan_upwards (above : list pystr) :
  rev (scan_upwards (rev above) []) = sub_items_above above.
Proof.
  rewrite scan_upwards_spec. simpl. unfold sub_items_above.
  now rewrite List.filter_rev.
Qed.

Lemma is_empty_rev {A} (xs : list A) : is_empty (rev xs) = is_empty xs.
Proof.
  destruct xs as [|x xs]; [reflexivity|]. simpl.
  destruct (rev xs); reflexivity.
Qed.

Lemma fold_total_indices (above rest : list pystr)
  (d : list (pystr * list pystr)) :
  fold_left
    (fun relationships entry =>
       let total_idx := fst entry in
       let total_item := snd entry in
       let sub_items :=
         scan_upwards (rev (firstn total_idx (above ++ rest))) [] in
       if negb (is_empty sub_items)
       then Dict.set relationships total_item (rev sub_items)
       else relationships)
    (List.filter (fun entry => any_keyword_in total_keywords (snd entry))
       (enumerate (length above) rest))
    d
  = relationships_from above rest d.
Proof.
  revert above d. induction rest as [|item rest IH]; intros above d; [reflexivity|].
  cbn [enumerate List.filter relationships_from snd].
  assert (IH' := IH (above ++ [item])).
  rewrite List.length_app, <- List.app_assoc in IH'.
  cbn [length app] in IH'. rewrite Nat.add_1_r in IH'.
  unfold is_total_label.
  destruct (any_keyword_in total_keywords item); cbn [andb]; [|apply IH'].
  cbn [fold_left fst snd]. rewrite IH'. f_equal.
  rewrite List.firstn_app, Nat.sub_diag, List.firstn_all. cbn [firstn].
  rewrite List.app_nil_r.
  rewrite <- (is_empty_rev (scan_upwards _ _)), rev_scan_upwards.
  reflexivity.
Qed.

Lemma identify_relationships_from (table : option DataFrame) :
  identify_summation_relationships table
  = if table_is_blank table then []
    else relationships_from [] (first_column table) [].
Proof.
  destruct table as [t|]; [|reflexivity].
  unfold identify_summation_relationships.
  destruct (table_is_blank (Some t)) eqn:B; [reflexivity|].
  destruct (columns t) eqn:C; [simpl in B; now rewrite C in B|].
  cbv zeta. simpl is_empty. cbv iota.
  exact (fold_total_indices [] (map first_col (rows t)) []).
Qed.

Lemma until_stop_facts (above : list pystr) (s : pystr) :
  In s (until_stop above) -> In s above /\ is_stop_label s = false.
Proof.
  induction above as [|item rest IH]; simpl; [tauto|].
  destruct (is_stop_label item) eqn:E; simpl; [tauto|].
  intros [<-|H]; [split; [now left | assumption]|].
  destruct (IH H). split; [now right | assumption].
Qed.

Lemma sub_items_above_facts (above : list pystr) (s : pystr) :
  In s (sub_items_above above) ->
  In s above /\ is_item_name s = true /\ is_stop_label s = false.
Proof.
  unfold sub_items_above. rewrite List.filter_In, <- List.in_rev.
  intros [H Hn]. apply until_stop_facts in H. rewrite <- List.in_rev in H.
  tauto.
Qed.

Lemma until_stop_all (block : list pystr) :
  List.Forall (fun item => is_stop_label item = false) block ->
  until_stop block = block.
Proof.
  induction 1 as [|item block H _ IH]; simpl; [reflexivity|].
  now rewrite H, IH.
Qed.

Lemma until_stop_app (block rest : list pystr) :
  List.Forall (fun item => is_stop_label item = false) block ->
  until_stop (block ++ rest) = block ++ until_stop rest.
Proof.
  induction 1 as [|item block H _ IH]; simpl; [reflexivity|].
  now rewrite H, IH.
Qed.

(** The block of a total row: what lies between the last stop label
    and the row. *)
Lemma sub_items_above_block (above block : list pystr) :
  (above = [] \/ exists above' stop,
      above = above' ++ [stop] /\ is_stop_label stop = true) ->
  List.Forall (fun item => is_stop_label item = false) block ->
  sub_items_above (above ++ block) = List.filter is_item_name block.
Proof.
  intros Ha Hb. unfold sub_items_above. f_equal.
  rewrite List.rev_app_distr, until_stop_app
    by (apply List.Forall_rev; exact Hb).
  rewrite List.rev_app_distr, List.rev_involutive.
  destruct Ha as [->|(above' & stop & -> & Hs)].
  - reflexivity.
  - rewrite (List.rev_app_distr above'). cbn [rev app until_stop]. rewrite Hs.
    reflexivity.
Qed.

Lemma relationships_from_entries (labels above rest : list pystr)
  (d : list (pystr * list pystr)) :
  labels = above ++ rest ->
  List.Forall (relationship_of labels) d ->
  List.Forall (relationship_of labels) (relationships_from above rest d).
Proof.
  revert above d. induction rest as [|item rest IH]; intros above d Hl Hd; [exact Hd|].
  simpl. apply IH; [now rewrite <- List.app_assoc|].
  destruct (is_total_label item) eqn:T; [|exact Hd].
  destruct (sub_items_above above) as [|s0 ss] eqn:S; [exact Hd|]. simpl.
  apply List.Forall_forall. intros x Hx.
  apply dict_set_in in Hx. destruct Hx as [->|Hx].
  - split; [discriminate|]. split; [exact T|].
    exists above, rest. simpl. now rewrite S.
  - rewrite List.Forall_forall in Hd. now apply Hd.
Qed.

Lemma relationships_from_NoDup (above rest : list pystr)
  (d : list (pystr * list pystr)) :
  List.NoDup (map fst d) ->
  List.NoDup (map fst (relationships_from above rest d)).
Proof.
  revert above d. induction rest as [|item rest IH]; intros above d Hd; [exact Hd|].
  simpl. apply IH.
  destruct (_ && _); [now apply dict_set_NoDup | exact Hd].
Qed.

Lemma relationships_from_keeps (above rest : list pystr)
  (d : list (pystr * list pystr)) (k : pystr) (v : list pystr) :
  ~ In k rest -> In (k, v) d -> In (k, v) (relationships_from above rest d).
Proof.
  revert above d. induction rest as [|item rest IH]; intros above d Hn Hd; [exact Hd|].
  simpl. apply IH; [intros H; apply Hn; now right|].
  destruct (_ && _); [|exact Hd].
  apply dict_set_keeps; [|exact Hd]. intros ->. apply Hn. now left.
Qed.

Lemma relationships_from_app (above pre rest : list pystr)
  (d : list (pystr * list pystr)) :
  relationships_from above (pre ++ rest) d
  = relationships_from (above ++ pre) rest (relationships_from above pre d).
Proof.
  revert above d. induction pre as [|item pre IH]; intros above d; simpl.
  - now rewrite List.app_nil_r.
  - rewrite IH, <- List.app_assoc. reflexivity.
Qed.

Lemma relationships_from_untouched (above rest : list pystr)
  (d : list (pystr * list pystr)) :
  List.Forall (fun label => is_total_label label = false) rest ->
  relationships_from above rest d = d.
Proof.
  intros H. revert above d. induction H as [|item rest Hi _ IH]; intros above d;
    [reflexivity|].
  simpl. now rewrite Hi, IH.
Qed.

Lemma dict_set_not_nil {V} (d : list (pystr * V)) (k : pystr) (v : V) :
  Dict.set d k v <> [].
Proof.
  destruct d as [|[k0 v0] d]; simpl; [discriminate|].
  destruct (Str.eqb k0 k); discriminate.
Qed.

Lemma relationships_from_nil (above rest : list pystr)
  (d : list (pystr * list pystr)) :
  relationships_from above rest d = []
  <-> d = []
      /\ forall pre total_item post,
           rest = pre ++ total_item :: post ->
           is_total_label total_item = true ->
           sub_items_above (above ++ pre) = [].
Proof.
  revert above d. induction rest as [|item rest IH]; intros above d.
  - simpl. split; [|tauto]. intros ->. split; [reflexivity|].
    intros [|? ?] ? ? ?; discriminate.
  - cbn [relationships_from]. rewrite IH. split.
    + intros [Hd Hr].
      assert (d = [] /\ (is_total_label item = true -> sub_items_above above = []))
        as [-> Hi].
      { destruct (is_total_label item); cbn [andb] in Hd.
        - destruct (sub_items_above above); cbn in Hd.
          + tauto.
          + exfalso. exact (dict_set_not_nil _ _ _ Hd).
        - split; [exact Hd | discriminate]. }
      split; [reflexivity|].
      intros [|p pre] total_item post E Ht; injection E as <- ->.
      * rewrite List.app_nil_r. auto.
      * specialize (Hr pre total_item post eq_refl Ht).
        now rewrite <- List.app_assoc in Hr.
    + intros [-> Hr]. split.
      * specialize (Hr [] item rest eq_refl). rewrite List.app_nil_r in Hr.
        destruct (is_total_label item); [|reflexivity].
        now rewrite Hr.
      * intros pre total_item post -> Ht. rewrite <- List.app_assoc.
        exact (Hr (item :: pre) total_item post eq_refl Ht).
Qed.

(** X1: [identify_summation_relationships] returns no relationship
    exactly when the table is blank or no row that carries 合计, 总计,
    总额 or 小计 has an item name in the block above it; so a table
    without such a row, or with its only total in the first row, gives
    none. *)
Theorem identify_summation_relationships_nothing (table : option DataFrame) :
  identify_summation_relationships table = []
  <-> table_is_blank table = true
      \/ forall above total_item below,
           first_column table = above ++ total_item :: below ->
           is_total_label total_item = true ->
           sub_items_above above = [].
Proof.
  rewrite identify_relationships_from.
  destruct (table_is_blank table).
  - split; [now left | reflexivity].
  - rewrite relationships_from_nil. cbn [app]. split.
    + intros [_ H]. now right.
    + intros [H|H]; [discriminate | now split].
Qed.

Lemma identify_relationships_NoDup (table : option DataFrame) :
  List.NoDup (map fst (identify_summation_relationships table)).
Proof.
  rewrite identify_relationships_from.
  destruct (table_is_blank table); [constructor|].
  apply relationships_from_NoDup. constructor.
Qed.

(** X2: every relationship that [identify_summation_relationships]
    returns is keyed by a label of the first column that marks a total
    or subtotal; its sub-items are not empty and are the item names of
    the block above one occurrence of that label, in table order, none
    of them carrying 合计, 总计 or 总额; no key is listed twice. *)
Theorem identify_summation_relationships_entries (table : option DataFrame) :
  let relationships := identify_summation_relationships table in
  List.NoDup (map fst relationships)
  /\ (forall total_item sub_items,
        In (total_item, sub_items) relationships ->
        sub_items <> []
        /\ is_total_label total_item = true
        /\ (exists above below,
              first_column table = above ++ total_item :: below
              /\ sub_items = sub_items_above above
              /\ forall s, In s sub_items ->
                   In s above /\ is_item_name s = true /\ is_stop_label s = false)).
Proof.
  cbv zeta. split; [apply identify_relationships_NoDup|].
  rewrite identify_relationships_from.
  destruct (table_is_blank table).
  - intros ? ? [].
  - intros total_item sub_items Hin.
    assert (H := relationships_from_entries (first_column table) []
                   (first_column table) [] eq_refl (List.Forall_nil _)).
    rewrite List.Forall_forall in H. destruct (H _ Hin) as (Hne & Ht & above & below & Hl & Hs).
    simpl in *. split; [exact Hne|]. split; [exact Ht|].
    exists above, below. split; [exact Hl|]. split; [exact Hs|].
    intros s Hs'. rewrite Hs in Hs'. now apply sub_items_above_facts.
Qed.

(** X3: when a total label closes a block of rows that starts at the
    top of the table or just after a row carrying 合计, 总计 or 总额,
    and the label does not occur again further down, the relationship
    recorded for the label lists the item names of that block, in table
    order; rows carrying 小计 inside the block do not end it. *)
Theorem identify_summation_relationships_block (table : option DataFrame)
  (above block below : list pystr) (total_item : pystr) :
  table_is_blank table = false ->
  first_column table = above ++ block ++ total_item :: below ->
  (above = [] \/ exists above' stop,
      above = above' ++ [stop] /\ is_stop_label stop = true) ->
  List.Forall (fun item => is_stop_label item = false) block ->
  is_total_label total_item = true ->
  List.filter is_item_name block <> [] ->
  ~ In total_item below ->
  Dict.get (identify_summation_relationships table) total_item
  = Some (List.filter is_item_name block).
Proof.
  intros B Hl Ha Hb Ht Hne Hbelow.
  apply dict_get_in; [apply identify_relationships_NoDup|].
  rewrite identify_relationships_from, B, Hl.
  rewrite List.app_assoc, relationships_from_app.
  cbn [relationships_from app].
  apply relationships_from_keeps; [exact Hbelow|].
  rewrite Ht, (sub_items_above_block above block Ha Hb).
  destruct (List.filter is_item_name block) eqn:F; [congruence|]. simpl.
  apply dict_set_has, relationships_from_NoDup. constructor.
Qed.

Lemma identify_summation_relationships_block_witness :
  Dict.get (identify_summation_relationships assets_table) (u "资产总计")
  = Some [u "固定资产"].
Proof.
  apply (identify_summation_relationships_block assets_table
           [u "货币资金"; u "应收款项"; u "流动资产合计"] [u "固定资产"] []).
  - reflexivity.
  - reflexivity.
  - right. exists [u "货币资金"; u "应收款项"], (u "流动资产合计").
    split; [reflexivity | vm_compute; reflexivity].
  - repeat (constructor; [vm_compute; reflexivity|]). constructor.
  - vm_compute. reflexivity.
  - vm_compute. discriminate.
  - simpl. tauto.
Defined.

End SummationRelationships.

(* ===================================================================== *)
(** * Validation of a whole report *)
(* ===================================================================== *)

Section ReportValidation.

Import ReconciliationRules DataValidator.

Lemma auto_validate_summation_tables (tolerance : float) (report : Report) :
  auto_validate_summation tolerance report
  = Return (flat_map (table_summation tolerance) (tables report)).
Proof.
  unfold auto_validate_summation.
  rewrite (for_each_append (table_summation tolerance)); [reflexivity|].
  intros st [table_name table_df]. unfold table_summation. cbn [fst snd].
  rewrite validate_summation_steps. cbn [bind].
  destruct (identify_summation_relationships table_df);
    [simpl; now rewrite List.app_nil_r | reflexivity].
Qed.

Lemma summation_step_record (tolerance : float) (table : option DataFrame)
  (rule : pystr * list pystr) (d : SummationDifference) :
  In d (summation_step tolerance table rule) ->
  sm_total_item d = fst rule /\ sm_sub_items d = snd rule.
Proof.
  unfold summation_step.
  destruct (extracted table (fst rule)) as [total_value|]; [|intros []].
  destruct (omap (extracted table) (snd rule)) as [|v vs]; [intros []|].
  destruct (gtb _ tolerance); [|intros []].
  intros [<- | []]. split; reflexivity.
Qed.

(** X4: when [auto_validate_summation] returns, it has checked every
    table of the report against the relationships read from that same
    table: the differences are those of the tables, in the order of
    the tables, and each carries the name of a table of the report, a
    total label and sub-items identified in that table, the value
    extracted for the total, the sum of the sub-item values that
    exist, and a gap above the tolerance. *)
Theorem auto_validate_summation_sound (tolerance : float) (report : Report)
  (differences : list TableSummationDifference) :
  auto_validate_summation tolerance report = Return differences ->
  differences = flat_map (table_summation tolerance) (tables report)
  /\ forall d, In d differences ->
       exists table,
         In (ts_table_name d, table) (tables report)
         /\ In (sm_total_item (ts_difference d), sm_sub_items (ts_difference d))
              (identify_summation_relationships table)
         /\ extracted table (sm_total_item (ts_difference d))
            = Some (sm_reported_total (ts_difference d))
         /\ sm_calculated_total (ts_difference d)
            = sum (omap (extracted table) (sm_sub_items (ts_difference d)))
         /\ sm_difference (ts_difference d)
            = abs (sm_reported_total (ts_difference d)
                   - sm_calculated_total (ts_difference d))%float
         /\ gtb (sm_difference (ts_difference d)) tolerance = true.
Proof.
  rewrite auto_validate_summation_tables. intros [= <-].
  split; [reflexivity|].
  intros d Hd. apply List.in_flat_map in Hd.
  destruct Hd as [[table_name table] [Ht Hd]].
  unfold table_summation in Hd. cbn [fst snd] in Hd.
  apply List.in_map_iff in Hd. destruct Hd as [r [<- Hr]]. cbn [ts_difference ts_table_name].
  apply List.in_flat_map in Hr. destruct Hr as [rule [Hrule Hr]].
  destruct (summation_step_record _ _ _ _ Hr) as [E1 E2].
  destruct (summation_step_sound _ _ _ _ Hr) as (tv & Hx & _ & Hrep & Hcalc & Hdiff & Hgt).
  exists table. rewrite E1, E2, Hrep, Hcalc.
  destruct rule as [k v]. cbn [fst snd] in *.
  repeat split; assumption.
Qed.

(** In the table of assets the block above 资产总计 stops at the
    subtotal 流动资产合计, so that the total of 180 is checked against
    固定资产 alone: a gap of 150 is returned. *)
Lemma auto_validate_summation_sound_witness :
  exists differences,
    auto_validate_summation 2 assets_report = Return differences
    /\ map (fun d => (sm_total_item (ts_difference d), sm_difference (ts_difference d)))
         differences
       = [(u "资产总计", 150%float)]
    /\ forall d, In d differences ->
         exists table,
           In (ts_table_name d, table) (tables assets_report)
           /\ In (sm_total_item (ts_difference d), sm_sub_items (ts_difference d))
                (identify_summation_relationships table)
           /\ extracted table (sm_total_item (ts_difference d))
              = Some (sm_reported_total (ts_difference d))
           /\ sm_calculated_total (ts_difference d)
              = sum (omap (extracted table) (sm_sub_items (ts_difference d)))
           /\ sm_difference (ts_difference d)
              = abs (sm_reported_total (ts_difference d)
                     - sm_calculated_total (ts_difference d))%float
           /\ gtb (sm_difference (ts_difference d)) 2 = true.
Proof.
  destruct (auto_validate_summation 2 assets_report) as [differences|e] eqn:E;
    [|vm_compute in E; discriminate E].
  exists differences. split; [reflexivity|].
  split; [vm_compute in E; injection E as <-; vm_compute; reflexivity|].
  apply (auto_validate_summation_sound 2 assets_report differences E).
Defined.

Lemma split_tables_facts (tables : list (pystr * option DataFrame)) :
  List.Forall (fun entry => In entry tables /\ is_main_name (fst entry) = true)
    (fst (split_tables tables))
  /\ List.Forall (fun entry => In entry tables /\ is_note_name (fst entry) = true)
       (snd (split_tables tables)).
Proof.
  unfold split_tables.
  assert (G : forall (done rest : list (pystr * option DataFrame))
                     (halves : list (pystr * option DataFrame)
                              * list (pystr * option DataFrame)),
             List.Forall (fun entry => In entry (done ++ rest)
                                       /\ is_main_name (fst entry) = true) (fst halves) ->
             List.Forall (fun entry => In entry (done ++ rest)
                                       /\ is_note_name (fst entry) = true) (snd halves) ->
             let result :=
               fold_left
                 (fun halves entry =>
                    let table_name := fst entry in
                    let table_df := snd entry in
                    if Str.contains table_name (u "主表")
                    then (Dict.set (fst halves) table_name table_df, snd halves)
                    else if Str.contains table_name (u "附注")
                            || Str.contains table_name (u "明细")
                    then (fst halves, Dict.set (snd halves) table_name table_df)
                    else halves)
                 rest halves in
             List.Forall (fun entry => In entry (done ++ rest)
                                       /\ is_main_name (fst entry) = true) (fst result)
             /\ List.Forall (fun entry => In entry (done ++ rest)
                                          /\ is_note_name (fst entry) = true)
                  (snd result)).
  { intros done rest. revert done.
    induction rest as [|[table_name table_df] rest IH]; intros done halves Hm Hn;
      [now split|].
    cbn [fold_left fst snd].
    replace (done ++ (table_name, table_df) :: rest)
      with ((done ++ [(table_name, table_df)]) ++ rest) in *
      by now rewrite <- List.app_assoc.
    assert (Hin : In (table_name, table_df)
                    ((done ++ [(table_name, table_df)]) ++ rest)).
    { apply List.in_or_app. left. apply List.in_or_app. right. now left. }
    apply IH.
    - destruct (Str.contains table_name (u "主表")) eqn:M; cbn [fst].
      + apply List.Forall_forall. intros x Hx. apply dict_set_in in Hx.
        destruct Hx as [->|Hx]; [now split|].
        rewrite List.Forall_forall in Hm. now apply Hm.
      + destruct (_ || _); exact Hm.
    - destruct (Str.contains table_name (u "主表")) eqn:M; cbn [snd]; [exact Hn|].
      destruct (Str.contains table_name (u "附注") || Str.contains table_name (u "明细"))
        eqn:N; cbn [snd]; [|exact Hn].
      apply List.Forall_forall. intros x Hx. apply dict_set_in in Hx.
      destruct Hx as [->|Hx].
      * split; [exact Hin|]. unfold is_note_name. cbn [fst]. now rewrite M, N.
      * rewrite List.Forall_forall in Hn. now apply Hn. }
  apply (G [] tables ([], [])); constructor.
Qed.

Lemma reconcile_notes_pairs (tolerance : float) (topics : list pystr)
  (main : pystr * option DataFrame) (note_tables : list (pystr * option DataFrame))
  (differences : list ReconciliationDifference) :
  reconcile_notes tolerance topics (fst main) (snd main) note_tables differences
  = Return
      (differences
       ++ flat_map (table_differences tolerance)
            (map (pair main)
               (List.filter (fun note => any_keyword_in topics (fst note))
                  note_tables))).
Proof.
  unfold reconcile_notes.
  rewrite (for_each_append
             (fun note =>
                if any_keyword_in topics (fst note)
                then table_differences tolerance (main, note) else [])).
  - do 2 f_equal. induction note_tables as [|note rest IH]; [reflexivity|].
    cbn [flat_map List.filter]. destruct (any_keyword_in topics (fst note)).
    + cbn [map flat_map]. now rewrite IH.
    + exact IH.
  - intros st note. destruct (any_keyword_in topics (fst note));
      [|now rewrite List.app_nil_r].
    rewrite reconcile_tables_steps. reflexivity.
Qed.

Lemma flat_map_compose {A B C} (f : B -> list C) (g : A -> list B) (l : list A) :
  flat_map f (flat_map g l) = flat_map (fun x => flat_map f (g x)) l.
Proof.
  induction l as [|x l IH]; [reflexivity|].
  cbn [flat_map]. now rewrite List.flat_map_app, IH.
Qed.

Lemma smart_reconciliation_pairs (tolerance : float) (report : Report) :
  smart_reconciliation tolerance report
  = Return (flat_map (table_differences tolerance)
              (reconciled_pairs (tables report))).
Proof.
  unfold smart_reconciliation, reconciled_pairs.
  destruct (split_tables (tables report)) as [main_tables note_tables].
  cbn [fst snd]. rewrite flat_map_compose.
  rewrite (for_each_append
             (fun main =>
                flat_map (table_differences tolerance)
                  (map (pair main)
                     (List.filter
                        (fun note => any_keyword_in (note_topics (fst main)) (fst note))
                        note_tables)))); [reflexivity|].
  intros st main. unfold note_topics.
  destruct (Str.contains (fst main) (u "资产负债表")).
  - apply reconcile_notes_pairs.
  - destruct (Str.contains (fst main) (u "利润表")).
    + apply reconcile_notes_pairs.
    + cbn [any_keyword_in existsb]. 
      replace (List.filter (fun _ => false) note_tables) with (@nil (pystr * option DataFrame))
        by (induction note_tables; auto).
      simpl. now rewrite List.app_nil_r.
Qed.

Lemma reconciled_pairs_facts (tables : list (pystr * option DataFrame))
  (main note : pystr * option DataFrame) :
  In (main, note) (reconciled_pairs tables) ->
  In main tables /\ In note tables
  /\ is_main_name (fst main) = true
  /\ is_note_name (fst note) = true
  /\ any_keyword_in (note_topics (fst main)) (fst note) = true.
Proof.
  unfold reconciled_pairs. intros H. apply List.in_flat_map in H.
  destruct H as [m [Hm H]]. apply List.in_map_iff in H.
  destruct H as [n [[= <- <-] Hn]]. apply List.filter_In in Hn.
  destruct Hn as [Hn Ht].
  destruct (split_tables_facts tables) as [Fm Fn].
  rewrite List.Forall_forall in Fm, Fn.
  destruct (Fm _ Hm), (Fn _ Hn). tauto.
Qed.

Lemma item_step_record (tolerance : float) (main_table note_table : option DataFrame)
  (main_name note_name main_item : pystr) (r : ReconciliationDifference) :
  In r (item_step tolerance main_table note_table main_name note_name main_item) ->
  rc_main_table r = Some main_name /\ rc_note_table r = Some note_name
  /\ rc_main_item r = main_item
  /\ gtb (rc_difference r) tolerance = true.
Proof.
  unfold item_step. destruct (blank_label main_item); [intros []|].
  intros H. apply List.in_flat_map in H. destruct H as [note_item [_ H]].
  unfold pair_step in H.
  destruct (extracted main_table main_item) as [m|]; [|destruct H].
  destruct (extracted note_table note_item) as [n|]; [|destruct H].
  destruct (gtb _ tolerance) eqn:G; [|destruct H].
  destruct H as [<-|[]]. cbn. auto.
Qed.

(** X5: when [smart_reconciliation] returns, its differences are those
    of the reconciled pairs of tables, and each comes from reconciling
    a table of the report whose name contains 主表 with another table
    of the report whose name does not contain 主表 but contains 附注
    or 明细: a main table named after 资产负债表 with a note named
    after 资产 or 负债, or else a main table named after 利润表 with
    a note named after 收入, 费用 or 损益.  The difference carries
    both table names and a gap above the tolerance. *)
Theorem smart_reconciliation_sound (tolerance : float) (report : Report)
  (differences : list ReconciliationDifference) :
  smart_reconciliation tolerance report = Return differences ->
  differences
  = flat_map (table_differences tolerance) (reconciled_pairs (tables report))
  /\ forall r, In r differences ->
       exists main_name main_table note_name note_table,
         In (main_name, main_table) (tables report)
         /\ In (note_name, note_table) (tables report)
         /\ Str.contains main_name (u "主表") = true
         /\ Str.contains note_name (u "主表") = false
         /\ (Str.contains note_name (u "附注") = true
             \/ Str.contains note_name (u "明细") = true)
         /\ (Str.contains main_name (u "资产负债表") = true
             /\ (Str.contains note_name (u "资产") = true
                 \/ Str.contains note_name (u "负债") = true)
             \/ Str.contains main_name (u "资产负债表") = false
                /\ Str.contains main_name (u "利润表") = true
                /\ (Str.contains note_name (u "收入") = true
                    \/ Str.contains note_name (u "费用") = true
                    \/ Str.contains note_name (u "损益") = true))
         /\ rc_main_table r = Some main_name
         /\ rc_note_table r = Some note_name
         /\ gtb (rc_difference r) tolerance = true.
Proof.
  rewrite smart_reconciliation_pairs. intros [= <-]. split; [reflexivity|].
  intros r Hr. apply List.in_flat_map in Hr.
  destruct Hr as [[[main_name main_table] [note_name note_table]] [Hp Hr]].
  apply reconciled_pairs_facts in Hp. cbn [fst snd] in Hp.
  destruct Hp as (Hm & Hn & Mm & Nn & Ht).
  unfold table_differences in Hr. cbn [fst snd] in Hr.
  destruct (table_is_blank main_table); [destruct Hr|].
  apply List.in_flat_map in Hr. destruct Hr as [main_item [_ Hr]].
  apply item_step_record in Hr. destruct Hr as (R1 & R2 & _ & R4).
  exists main_name, main_table, note_name, note_table.
  unfold is_main_name in Mm. unfold is_note_name in Nn.
  apply andb_true_iff in Nn. destruct Nn as [N1 N2].
  apply negb_true_iff in N1. apply orb_true_iff in N2.
  repeat (split; [assumption|]).
  split; [|now repeat split].
  unfold note_topics in Ht.
  destruct (Str.contains main_name (u "资产负债表")).
  - left. split; [reflexivity|]. cbn [any_keyword_in existsb] in Ht.
    rewrite orb_false_r in Ht. now apply orb_true_iff in Ht.
  - right. split; [reflexivity|].
    destruct (Str.contains main_name (u "利润表")); [|discriminate Ht].
    split; [reflexivity|]. cbn [any_keyword_in existsb] in Ht.
    rewrite orb_false_r in Ht. apply orb_true_iff in Ht.
    destruct Ht as [Ht|Ht]; [now left|]. apply orb_true_iff in Ht. tauto.
Qed.

(** The report on cash: the gap of 10 between the main table and the
    note is the one difference, and it names the two tables. *)
Lemma smart_reconciliation_sound_witness :
  exists differences,
    smart_reconciliation 2 cash_report = Return differences
    /\ map (fun r => (rc_main_table r, rc_note_table r, rc_difference r)) differences
       = [(Some (u "资产负债表主表"), Some (u "货币资金资产附注"), 10%float)]
    /\ differences
       = flat_map (table_differences 2) (reconciled_pairs (tables cash_report)).
Proof.
  destruct (smart_reconciliation 2 cash_report) as [differences|e] eqn:E;
    [|vm_compute in E; discriminate E].
  exists differences. split; [reflexivity|].
  split; [vm_compute in E; injection E as <-; vm_compute; reflexivity|].
  apply (smart_reconciliation_sound 2 cash_report differences E).
Defined.

(** X6: a report none of whose table names contains 主表 is not
    reconciled at all: [smart_reconciliation] returns no difference for
    it, whatever its tables hold. *)
Theorem smart_reconciliation_needs_main_table (tolerance : float) (report : Report) :
  List.Forall (fun entry => Str.contains (fst entry) (u "主表") = false)
    (tables report) ->
  smart_reconciliation tolerance report = Return [].
Proof.
  intros H. rewrite smart_reconciliation_pairs. f_equal.
  unfold reconciled_pairs.
  destruct (split_tables_facts (tables report)) as [Fm _].
  destruct (fst (split_tables (tables report))) as [|m ms]; [reflexivity|].
  exfalso. inversion Fm as [|? ? [Hin Hm] _]; subst.
  rewrite List.Forall_forall in H. specialize (H _ Hin).
  unfold is_main_name in Hm. congruence.
Qed.

Lemma smart_reconciliation_needs_main_table_witness :
  smart_reconciliation 2 plain_report = Return [].
Proof.
  apply smart_reconciliation_needs_main_table.
  repeat (constructor; [vm_compute; reflexivity|]). constructor.
Defined.

(** The same tables reconciled once the balance sheet is named as a
    main table: the gap of 10 on cash is reported. *)
Example smart_reconciliation_cash_report :
  option_map (map rc_difference)
    (match smart_reconciliation 2 cash_report with
     | Return differences => Some differences
     | Raise _ => None
     end)
  = Some [10%float].
Proof. vm_compute. reflexivity. Qed.

End ReportValidation.

(* ===================================================================== *)
(** * Validation of several reports *)
(* ===================================================================== *)

Section ComprehensiveValidation.

Import ReconciliationRules DataValidator.

Lemma for_each_append_in {A B} (g : A -> list B)
  (body : list B -> A -> py (list B)) (xs : list A) :
  (forall st x, In x xs -> body st x = Return (st ++ g x)) ->
  forall st, for_each xs st body = Return (st ++ flat_map g xs).
Proof.
  induction xs as [|x xs IH]; intros H st; simpl.
  - now rewrite List.app_nil_r.
  - rewrite H by now left. cbn [bind].
    rewrite IH by (intros; apply H; now right).
    now rewrite <- List.app_assoc.
Qed.

Lemma consecutive_in {A} (xs : list A) (a b : A) :
  In (a, b) (consecutive xs) -> In a xs /\ In b xs.
Proof.
  induction xs as [|x xs IH]; [intros []|].
  cbn [consecutive]. destruct xs as [|y ys]; [intros []|].
  intros [[= <- <-]|H].
  - split; [now left | right; now left].
  - destruct (IH H). split; now right.
Qed.

Lemma insort_in (x y : pystr) (ys : list pystr) :
  In y (Dict.insort x ys) <-> y = x \/ In y ys.
Proof.
  induction ys as [|z ys IH]; simpl; [intuition|].
  destruct (Str.ltb x z); simpl; [intuition|]. rewrite IH. intuition.
Qed.

Lemma sorted_in (keys : list pystr) (y : pystr) :
  In y (Dict.sorted keys) <-> In y keys.
Proof.
  unfold Dict.sorted.
  assert (G : forall acc, In y (fold_left (fun acc x => Dict.insort x acc) keys acc)
                          <-> In y acc \/ In y keys).
  { induction keys as [|k keys IH]; intros acc; simpl; [tauto|].
    rewrite IH, insort_in. intuition. }
  rewrite G. simpl. tauto.
Qed.

Lemma dict_get_key {V} (d : list (pystr * V)) (k : pystr) :
  In k (map fst d) -> exists v, Dict.get d k = Some v.
Proof.
  induction d as [|[k0 v0] d IH]; simpl; [tauto|].
  unfold Str.eqb. case_bool_decide as E; [eauto|].
  intros [H|H]; [congruence | auto].
Qed.

Ltac eqb_cases :=
  unfold Str.eqb in *;
  repeat match goal with
    | |- context [bool_decide (?a = ?b)] =>
      destruct (decide (a = b));
      [rewrite (bool_decide_eq_true_2 (a = b)) by assumption
      |rewrite (bool_decide_eq_false_2 (a = b)) by assumption]
    end.

Lemma dict_get_set {V} (d : list (pystr * V)) (k k' : pystr) (v : V) :
  Dict.get (Dict.set d k v) k' = if Str.eqb k k' then Some v else Dict.get d k'.
Proof.
  induction d as [|[k0 v0] d IH]; cbn [Dict.get Dict.set]; [reflexivity|].
  destruct (Str.eqb k0 k) eqn:E0; cbn [Dict.get].
  - unfold Str.eqb in E0. apply bool_decide_eq_true_1 in E0. subst k0.
    destruct (Str.eqb k k'); reflexivity.
  - rewrite IH. unfold Str.eqb in E0. apply bool_decide_eq_false_1 in E0.
    eqb_cases; congruence.
Qed.

Lemma dict_mem_get {V} (d : list (pystr * V)) (k : pystr) :
  Dict.mem d k = match Dict.get d k with Some _ => true | None => false end.
Proof.
  induction d as [|[k0 v0] d IH]; simpl; [reflexivity|].
  destruct (Str.eqb k0 k); [reflexivity | exact IH].
Qed.

Lemma count_step_get (d : list (pystr * nat)) (diff : Difference) (k : pystr) :
  Dict.get (count_step d diff) k
  = if Str.eqb (type_of diff) k
    then Some (default 0%nat (Dict.get d k) + 1)%nat
    else Dict.get d k.
Proof.
  unfold count_step. rewrite dict_get_set, dict_mem_get.
  unfold Str.eqb. case_bool_decide as E.
  - subst k. destruct (Dict.get d (type_of diff)) eqn:G; cbn [negb].
    + now rewrite G.
    + rewrite dict_get_set. unfold Str.eqb. now rewrite bool_decide_eq_true_2.
  - destruct (Dict.get d (type_of diff)); cbn [negb]; [reflexivity|].
    rewrite dict_get_set. unfold Str.eqb. now rewrite bool_decide_eq_false_2.
Qed.

Lemma count_step_NoDup (d : list (pystr * nat)) (diff : Difference) :
  List.NoDup (map fst d) -> List.NoDup (map fst (count_step d diff)).
Proof.
  intros H. unfold count_step. apply dict_set_NoDup.
  destruct (negb _); [now apply dict_set_NoDup | exact H].
Qed.

Lemma count_fold_get (ds : list Difference) (d : list (pystr * nat)) (k : pystr) :
  Dict.get (fold_left count_step ds d) k
  = match Dict.get d k with
    | Some m => Some (m + count_type k ds)%nat
    | None => if (count_type k ds =? 0)%nat then None else Some (count_type k ds)
    end.
Proof.
  revert d. induction ds as [|diff ds IH]; intros d.
  - simpl. destruct (Dict.get d k); [|reflexivity]. f_equal. unfold count_type. simpl. lia.
  - cbn [fold_left]. rewrite IH, count_step_get.
    unfold count_type. cbn [List.filter].
    destruct (Str.eqb (type_of diff) k); cbn [length].
    + destruct (Dict.get d k); cbn [default Nat.eqb]; unfold id; f_equal; lia.
    + reflexivity.
Qed.

Lemma count_fold_NoDup (ds : list Difference) (d : list (pystr * nat)) :
  List.NoDup (map fst d) -> List.NoDup (map fst (fold_left count_step ds d)).
Proof.
  revert d. induction ds as [|diff ds IH]; intros d H; [exact H|].
  apply IH, count_step_NoDup, H.
Qed.

Lemma total_count_set (d : list (pystr * nat)) (k : pystr) (v : nat) :
  List.NoDup (map fst d) ->
  (total_count (Dict.set d k v) + default 0 (Dict.get d k)
   = total_count d + v)%nat.
Proof.
  unfold total_count. induction d as [|[k0 v0] d IH]; intros H; simpl; [lia|].
  inversion H; subst. unfold Str.eqb. case_bool_decide; simpl; [lia|].
  specialize (IH ltac:(assumption)). lia.
Qed.

Lemma total_count_step (d : list (pystr * nat)) (diff : Difference) :
  List.NoDup (map fst d) ->
  total_count (count_step d diff) = S (total_count d).
Proof.
  intros H. unfold count_step. rewrite dict_mem_get.
  destruct (Dict.get d (type_of diff)) as [m|] eqn:G; cbn [negb].
  - assert (T := total_count_set d (type_of diff) (m + 1) H).
    rewrite G in *. cbn [default] in *. unfold id in *. lia.
  - assert (T0 := total_count_set d (type_of diff) 0 H).
    rewrite G in T0. cbn [default] in T0.
    assert (T1 := total_count_set (Dict.set d (type_of diff) 0%nat) (type_of diff)
                    (default 0%nat (Dict.get (Dict.set d (type_of diff) 0%nat)
                                      (type_of diff)) + 1)
                    (dict_set_NoDup _ _ _ H)).
    rewrite dict_get_set in *. unfold Str.eqb in *.
    rewrite bool_decide_eq_true_2 in * by reflexivity. cbn [default] in *.
    unfold id in *. lia.
Qed.

Lemma total_count_fold (ds : list Difference) (d : list (pystr * nat)) :
  List.NoDup (map fst d) ->
  total_count (fold_left count_step ds d) = (total_count d + length ds)%nat.
Proof.
  revert d. induction ds as [|diff ds IH]; intros d H; simpl; [lia|].
  rewrite IH by now apply count_step_NoDup.
  rewrite total_count_step by exact H. lia.
Qed.

Lemma count_severity_total (ds : list Difference) :
  (count_severity High ds + count_severity Medium ds + count_severity Low ds
   = length ds)%nat.
Proof.
  unfold count_severity. induction ds as [|d ds IH]; [reflexivity|].
  cbn [List.filter]. destruct (severity_of d); cbn [severity_eqb length]; lia.
Qed.

Lemma report_differences_types (tolerance : float) (report : Report) (d : Difference) :
  In d (report_differences tolerance report) ->
  In (type_of d) difference_types /\ cross_year_of [d] = [].
Proof.
  unfold report_differences. intros H. apply List.in_app_or in H.
  destruct H as [H|H]; apply List.in_map_iff in H; destruct H as [r [<- H]].
  - split; [|reflexivity]. left. cbn [type_of].
    apply List.in_flat_map in H. destruct H as [pair [_ H]].
    unfold table_differences in H. destruct (table_is_blank _); [destruct H|].
    apply List.in_flat_map in H. destruct H as [main_item [_ H]].
    unfold item_step in H. destruct (blank_label main_item); [destruct H|].
    apply List.in_flat_map in H. destruct H as [note_item [_ H]].
    unfold pair_step in H.
    destruct (extracted _ main_item); [|destruct H].
    destruct (extracted _ note_item); [|destruct H].
    destruct (gtb _ tolerance); [|destruct H].
    destruct H as [<-|[]]. reflexivity.
  - split; [|reflexivity]. right. right. left. cbn [type_of].
    apply List.in_flat_map in H. destruct H as [entry [_ H]].
    unfold table_summation in H. apply List.in_map_iff in H.
    destruct H as [s [<- H]]. cbn [ts_difference].
    apply List.in_flat_map in H. destruct H as [rule [_ H]].
    unfold summation_step in H.
    destruct (extracted _ (fst rule)); [|destruct H].
    destruct (omap _ (snd rule)); [destruct H|].
    destruct (gtb _ tolerance); [|destruct H].
    destruct H as [<-|[]]. reflexivity.
Qed.

Lemma cross_year_differences_types (reports : list (pystr * Report)) (d : Difference) :
  In d (cross_year_differences reports) ->
  type_of d = u "跨年不一致" /\ severity_of d = High.
Proof.
  unfold cross_year_differences. intros H. apply List.in_flat_map in H.
  destruct H as [years [_ H]]. unfold year_pair_differences in H.
  destruct (Dict.get reports (snd years)) as [c|]; [|destruct H].
  destruct (Dict.get reports (fst years)) as [p|]; [|destruct H].
  apply List.in_map_iff in H. destruct H as [r [<- H]].
  apply List.in_flat_map in H. destruct H as [item [_ H]].
  unfold cross_year_contribution in H.
  destruct (prior_in_current c item); [|destruct H].
  destruct (current_in_prior p item); [|destruct H].
  destruct (neqb _ _); [|destruct H].
  destruct H as [<-|[]]. split; reflexivity.
Qed.

Lemma comprehensive_validation_differences (tolerance : float)
  (reports : list (pystr * Report)) :
  exists result,
    comprehensive_validation tolerance reports = Return result
    /\ cv_differences result
       = cross_year_differences reports
         ++ flat_map (fun entry => report_differences tolerance (snd entry)) reports
    /\ cv_total_differences result = length (cv_differences result)
    /\ cv_High result = count_severity High (cv_differences result)
    /\ cv_Medium result = count_severity Medium (cv_differences result)
    /\ cv_Low result = count_severity Low (cv_differences result)
    /\ cv_by_type result = fold_left count_step (cv_differences result) [].
Proof.
  unfold comprehensive_validation.
  rewrite (for_each_append_in (year_pair_differences reports)).
  - cbn [bind app].
    rewrite (for_each_append
               (fun entry => report_differences tolerance (snd entry))).
    + cbn [bind]. eexists. split; [reflexivity|]. cbn. repeat split; reflexivity.
    + intros st entry. rewrite smart_reconciliation_pairs. cbn [bind].
      rewrite auto_validate_summation_tables. cbn [bind].
      unfold report_differences. now rewrite List.app_assoc.
  - intros st [previous_year current_year] Hin. cbn [fst snd].
    apply consecutive_in in Hin. destruct Hin as [Hp Hc].
    rewrite sorted_in in Hp, Hc.
    destruct (dict_get_key reports _ Hp) as [p Gp].
    destruct (dict_get_key reports _ Hc) as [c Gc].
    unfold Dict.getitem, year_pair_differences. cbn [fst snd].
    rewrite Gp, Gc. cbn [bind].
    rewrite validate_cross_year_contributions. reflexivity.
Qed.

(** X7: the summary [comprehensive_validation] returns.  Its
    differences are the cross-year differences of consecutive years,
    in increasing order of the year keys, followed by the differences
    found inside each report, in the order of the reports.  The total
    is the number of differences; the High, Medium and Low counts add
    up to it, and so do the counts by type, which list each type that
    occurs once, with its number of occurrences, and only the types
    勾稽差异, 跨年不一致 and 加总错误. *)
Theorem comprehensive_validation_summary (tolerance : float)
  (reports : list (pystr * Report)) (result : ValidationResult) :
  comprehensive_validation tolerance reports = Return result ->
  cv_differences result
  = cross_year_differences reports
    ++ flat_map (fun entry => report_differences tolerance (snd entry)) reports
  /\ cv_total_differences result = length (cv_differences result)
  /\ (cv_High result + cv_Medium result + cv_Low result
      = cv_total_differences result)%nat
  /\ total_count (cv_by_type result) = cv_total_differences result
  /\ List.NoDup (map fst (cv_by_type result))
  /\ (forall diff_type n,
        In (diff_type, n) (cv_by_type result)
        <-> n = count_type diff_type (cv_differences result) /\ (0 < n)%nat)
  /\ (forall diff_type, In diff_type (map fst (cv_by_type result)) ->
                        In diff_type difference_types).
Proof.
  intros Hreturn.
  destruct (comprehensive_validation_differences tolerance reports)
    as (result' & E & Hd & Ht & HH & HM & HL & Hb).
  rewrite Hreturn in E. injection E as <-.
  split; [exact Hd|]. split; [exact Ht|].
  assert (ND : List.NoDup (map fst (cv_by_type result))).
  { rewrite Hb. apply count_fold_NoDup. constructor. }
  assert (Hget : forall diff_type n,
             In (diff_type, n) (cv_by_type result)
             <-> n = count_type diff_type (cv_differences result) /\ (0 < n)%nat).
  { intros k n. rewrite <- (dict_get_in _ _ _ ND), Hb, count_fold_get.
    cbn [Dict.get].
    destruct (count_type k (cv_differences result) =? 0)%nat eqn:Z.
    - apply Nat.eqb_eq in Z. split; [discriminate | lia].
    - apply Nat.eqb_neq in Z. split; [intros [= <-]; lia | intros [-> _]; reflexivity]. }
  split; [rewrite HH, HM, HL, Ht; apply count_severity_total|].
  split; [rewrite Hb, total_count_fold by constructor; cbn; lia|].
  split; [exact ND|]. split; [exact Hget|].
  intros k Hk. apply List.in_map_iff in Hk. destruct Hk as [[k' n] [<- Hin]].
  apply Hget in Hin. destruct Hin as [-> Hpos]. cbn [fst].
  unfold count_type in Hpos.
  destruct (List.filter _ _) as [|d ds] eqn:F; [simpl in Hpos; lia|].
  assert (Hd' : In d (List.filter (fun d => Str.eqb (type_of d) k') (cv_differences result)))
    by (rewrite F; now left).
  apply List.filter_In in Hd'. destruct Hd' as [Hin Heq].
  unfold Str.eqb in Heq. apply bool_decide_eq_true_1 in Heq. subst k'.
  rewrite Hd in Hin. apply List.in_app_or in Hin. destruct Hin as [Hin|Hin].
  - apply cross_year_differences_types in Hin. destruct Hin as [-> _].
    right. now left.
  - apply List.in_flat_map in Hin. destruct Hin as [entry [_ Hin]].
    now apply report_differences_types in Hin.
Qed.

(** The reports of 2022 and 2023: the comparative total of 185 against
    the 180 reported the year before is the one difference, of type
    跨年不一致 and of severity High. *)
Lemma comprehensive_validation_summary_witness :
  exists result,
    comprehensive_validation 2 two_reports = Return result
    /\ cv_total_differences result = 1%nat
    /\ cv_by_type result = [(u "跨年不一致", 1%nat)]
    /\ (cv_High result + cv_Medium result + cv_Low result
        = cv_total_differences result)%nat
    /\ total_count (cv_by_type result) = cv_total_differences result.
Proof.
  destruct (comprehensive_validation 2 two_reports) as [result|e] eqn:E;
    [|vm_compute in E; discriminate E].
  exists result.
  destruct (comprehensive_validation_summary 2 two_reports result E)
    as (_ & _ & Hseverity & Htypes & _).
  split; [reflexivity|].
  split; [vm_compute in E; injection E as <-; reflexivity|].
  split; [vm_compute in E; injection E as <-; reflexivity|].
  split; assumption.
Defined.

Lemma ltb_irrefl (a : pystr) : Str.ltb a a = false.
Proof.
  induction a as [|x a IH]; [reflexivity|]. cbn [Str.ltb].
  rewrite N.ltb_irrefl, N.eqb_refl, IH. reflexivity.
Qed.

Lemma ltb_cons (x y : N) (a b : pystr) :
  Str.ltb (x :: a) (y :: b) = true
  <-> (x < y)%N \/ x = y /\ Str.ltb a b = true.
Proof.
  cbn [Str.ltb]. rewrite orb_true_iff, andb_true_iff, N.ltb_lt, N.eqb_eq.
  reflexivity.
Qed.

Lemma ltb_trans (a b c : pystr) :
  Str.ltb a b = true -> Str.ltb b c = true -> Str.ltb a c = true.
Proof.
  revert b c. induction a as [|x a IH]; intros [|y b] [|z c]; try discriminate;
    try reflexivity.
  rewrite !ltb_cons. intros [H1|[-> H1]] [H2|[-> H2]].
  - left. lia.
  - now left.
  - now left.
  - right. split; [reflexivity|]. now apply (IH b).
Qed.

Lemma ltb_asym (a b : pystr) : Str.ltb a b = true -> Str.ltb b a = false.
Proof.
  intros H. destruct (Str.ltb b a) eqn:E; [|reflexivity].
  assert (T := ltb_trans _ _ _ H E). now rewrite ltb_irrefl in T.
Qed.

Lemma ltb_total (a b : pystr) :
  Str.ltb a b = false -> Str.ltb b a = false -> a = b.
Proof.
  revert b. induction a as [|x a IH]; intros [|y b]; try discriminate;
    [reflexivity|].
  cbn [Str.ltb]. rewrite !orb_false_iff, !andb_false_iff, !N.ltb_ge, !N.eqb_neq.
  intros [H1 H1'] [H2 H2'].
  assert (x = y) by lia. subst y. f_equal.
  apply IH; tauto.
Qed.

Lemma insort_commute (x y : pystr) (l : list pystr) :
  Dict.insort x (Dict.insort y l) = Dict.insort y (Dict.insort x l).
Proof.
  assert (Hxy : Str.ltb x y = true /\ Str.ltb y x = false
                \/ Str.ltb x y = false /\ Str.ltb y x = true
                \/ x = y).
  { destruct (Str.ltb x y) eqn:Exy.
    - left. split; [reflexivity | now apply ltb_asym].
    - destruct (Str.ltb y x) eqn:Eyx; [right; left; now split|].
      right. right. now apply ltb_total. }
  destruct Hxy as [[Exy Eyx]|[[Exy Eyx]| ->]]; [| |reflexivity];
    induction l as [|z l IH]; cbn [Dict.insort]; rewrite ?Exy, ?Eyx;
    try reflexivity;
    destruct (Str.ltb y z) eqn:Eyz, (Str.ltb x z) eqn:Exz;
    cbn [Dict.insort]; rewrite ?Exy, ?Eyx, ?Eyz, ?Exz; try reflexivity;
    try (now rewrite IH).
  - now rewrite (ltb_trans _ _ _ Exy Eyz) in Exz.
  - now rewrite (ltb_trans _ _ _ Eyx Exz) in Eyz.
Qed.

Lemma sorted_permutation (keys keys' : list pystr) :
  Permutation keys keys' -> Dict.sorted keys = Dict.sorted keys'.
Proof.
  unfold Dict.sorted. intros P. generalize (@nil pystr).
  induction P as [|k l l' _ IH|k1 k2 l|l1 l2 l3 _ IH1 _ IH2]; intros acc;
    cbn [fold_left].
  - reflexivity.
  - apply IH.
  - now rewrite insort_commute.
  - now rewrite IH1.
Qed.

Lemma dict_get_permutation {V} (d d' : list (pystr * V)) (k : pystr) :
  List.NoDup (map fst d) -> Permutation d d' -> Dict.get d k = Dict.get d' k.
Proof.
  intros ND P.
  assert (ND' : List.NoDup (map fst d')).
  { eapply Permutation_NoDup; [|exact ND]. now apply Permutation_map. }
  destruct (Dict.get d k) as [v|] eqn:G.
  - symmetry. apply dict_get_in; [exact ND'|].
    eapply Permutation_in; [exact P|]. now apply dict_get_in.
  - destruct (Dict.get d' k) as [v'|] eqn:G'; [|reflexivity].
    apply dict_get_in in G'; [|exact ND'].
    apply (Permutation_in _ (Permutation_sym P)) in G'.
    apply dict_get_in in G'; [congruence | exact ND].
Qed.

Lemma cross_year_of_app (ds ds' : list Difference) :
  cross_year_of (ds ++ ds') = cross_year_of ds ++ cross_year_of ds'.
Proof. unfold cross_year_of. apply omap_app. Qed.

Lemma cross_year_of_none (ds : list Difference) :
  (forall d, In d ds -> cross_year_of [d] = []) -> cross_year_of ds = [].
Proof.
  induction ds as [|d ds IH]; intros H; [reflexivity|].
  change (d :: ds) with ([d] ++ ds). rewrite cross_year_of_app.
  rewrite (H d) by now left. apply IH. intros; apply H; now right.
Qed.

(** X8: the order in which the reports were put into the dict does not
    matter to [comprehensive_validation]: two dicts with the same
    reports under the same (distinct) keys give the same cross-year
    differences in the same order, and the same differences overall up
    to their order, hence the same total. *)
Theorem comprehensive_validation_insertion_order (tolerance : float)
  (reports reports' : list (pystr * Report)) :
  List.NoDup (map fst reports) ->
  Permutation reports reports' ->
  exists result result',
    comprehensive_validation tolerance reports = Return result
    /\ comprehensive_validation tolerance reports' = Return result'
    /\ cross_year_of (cv_differences result)
       = cross_year_of (cv_differences result')
    /\ cross_year_of (cv_differences result)
       = cross_year_of (cross_year_differences reports)
    /\ Permutation (cv_differences result) (cv_differences result')
    /\ cv_total_differences result = cv_total_differences result'.
Proof.
  intros ND P.
  destruct (comprehensive_validation_differences tolerance reports)
    as (result & E & Hd & Ht & _).
  destruct (comprehensive_validation_differences tolerance reports')
    as (result' & E' & Hd' & Ht' & _).
  exists result, result'. split; [exact E|]. split; [exact E'|].
  assert (C : cross_year_differences reports = cross_year_differences reports').
  { unfold cross_year_differences.
    rewrite (sorted_permutation (map fst reports) (map fst reports'))
      by now apply Permutation_map.
    apply List.flat_map_ext. intros years. unfold year_pair_differences.
    now rewrite !(dict_get_permutation reports reports' _ ND P). }
  assert (N : forall rs : list (pystr * Report),
             cross_year_of
               (flat_map (fun entry => report_differences tolerance (snd entry)) rs)
             = []).
  { intros rs. apply cross_year_of_none. intros d Hin.
    apply List.in_flat_map in Hin. destruct Hin as [entry [_ Hin]].
    now apply report_differences_types in Hin. }
  assert (Pd : Permutation (cv_differences result) (cv_differences result')).
  { rewrite Hd, Hd', C. apply Permutation_app_head.
    now apply Permutation_flat_map. }
  split; [rewrite Hd, Hd', !cross_year_of_app, !N, C; reflexivity|].
  split; [rewrite Hd, cross_year_of_app, N; apply List.app_nil_r|].
  split; [exact Pd|].
  rewrite Ht, Ht'. now apply Permutation_length.
Qed.

Lemma comprehensive_validation_insertion_order_witness :
  exists result result',
    comprehensive_validation 2 two_reports = Return result
    /\ comprehensive_validation 2 (rev two_reports) = Return result'
    /\ cross_year_of (cv_differences result)
       = cross_year_of (cv_differences result')
    /\ cross_year_of (cv_differences result)
       = cross_year_of (cross_year_differences two_reports)
    /\ Permutation (cv_differences result) (cv_differences result')
    /\ cv_total_differences result = cv_total_differences result'.
Proof.
  apply comprehensive_validation_insertion_order.
  - vm_compute. repeat constructor; simpl; intuition discriminate.
  - apply Permutation_rev.
Defined.

(** The comparative total of 185 in the 2023 report against the 180
    of the 2022 report is the one difference of the two reports. *)
Example comprehensive_validation_two_reports :
  option_map (fun result => (cv_total_differences result, cv_High result,
                             cv_by_type result))
    (match comprehensive_validation 2 two_reports with
     | Return result => Some result
     | Raise _ => None
     end)
  = Some (1%nat, 1%nat, [(u "跨年不一致", 1%nat)]).
Proof. vm_compute. reflexivity. Qed.

End ComprehensiveValidation.

(* ===================================================================== *)
(** * The rule catalogue *)
(* ===================================================================== *)

Section RuleCatalogue.

Import FinancialReconciliation.

Lemma check_rules_outcomes (tolerance : float) (rules : list Rule)
  (category : pystr) (financial_data : gmap pystr float)
  (results : list RuleResult) :
  (forall rule, In rule rules -> In rule reconciliation_rules) ->
  check_rules tolerance rules category financial_data results
  = Return (results
            ++ omap (rule_outcome tolerance financial_data)
                 (map (pair category) rules)).
Proof.
  intros Hr. unfold check_rules.
  rewrite (for_each_append_in
             (fun rule =>
                match rule_outcome tolerance financial_data (category, rule) with
                | Some r => [r]
                | None => []
                end)).
  - do 2 f_equal. rewrite <- flat_map_option.
    induction rules as [|rule rules IH]; [reflexivity|].
    cbn [map flat_map]. rewrite IH; [reflexivity|].
    intros; apply Hr; now right.
  - intros st rule Hin.
    destruct (builtin_checks_return rule financial_data (Hr _ Hin)) as [difference Hc].
    rewrite (check_rule_cases _ _ _ _ _ Hc). cbn [bind].
    unfold rule_outcome. cbn [fst snd]. rewrite Hc.
    destruct (all_present rule financial_data);
      [reflexivity | now rewrite List.app_nil_r].
Qed.

Lemma validate_reconciliation_outcomes (tolerance : float)
  (financial_data : gmap pystr float) :
  validate_reconciliation tolerance financial_data
  = Return (omap (rule_outcome tolerance financial_data) categorized_rules).
Proof.
  unfold validate_reconciliation, categorized_rules.
  do 4 (rewrite check_rules_outcomes
          by (intros rule H; unfold reconciliation_rules;
              rewrite !List.in_app_iff; tauto);
        cbn [bind app]).
  rewrite !omap_app, !List.app_assoc. reflexivity.
Qed.

Lemma all_present_false (rule : Rule) (financial_data : gmap pystr float) :
  all_present rule financial_data = false ->
  exists item, In item (items rule) /\ financial_data !! item = None.
Proof.
  unfold all_present. induction (items rule) as [|item rest IH]; [discriminate|].
  cbn [forallb]. case_bool_decide as E; cbn [andb].
  - intros H. destruct (IH H) as (i & Hi & Hn). exists i. split; [now right | exact Hn].
  - intros _. exists item. split; [now left|].
    destruct (financial_data !! item) eqn:L; [|reflexivity].
    exfalso. apply E. eauto.
Qed.

Lemma categorized_rules_builtin (category : pystr) (rule : Rule) :
  In (category, rule) categorized_rules -> In rule reconciliation_rules.
Proof.
  unfold categorized_rules, reconciliation_rules.
  rewrite !List.in_app_iff, !List.in_map_iff.
  intros [H|[H|[H|H]]]; destruct H as [r [[= _ <-] H]]; tauto.
Qed.

(** X9: [FinancialReconciliation.validate_reconciliation] never
    raises.  It returns, in the order of the catalogue, one result for
    each of the eleven built-in rules whose items are all in the data,
    under the category of the rule, with the difference the rule
    computes and a pass mark that says whether that difference is
    within the tolerance; a rule with a missing item gives no result,
    so empty data give no result at all. *)
Theorem validate_reconciliation_catalogue (tolerance : float)
  (financial_data : gmap pystr float) :
  exists results,
    validate_reconciliation tolerance financial_data = Return results
    /\ results = omap (rule_outcome tolerance financial_data) categorized_rules
    /\ (length results <= 11)%nat
    /\ (forall category rule,
          In (category, rule) categorized_rules ->
          match rule_outcome tolerance financial_data (category, rule) with
          | Some r =>
            (forall item, In item (items rule) -> is_Some (financial_data !! item))
            /\ r_category r = category
            /\ r_name r = name rule
            /\ check rule financial_data = Return (r_difference r)
            /\ r_is_pass r = (r_difference r <=? tolerance)%float
          | None => exists item, In item (items rule) /\ financial_data !! item = None
          end)
    /\ validate_reconciliation tolerance ∅ = Return [].
Proof.
  eexists. split; [apply validate_reconciliation_outcomes|].
  split; [reflexivity|]. split; [apply (omap_length_le _ categorized_rules)|].
  split.
  - intros category rule Hin. apply categorized_rules_builtin in Hin.
    destruct (builtin_checks_return rule financial_data Hin) as [difference Hc].
    unfold rule_outcome. cbn [fst snd]. rewrite Hc.
    destruct (all_present rule financial_data) eqn:A.
    + assert (A' := proj1 (all_present_spec _ _) A).
      cbn. repeat split; auto.
    + now apply all_present_false.
  - rewrite validate_reconciliation_outcomes. vm_compute. reflexivity.
Qed.

End RuleCatalogue.

(* ===================================================================== *)
(** * Extraction of the financial data *)
(* ===================================================================== *)

Section FinancialData.

Import FinancialReconciliation.

Lemma find_value_found (df : option DataFrame) (item_names : list pystr) (col : nat) :
  _find_value_in_df df item_names (Z.of_nat col)
  = Return (found_in_column df item_names col).
Proof. apply find_value_in_df_head. Qed.

Lemma find_value_last (df : option DataFrame) (item_names : list pystr) :
  _find_value_in_df df item_names (-1)
  = Return (found_in_column df item_names (last_column df)).
Proof.
  rewrite <- find_value_found. unfold _find_value_in_df, last_column.
  destruct df as [t|]; [|reflexivity].
  destruct (table_is_blank (Some t)) eqn:B; [reflexivity|].
  cbn [table_columns]. destruct (columns t) as [|c cs] eqn:C.
  { simpl in B. now rewrite C in B. }
  cbn [length]. rewrite Nat.sub_succ, Nat.sub_0_r.
  change (-1 <? 0)%Z with true. cbv iota.
  replace (Z.of_nat (S (length cs)) + -1)%Z with (Z.of_nat (length cs)) by lia.
  destruct (Z.of_nat (length cs) <? 0)%Z eqn:L; [apply Z.ltb_lt in L; lia|].
  reflexivity.
Qed.

Lemma store_keys (value : option float) (keys : list pystr) (data : gmap pystr float) :
  fold_left store (map (fun k => (k, value)) keys) data
  = match value with
    | Some v => fold_left (fun data k => <[ k := v ]> data) keys data
    | None => data
    end.
Proof.
  revert data. induction keys as [|k keys IH]; intros data; cbn [map fold_left].
  - now destruct value.
  - rewrite IH. unfold store. cbn [fst snd]. now destruct value.
Qed.

Lemma extract_items_store (df : option DataFrame)
  (items_to_extract : list (pystr * list pystr)) (col : nat)
  (keys_of : pystr -> list pystr) (data : gmap pystr float) :
  extract_items df items_to_extract (Z.of_nat col) keys_of data
  = Return (fold_left store
              (column_assignments (found_in_column df) items_to_extract col keys_of)
              data).
Proof.
  unfold extract_items, column_assignments. revert data.
  induction items_to_extract as [|[key aliases] rest IH]; intros data; [reflexivity|].
  cbn [for_each flat_map fst snd]. rewrite find_value_found. cbn [bind].
  rewrite List.fold_left_app, store_keys.
  destruct (found_in_column df aliases col); cbn [bind]; apply IH.
Qed.

Lemma extract_items_store_last (df : option DataFrame)
  (items_to_extract : list (pystr * list pystr))
  (keys_of : pystr -> list pystr) (data : gmap pystr float) :
  extract_items df items_to_extract (-1) keys_of data
  = Return (fold_left store
              (column_assignments (found_in_column df) items_to_extract
                 (last_column df) keys_of) data).
Proof.
  unfold extract_items, column_assignments. revert data.
  induction items_to_extract as [|[key aliases] rest IH]; intros data; [reflexivity|].
  cbn [for_each flat_map fst snd]. rewrite find_value_last. cbn [bind].
  rewrite List.fold_left_app, store_keys.
  destruct (found_in_column df aliases (last_column df)); cbn [bind]; apply IH.
Qed.

Lemma store_fold_other (assignments : list (pystr * option float))
  (data : gmap pystr float) (k : pystr) :
  ~ In k (map fst assignments) ->
  fold_left store assignments data !! k = data !! k.
Proof.
  revert data. induction assignments as [|[k0 ov] rest IH]; intros data H;
    [reflexivity|].
  cbn [fold_left]. rewrite IH by (intros Hin; apply H; now right).
  unfold store. cbn [fst snd]. destruct ov; [|reflexivity].
  apply lookup_insert_ne. intros ->. apply H. now left.
Qed.

Lemma store_fold_lookup (assignments : list (pystr * option float))
  (data : gmap pystr float) (k : pystr) (ov : option float) :
  List.NoDup (map fst assignments) ->
  In (k, ov) assignments ->
  fold_left store assignments data !! k
  = match ov with Some v => Some v | None => data !! k end.
Proof.
  revert data. induction assignments as [|[k0 ov0] rest IH]; intros data ND Hin;
    [destruct Hin|].
  cbn [map fst] in ND. inversion ND as [|? ? Hn ND']; subst.
  cbn [fold_left]. destruct Hin as [[= -> ->]|Hin].
  - rewrite store_fold_other by exact Hn. unfold store. cbn [fst snd].
    destruct ov; [apply lookup_insert_eq|reflexivity].
  - rewrite IH by assumption. destruct ov; [reflexivity|].
    unfold store. cbn [fst snd]. destruct ov0; [|reflexivity].
    apply lookup_insert_ne. intros ->. apply Hn.
    apply List.in_map_iff. now exists (k, None).
Qed.

Lemma column_assignments_keys (value_of : list pystr -> nat -> option float)
  (items_to_extract : list (pystr * list pystr)) (col : nat)
  (keys_of : pystr -> list pystr) :
  map fst (column_assignments value_of items_to_extract col keys_of)
  = flat_map keys_of (map fst items_to_extract).
Proof.
  unfold column_assignments.
  induction items_to_extract as [|[key aliases] rest IH]; [reflexivity|].
  cbn [flat_map map fst snd]. rewrite List.map_app, IH, List.map_map. cbn [fst].
  now rewrite List.map_id.
Qed.


Lemma extract_from_balance_sheet_data (df : option DataFrame) :
  _extract_from_balance_sheet df = Return (balance_sheet_data df).
Proof.
  unfold _extract_from_balance_sheet, balance_sheet_data, balance_sheet_assignments.
  rewrite (extract_items_store df _ 2). cbn [bind].
  rewrite (extract_items_store df _ 3). now rewrite List.fold_left_app.
Qed.

Lemma extract_from_income_statement_data (df : option DataFrame) :
  _extract_from_income_statement df = Return (income_statement_data df).
Proof.
  unfold _extract_from_income_statement, income_statement_data,
    income_statement_assignments.
  rewrite (extract_items_store df _ 2). cbn [bind].
  rewrite (extract_items_store df _ 3). now rewrite List.fold_left_app.
Qed.

Lemma fund_items_store (df : option DataFrame) (items : list (pystr * list pystr))
  (data : gmap pystr float) :
  for_each items data
    (fun data entry =>
       let key := fst entry in
       let aliases := snd entry in
       let* value :=
         if Str.contains key (u "实收基金")
         then _find_value_in_df df aliases 1
         else _find_value_in_df df aliases 2 in
       match value with
       | Some value => Return (<[ key := value ]> data)
       | None => Return data
       end)
  = Return
      (fold_left store
         (map (fun entry =>
                 (fst entry, found_in_column df (snd entry) (fund_column (fst entry))))
            items)
         data).
Proof.
  revert data. induction items as [|[key aliases] rest IH]; intros data; [reflexivity|].
  cbn [for_each map fold_left fst snd].
  assert (Hf : (if Str.contains key (u "实收基金")
                then _find_value_in_df df aliases 1
                else _find_value_in_df df aliases 2)
               = Return (found_in_column df aliases (fund_column key))).
  { unfold fund_column. destruct (Str.contains key (u "实收基金"));
      [apply (find_value_found df aliases 1) | apply (find_value_found df aliases 2)]. }
  rewrite Hf. cbn [bind]. unfold store at 2. cbn [fst snd].
  destruct (found_in_column df aliases (fund_column key)); apply IH.
Qed.

Lemma extract_from_net_asset_changes_data (df : option DataFrame) :
  _extract_from_net_asset_changes df = Return (net_asset_data df).
Proof.
  unfold _extract_from_net_asset_changes, net_asset_data, net_asset_assignments.
  rewrite extract_items_store_last. cbn [bind].
  rewrite fund_items_store. cbn [bind]. now rewrite List.fold_left_app.
Qed.

Lemma assignments_lookup (assignments : list (pystr * option float))
  (k : pystr) (ov : option float) :
  List.NoDup (map fst assignments) ->
  In (k, ov) assignments ->
  fold_left store assignments ∅ !! k = ov.
Proof.
  intros ND Hin. rewrite (store_fold_lookup _ _ _ _ ND Hin).
  destruct ov; [reflexivity | apply lookup_empty].
Qed.

Lemma assignments_domain (assignments : list (pystr * option float)) (k : pystr) :
  is_Some (fold_left store assignments ∅ !! k) -> In k (map fst assignments).
Proof.
  intros [v H]. destruct (List.in_dec (@list_eq_dec N _) k (map fst assignments)) as [Hin|Hn];
    [exact Hin|].
  rewrite store_fold_other, lookup_empty in H by exact Hn. discriminate.
Qed.

Lemma column_assignments_in (value_of : list pystr -> nat -> option float)
  (items_to_extract : list (pystr * list pystr)) (col : nat)
  (keys_of : pystr -> list pystr) (key : pystr) (aliases : list pystr) (k : pystr) :
  In (key, aliases) items_to_extract ->
  In k (keys_of key) ->
  In (k, value_of aliases col)
    (column_assignments value_of items_to_extract col keys_of).
Proof.
  intros Hi Hk. unfold column_assignments. apply List.in_flat_map.
  exists (key, aliases). split; [exact Hi|]. cbn [fst snd].
  apply List.in_map_iff. now exists k.
Qed.

Lemma balance_sheet_keys_NoDup (value_of : list pystr -> nat -> option float) :
  List.NoDup (map fst (balance_sheet_assignments value_of)).
Proof.
  unfold balance_sheet_assignments.
  rewrite List.map_app, !column_assignments_keys.
  apply NoDup_ListNoDup, (bool_decide_unpack _). vm_compute. exact I.
Qed.

Lemma income_statement_keys_NoDup (value_of : list pystr -> nat -> option float) :
  List.NoDup (map fst (income_statement_assignments value_of)).
Proof.
  unfold income_statement_assignments.
  rewrite List.map_app, !column_assignments_keys.
  apply NoDup_ListNoDup, (bool_decide_unpack _). vm_compute. exact I.
Qed.

(** X10: [_extract_from_balance_sheet] never raises.  For each of its
    thirteen items the value found for the aliases in the third column
    is stored under the key and under 期末 + key, the value found in
    the fourth column under 期初 + key and under 上年度可比区间 + key
    (nothing is stored when no value is found), and no other key is
    stored. *)
Theorem extract_from_balance_sheet_keys (df : option DataFrame) :
  exists data,
    _extract_from_balance_sheet df = Return data
    /\ List.Forall
         (fun entry =>
            data !! fst entry = found_in_column df (snd entry) 2
            /\ data !! (u "期末" ++ fst entry) = found_in_column df (snd entry) 2
            /\ data !! (u "期初" ++ fst entry) = found_in_column df (snd entry) 3
            /\ data !! (u "上年度可比区间" ++ fst entry)
               = found_in_column df (snd entry) 3)
         balance_sheet_items_to_extract
    /\ (forall k, is_Some (data !! k) ->
                  exists prefix key,
                    In prefix [u ""; u "期末"; u "期初"; u "上年度可比区间"]
                    /\ In key (map fst balance_sheet_items_to_extract)
                    /\ k = prefix ++ key).
Proof.
  exists (balance_sheet_data df). split; [apply extract_from_balance_sheet_data|].
  split.
  - apply List.Forall_forall. intros [key aliases] Hin. cbn [fst snd].
    unfold balance_sheet_data.
    repeat split; apply assignments_lookup; try apply balance_sheet_keys_NoDup;
      unfold balance_sheet_assignments; apply List.in_or_app;
      [left|left|right|right];
      (eapply column_assignments_in; [exact Hin | simpl; tauto]).
  - intros k Hk. unfold balance_sheet_data in Hk. apply assignments_domain in Hk.
    unfold balance_sheet_assignments in Hk.
    rewrite List.map_app, !column_assignments_keys in Hk.
    apply List.in_app_or in Hk.
    destruct Hk as [Hk|Hk]; apply List.in_flat_map in Hk;
      destruct Hk as [key [Hkey Hk]]; simpl in Hk;
      destruct Hk as [<-|[<-|[]]].
    + exists (u ""), key. simpl. tauto.
    + exists (u "期末"), key. simpl. tauto.
    + exists (u "期初"), key. simpl. tauto.
    + exists (u "上年度可比区间"), key. simpl. tauto.
Qed.

(** X11: [_extract_from_income_statement] never raises.  For each of
    its seven items the value found for the aliases in the third
    column is stored under the key and under 本期 + key, the value
    found in the fourth column under 上期 + key, and no other key is
    stored. *)
Theorem extract_from_income_statement_keys (df : option DataFrame) :
  exists data,
    _extract_from_income_statement df = Return data
    /\ List.Forall
         (fun entry =>
            data !! fst entry = found_in_column df (snd entry) 2
            /\ data !! (u "本期" ++ fst entry) = found_in_column df (snd entry) 2
            /\ data !! (u "上期" ++ fst entry) = found_in_column df (snd entry) 3)
         income_statement_items_to_extract
    /\ (forall k, is_Some (data !! k) ->
                  exists prefix key,
                    In prefix [u ""; u "本期"; u "上期"]
                    /\ In key (map fst income_statement_items_to_extract)
                    /\ k = prefix ++ key).
Proof.
  exists (income_statement_data df).
  split; [apply extract_from_income_statement_data|]. split.
  - apply List.Forall_forall. intros [key aliases] Hin. cbn [fst snd].
    unfold income_statement_data.
    repeat split; apply assignments_lookup; try apply income_statement_keys_NoDup;
      unfold income_statement_assignments; apply List.in_or_app;
      [left|left|right];
      (eapply column_assignments_in; [exact Hin | simpl; tauto]).
  - intros k Hk. unfold income_statement_data in Hk. apply assignments_domain in Hk.
    unfold income_statement_assignments in Hk.
    rewrite List.map_app, !column_assignments_keys in Hk.
    apply List.in_app_or in Hk.
    destruct Hk as [Hk|Hk]; apply List.in_flat_map in Hk;
      destruct Hk as [key [Hkey Hk]]; simpl in Hk.
    + destruct Hk as [<-|[<-|[]]].
      * exists (u ""), key. simpl. tauto.
      * exists (u "本期"), key. simpl. tauto.
    + destruct Hk as [<-|[]]. exists (u "上期"), key. simpl. tauto.
Qed.

Lemma net_asset_keys_NoDup (value_of : list pystr -> nat -> option float)
  (last : nat) :
  List.NoDup (map fst (net_asset_assignments value_of last)
              ++ [u "本期实收基金变动"; u "本期未分配利润变动"]).
Proof.
  unfold net_asset_assignments.
  rewrite List.map_app, !column_assignments_keys, List.map_map. cbn [fst].
  apply NoDup_ListNoDup, (bool_decide_unpack _). vm_compute. exact I.
Qed.

Lemma store_change_other (target minuend subtrahend k : pystr)
  (data : gmap pystr float) :
  k <> target -> store_change target minuend subtrahend data !! k = data !! k.
Proof.
  intros H. unfold store_change.
  destruct (data !! subtrahend), (data !! minuend); try reflexivity.
  now apply lookup_insert_ne.
Qed.

Lemma store_change_target (target minuend subtrahend : pystr)
  (data : gmap pystr float) :
  data !! target = None ->
  store_change target minuend subtrahend data !! target
  = match data !! subtrahend, data !! minuend with
    | Some start, Some stop => Some (stop - start)%float
    | _, _ => None
    end.
Proof.
  intros H. unfold store_change.
  destruct (data !! subtrahend), (data !! minuend); try exact H.
  apply lookup_insert_eq.
Qed.

Lemma NoDup_app_disjoint {A} (l1 l2 : list A) (x : A) :
  List.NoDup (l1 ++ l2) -> In x l1 -> In x l2 -> False.
Proof.
  induction l1 as [|a l1 IH]; cbn [app]; intros ND H1 H2; [destruct H1|].
  inversion ND as [|? ? Hn ND']; subst. destruct H1 as [->|H1].
  - apply Hn, List.in_or_app. now right.
  - now apply IH.
Qed.

Lemma store_changes_lookup (base : gmap pystr float)
  (t1 m1 s1 t2 m2 s2 : pystr) :
  t1 <> t2 -> s1 <> t1 -> m1 <> t1 -> s1 <> t2 -> m1 <> t2 ->
  s2 <> t1 -> m2 <> t1 -> s2 <> t2 -> m2 <> t2 ->
  base !! t1 = None -> base !! t2 = None ->
  let data := store_change t2 m2 s2 (store_change t1 m1 s1 base) in
  data !! t1
  = match data !! s1, data !! m1 with
    | Some start, Some stop => Some (stop - start)%float
    | _, _ => None
    end
  /\ data !! t2
     = match data !! s2, data !! m2 with
       | Some start, Some stop => Some (stop - start)%float
       | _, _ => None
       end.
Proof.
  intros. subst data. split.
  - rewrite !(store_change_other t2) by assumption.
    rewrite store_change_target by assumption.
    now rewrite !(store_change_other t1) by assumption.
  - rewrite store_change_target
      by (rewrite store_change_other by auto; assumption).
    now rewrite !(store_change_other t2) by assumption.
Qed.

Lemma net_asset_data_lookup (df : option DataFrame) (k : pystr) (ov : option float) :
  In (k, ov) (net_asset_assignments (found_in_column df) (last_column df)) ->
  net_asset_data df !! k = ov.
Proof.
  intros Hin.
  assert (ND := net_asset_keys_NoDup (found_in_column df) (last_column df)).
  apply List.NoDup_app_remove_r in ND as ND1.
  assert (Hk : In k (map fst (net_asset_assignments (found_in_column df)
                                (last_column df)))).
  { apply List.in_map_iff. exists (k, ov). split; [reflexivity | exact Hin]. }
  unfold net_asset_data.
  rewrite !store_change_other.
  - now apply assignments_lookup.
  - intros ->. apply (NoDup_app_disjoint _ _ _ ND Hk). vm_compute. auto.
  - intros ->. apply (NoDup_app_disjoint _ _ _ ND Hk). vm_compute. auto.
Qed.

Lemma fold_store_assigned (assignments : list (pystr * option float)) (k : pystr) :
  List.NoDup (map fst assignments) ->
  fold_left store assignments ∅ !! k = assigned assignments k.
Proof.
  intros ND. unfold assigned.
  destruct (List.find _ assignments) as [[k' ov]|] eqn:F.
  - apply List.find_some in F. destruct F as [Hin E]. cbn [fst snd] in *.
    unfold Str.eqb in E. apply bool_decide_eq_true_1 in E. subst k'.
    now apply assignments_lookup.
  - rewrite store_fold_other; [apply lookup_empty|].
    intros Hin. apply List.in_map_iff in Hin. destruct Hin as [[k' ov] [<- Hin]].
    assert (E := List.find_none _ _ F _ Hin). cbn [fst] in E.
    unfold Str.eqb in E. now rewrite bool_decide_eq_true_2 in E.
Qed.

Lemma balance_sheet_data_assigned (df : option DataFrame) (k : pystr) :
  balance_sheet_data df !! k
  = assigned (balance_sheet_assignments (found_in_column df)) k.
Proof. apply fold_store_assigned, balance_sheet_keys_NoDup. Qed.

Lemma income_statement_data_assigned (df : option DataFrame) (k : pystr) :
  income_statement_data df !! k
  = assigned (income_statement_assignments (found_in_column df)) k.
Proof. apply fold_store_assigned, income_statement_keys_NoDup. Qed.

Lemma net_asset_data_assigned (df : option DataFrame) (k : pystr) :
  k <> u "本期实收基金变动" -> k <> u "本期未分配利润变动" ->
  net_asset_data df !! k
  = assigned (net_asset_assignments (found_in_column df) (last_column df)) k.
Proof.
  intros H1 H2. unfold net_asset_data.
  rewrite !store_change_other by assumption.
  apply fold_store_assigned.
  exact (List.NoDup_app_remove_r _ _ (net_asset_keys_NoDup _ _)).
Qed.

Lemma update_from_data (sheets : gmap pystr (option DataFrame)) (sheet_name : pystr)
  (extract : option DataFrame -> py (gmap pystr float))
  (data_of : option DataFrame -> gmap pystr float)
  (financial_data : gmap pystr float) :
  (forall df, extract df = Return (data_of df)) ->
  update_from sheets sheet_name extract financial_data
  = Return (sheet_data sheets sheet_name data_of ∪ financial_data).
Proof.
  intros H. unfold update_from, sheet_data.
  destruct (sheets !! sheet_name) as [sheet|].
  - now rewrite H.
  - now rewrite (left_id ∅ (∪)).
Qed.

Lemma extract_financial_data_union (sheets : gmap pystr (option DataFrame)) :
  extract_financial_data sheets
  = Return (sheet_data sheets (u "净资产变动表") net_asset_data
            ∪ (sheet_data sheets (u "利润表") income_statement_data
               ∪ (sheet_data sheets (u "资产负债表") balance_sheet_data ∪ ∅))).
Proof.
  unfold extract_financial_data.
  rewrite (update_from_data _ _ _ _ _ extract_from_balance_sheet_data). cbn [bind].
  rewrite (update_from_data _ _ _ _ _ extract_from_income_statement_data). cbn [bind].
  apply (update_from_data _ _ _ _ _ extract_from_net_asset_changes_data).
Qed.

Lemma union_lookup_first (a b c : gmap pystr float) (k : pystr) :
  (a ∪ (b ∪ (c ∪ ∅))) !! k = first_of [a !! k; b !! k; c !! k].
Proof.
  rewrite !lookup_union, lookup_empty. unfold first_of.
  destruct (a !! k), (b !! k), (c !! k); reflexivity.
Qed.

Lemma workbook_sheets (balance_sheet income_statement net_assets : option DataFrame)
  (data_bs data_is data_na : option DataFrame -> gmap pystr float) :
  sheet_data (workbook balance_sheet income_statement net_assets)
    (u "资产负债表") data_bs = data_bs balance_sheet
  /\ sheet_data (workbook balance_sheet income_statement net_assets)
       (u "利润表") data_is = data_is income_statement
  /\ sheet_data (workbook balance_sheet income_statement net_assets)
       (u "净资产变动表") data_na = data_na net_assets.
Proof.
  unfold sheet_data, workbook. split; [|split].
  - now rewrite lookup_insert_eq.
  - rewrite lookup_insert_ne by (vm_compute; discriminate).
    now rewrite lookup_insert_eq.
  - rewrite !lookup_insert_ne by (vm_compute; discriminate).
    now rewrite lookup_singleton_eq.
Qed.

Ltac assigned_by_computation :=
  rewrite ?net_asset_data_assigned by (vm_compute; discriminate);
  rewrite ?balance_sheet_data_assigned, ?income_statement_data_assigned;
  repeat match goal with
    | |- context [found_in_column ?df] =>
      let f := fresh "value_of" in
      generalize (found_in_column df); intros f
    end;
  repeat match goal with
    | |- context [last_column ?df] =>
      let n := fresh "last" in
      generalize (last_column df); intros n
    end;
  vm_compute;
  repeat match goal with
    | |- context [match ?f ?l ?c with _ => _ end] => is_var f; destruct (f l c)
    end;
  reflexivity.

(** X12: [_extract_from_net_asset_changes] never raises.  The value
    found for an item in the last column is stored under its key and,
    for a key that starts with 本期, under the key without 本期; the
    opening and closing 实收基金 are read from the second column and
    the opening and closing 未分配利润 from the third column of the
    opening and closing rows; the change of each over the period is
    stored exactly when both its opening and closing values were
    found, as closing minus opening. *)
Theorem extract_from_net_asset_changes_keys (df : option DataFrame) :
  exists data,
    _extract_from_net_asset_changes df = Return data
    /\ List.Forall
         (fun entry =>
            data !! fst entry = found_in_column df (snd entry) (last_column df)
            /\ data !! Str.remove_sub (u "本期") (fst entry)
               = found_in_column df (snd entry) (last_column df))
         net_asset_items_to_extract
    /\ map (fun entry => Str.remove_sub (u "本期") (fst entry))
         net_asset_items_to_extract
       = [u "期初净资产"; u "期末净资产"; u "增减变动额"; u "综合收益总额";
          u "分配利润"]
    /\ List.Forall
         (fun entry =>
            data !! fst entry
            = found_in_column df (snd entry) (fund_column (fst entry)))
         fund_items
    /\ map (fun entry => fund_column (fst entry)) fund_items = [1; 1; 2; 2]%nat
    /\ data !! u "本期实收基金变动"
       = match data !! u "期初实收基金", data !! u "期末实收基金" with
         | Some start, Some stop => Some (stop - start)%float
         | _, _ => None
         end
    /\ data !! u "本期未分配利润变动"
       = match data !! u "期初未分配利润", data !! u "期末未分配利润" with
         | Some start, Some stop => Some (stop - start)%float
         | _, _ => None
         end.
Proof.
  exists (net_asset_data df).
  split; [apply extract_from_net_asset_changes_data|].
  split.
  { unfold net_asset_items_to_extract.
    repeat (apply List.Forall_cons;
            [cbn [fst snd]; apply conj; assigned_by_computation|]).
    apply List.Forall_nil. }
  split; [vm_compute; reflexivity|].
  split.
  { unfold fund_items.
    repeat (apply List.Forall_cons; [cbn [fst snd]; assigned_by_computation|]).
    apply List.Forall_nil. }
  split; [vm_compute; reflexivity|].
  assert (ND := net_asset_keys_NoDup (found_in_column df) (last_column df)).
  unfold net_asset_data.
  apply (store_changes_lookup
           (fold_left store
              (net_asset_assignments (found_in_column df) (last_column df)) ∅)
           (u "本期实收基金变动") (u "期末实收基金") (u "期初实收基金")
           (u "本期未分配利润变动") (u "期末未分配利润") (u "期初未分配利润")).
  1-9: (vm_compute; discriminate).
  all: (rewrite store_fold_other; [apply lookup_empty|];
        intros Hk; apply (NoDup_app_disjoint _ _ _ ND Hk); vm_compute; auto).
Qed.

(** X13: [extract_financial_data] never raises, and a key holds the
    value of the last sheet that wrote it: the statement of changes in
    net assets, else the income statement, else the balance sheet.  In
    a workbook with the three sheets this decides five keys: the
    opening and closing 实收基金 and 未分配利润 come from the second
    and third columns of the opening and closing rows of the statement
    of changes in net assets when these give a value, and only
    otherwise from the balance sheet; 综合收益总额 comes from the last
    column of that statement, else from the income statement. *)
Theorem extract_financial_data_precedence :
  (forall sheets,
     exists data,
       extract_financial_data sheets = Return data
       /\ forall k,
            data !! k
            = first_of
                [sheet_data sheets (u "净资产变动表") net_asset_data !! k;
                 sheet_data sheets (u "利润表") income_statement_data !! k;
                 sheet_data sheets (u "资产负债表") balance_sheet_data !! k])
  /\ (forall balance_sheet income_statement net_assets,
        exists data,
          extract_financial_data (workbook balance_sheet income_statement net_assets)
          = Return data
          /\ data !! u "期初实收基金"
             = first_of
                 [found_in_column net_assets
                    [u "二、本期期初净资产（基金净值）"; u "二、本期期初净资产"] 1;
                  found_in_column balance_sheet [u "实收基金"] 3]
          /\ data !! u "期末实收基金"
             = first_of
                 [found_in_column net_assets
                    [u "四、本期期末净资产（基金净值）"; u "四、本期期末净资产"] 1;
                  found_in_column balance_sheet [u "实收基金"] 2]
          /\ data !! u "期初未分配利润"
             = first_of
                 [found_in_column net_assets
                    [u "二、本期期初净资产（基金净值）"; u "二、本期期初净资产"] 2;
                  found_in_column balance_sheet [u "未分配利润"] 3]
          /\ data !! u "期末未分配利润"
             = first_of
                 [found_in_column net_assets
                    [u "四、本期期末净资产（基金净值）"; u "四、本期期末净资产"] 2;
                  found_in_column balance_sheet [u "未分配利润"] 2]
          /\ data !! u "综合收益总额"
             = first_of
                 [found_in_column net_assets
                    [u "（一）、综合收益总额"; u "综合收益总额"]
                    (last_column net_assets);
                  found_in_column income_statement
                    [u "六、综合收益总额"; u "综合收益总额"] 2]).
Proof.
  split.
  - intros sheets. eexists. split; [apply extract_financial_data_union|].
    intros k. apply union_lookup_first.
  - intros balance_sheet income_statement net_assets. eexists.
    split; [apply extract_financial_data_union|].
    destruct (workbook_sheets balance_sheet income_statement net_assets
                balance_sheet_data income_statement_data net_asset_data)
      as (-> & -> & ->).
    rewrite !union_lookup_first.
    repeat apply conj; assigned_by_computation.
Qed.

Lemma contribution_compared (tolerance : float)
  (current_year_data previous_year_data : gmap pystr float)
  (current_key previous_key item_name : pystr) (c p : option float) :
  current_year_data !! current_key = c ->
  previous_year_data !! previous_key = p ->
  consistency_contribution tolerance current_year_data previous_year_data
    (current_key, previous_key, item_name)
  = compared tolerance (item_name, c, p).
Proof. intros <- <-. reflexivity. Qed.

Lemma omap_cons_eq {A B C} (f : A -> option C) (g : B -> option C)
  (x : A) (y : B) (xs : list A) (ys : list B) :
  f x = g y -> omap f xs = omap g ys -> omap f (x :: xs) = omap g (y :: ys).
Proof. intros H1 H2. cbn. now rewrite H1, H2. Qed.

(** X14: on the data extracted from two workbooks with the three
    sheets, [validate_cross_year_consistency] compares, item by item,
    the fourth column of the current year's sheet with the third
    column of the previous year's sheet: of the balance sheet for
    资产总计, 负债合计 and 净资产合计, of the income statement for
    营业总收入 and 综合收益总额.  For 实收基金 and 未分配利润 the
    current side is the fourth column of the balance sheet and the
    previous side is the closing row of the previous year's statement
    of changes in net assets, and only without a value there the third
    column of the previous balance sheet.  An item is reported when
    both values are found. *)
Theorem cross_year_consistency_of_workbooks (tolerance : float)
  (balance_sheet income_statement net_assets : option DataFrame)
  (balance_sheet' income_statement' net_assets' : option DataFrame) :
  exists current_year_data previous_year_data,
    extract_financial_data (workbook balance_sheet income_statement net_assets)
    = Return current_year_data
    /\ extract_financial_data (workbook balance_sheet' income_statement' net_assets')
       = Return previous_year_data
    /\ validate_cross_year_consistency tolerance current_year_data previous_year_data
       = omap (compared tolerance)
           [ (u "资产总计",
              found_in_column balance_sheet [u "资产总计"; u "资产合计"] 3,
              found_in_column balance_sheet' [u "资产总计"; u "资产合计"] 2);
             (u "负债合计",
              found_in_column balance_sheet [u "负债合计"; u "负债总计"] 3,
              found_in_column balance_sheet' [u "负债合计"; u "负债总计"] 2);
             (u "净资产合计",
              found_in_column balance_sheet
                [u "净资产合计"; u "净资产："; u "净资产"] 3,
              found_in_column balance_sheet'
                [u "净资产合计"; u "净资产："; u "净资产"] 2);
             (u "营业总收入",
              found_in_column income_statement
                [u "一、营业总收入"; u "营业总收入"] 3,
              found_in_column income_statement'
                [u "一、营业总收入"; u "营业总收入"] 2);
             (u "综合收益总额",
              found_in_column income_statement
                [u "六、综合收益总额"; u "综合收益总额"] 3,
              found_in_column income_statement'
                [u "六、综合收益总额"; u "综合收益总额"] 2);
             (u "实收基金",
              found_in_column balance_sheet [u "实收基金"] 3,
              first_of
                [found_in_column net_assets'
                   [u "四、本期期末净资产（基金净值）"; u "四、本期期末净资产"] 1;
                 found_in_column balance_sheet' [u "实收基金"] 2]);
             (u "未分配利润",
              found_in_column balance_sheet [u "未分配利润"] 3,
              first_of
                [found_in_column net_assets'
                   [u "四、本期期末净资产（基金净值）"; u "四、本期期末净资产"] 2;
                 found_in_column balance_sheet' [u "未分配利润"] 2]) ].
Proof.
  do 2 eexists. split; [apply extract_financial_data_union|].
  split; [apply extract_financial_data_union|].
  rewrite validate_cross_year_consistency_omap. unfold cross_year_items.
  destruct (workbook_sheets balance_sheet income_statement net_assets
              balance_sheet_data income_statement_data net_asset_data)
    as (-> & -> & ->).
  destruct (workbook_sheets balance_sheet' income_statement' net_assets'
              balance_sheet_data income_statement_data net_asset_data)
    as (-> & -> & ->).
  repeat (apply omap_cons_eq;
          [apply contribution_compared; rewrite union_lookup_first;
           assigned_by_computation|]).
  reflexivity.
Qed.

(** With the sample sheets: total assets restated from 180 to 185 are
    reported as inconsistent, and the closing paid-in capital of the
    previous year is the 75 of the statement of changes in net assets,
    not the 70 of the balance sheet. *)
Example cross_year_consistency_of_sample_workbooks :
  match extract_financial_data (sample_workbook "200" "185"),
        extract_financial_data (sample_workbook "180" "150") with
  | Return current_year_data, Return previous_year_data =>
    map (fun r => (x_item r, x_current_year_comparable r,
                   x_previous_year_current r, x_is_pass r))
      (validate_cross_year_consistency 0.01 current_year_data previous_year_data)
    = [(u "资产总计", 185%float, 180%float, false);
       (u "营业总收入", 10%float, 12%float, false);
       (u "实收基金", 60%float, 75%float, false)]
  | _, _ => False
  end.
Proof. vm_compute. reflexivity. Qed.

End FinancialData.

(* ===================================================================== *)
(** * Urgency and recommended solutions *)
(* ===================================================================== *)

Section Urgency.

Import ValuationAIAnalyzer.

(** X15: the urgency that [_assess_urgency] gives does not go down
    when the absolute difference and the absolute percentage difference
    both grow or stay: from Low to Medium to High. *)
Theorem assess_urgency_monotone (diff_record diff_record' : ValuationDifference) :
  (abs (v_difference diff_record) <=? abs (v_difference diff_record'))%float = true ->
  (abs (v_difference_pct diff_record)
   <=? abs (v_difference_pct diff_record'))%float = true ->
  (severity_rank (_assess_urgency diff_record)
   <= severity_rank (_assess_urgency diff_record'))%nat.
Proof.
  intros Ha Hp. unfold _assess_urgency.
  destruct (gtb (abs (v_difference diff_record)) 100000) eqn:A1.
  { rewrite (gtb_leb_trans _ _ _ A1 Ha). simpl. clear. lia. }
  destruct (gtb (abs (v_difference_pct diff_record)) 1) eqn:P1.
  { rewrite (gtb_leb_trans _ _ _ P1 Hp), !orb_true_r. simpl. clear. lia. }
  cbn [orb].
  destruct (gtb (abs (v_difference diff_record)) 10000) eqn:A2.
  { rewrite (gtb_leb_trans _ _ _ A2 Ha). cbn [orb].
    destruct (_ || _); simpl; clear; lia. }
  destruct (gtb (abs (v_difference_pct diff_record)) 0.1) eqn:P2.
  { rewrite (gtb_leb_trans _ _ _ P2 Hp), !orb_true_r.
    destruct (_ || _); simpl; clear; lia. }
  simpl. clear. lia.
Qed.

Lemma assess_urgency_monotone_witness :
  (severity_rank (_assess_urgency (bond_difference 500 0.05))
   <= severity_rank (_assess_urgency (bond_difference (-20000) 0.05)))%nat.
Proof.
  apply assess_urgency_monotone; vm_compute; reflexivity.
Defined.

End Urgency.

Section Solutions.

Import ValuationAIAnalyzer.

Lemma keep_unseen_spec (solutions : list Solution) (seen : gset pystr)
  (unique_solutions : list Solution) :
  List.NoDup (map sol_solution unique_solutions) ->
  (forall s, In s unique_solutions -> sol_solution s ∈ seen) ->
  let result := keep_unseen solutions seen unique_solutions in
  List.NoDup (map sol_solution result)
  /\ (forall s, In s result -> In s unique_solutions \/ In s solutions)
  /\ (forall s, In s unique_solutions -> In s result)
  /\ (forall s, In s solutions -> sol_solution s ∈ seen
                                  \/ exists s', In s' result
                                                /\ sol_solution s' = sol_solution s)
  /\ (length result <= length unique_solutions + length solutions)%nat.
Proof.
  revert seen unique_solutions.
  induction solutions as [|sol rest IH]; intros seen acc ND Hseen; cbn [keep_unseen].
  - cbv zeta. repeat split; auto; [intros s []|lia].
  - case_bool_decide as E.
    + destruct (IH seen acc ND Hseen) as (R1 & R2 & R3 & R4 & R5). cbv zeta.
      split; [exact R1|]. split; [intros s Hs; destruct (R2 s Hs); [now left | right; now right]|].
      split; [exact R3|]. split.
      * intros s [<-|Hs]; [now left | now apply R4].
      * simpl. lia.
    + assert (ND' : List.NoDup (map sol_solution (acc ++ [sol]))).
      { rewrite List.map_app. apply List.NoDup_app; [exact ND | repeat constructor; intros []|].
        intros x Hx [<-|[]]. apply E. apply List.in_map_iff in Hx.
        destruct Hx as [s [<- Hs]]. now apply Hseen. }
      assert (Hseen' : forall s, In s (acc ++ [sol]) ->
                                 sol_solution s ∈ ({[sol_solution sol]} ∪ seen : gset pystr)).
      { intros s Hs. apply List.in_app_or in Hs. destruct Hs as [Hs|[<-|[]]].
        - apply elem_of_union_r. now apply Hseen.
        - apply elem_of_union_l. now apply elem_of_singleton. }
      destruct (IH _ _ ND' Hseen') as (R1 & R2 & R3 & R4 & R5). cbv zeta.
      split; [exact R1|]. split.
      { intros s Hs. destruct (R2 s Hs) as [H|H].
        - apply List.in_app_or in H. destruct H as [H|[<-|[]]];
            [now left | right; now left].
        - right. now right. }
      split; [intros s Hs; apply R3, List.in_or_app; now left|]. split.
      * intros s [<-|Hs].
        -- right. exists sol. split; [|reflexivity].
           apply R3, List.in_or_app. right. now left.
        -- destruct (R4 s Hs) as [H|H]; [|now right].
           apply elem_of_union in H. destruct H as [H|H]; [|now left].
           apply elem_of_singleton in H. right. exists sol. split; [|now symmetry].
           apply R3, List.in_or_app. right. now left.
      * rewrite List.length_app in R5. simpl in *. lia.
Qed.

Lemma firstn_in {A} (n : nat) (l : list A) (x : A) :
  In x (firstn n l) -> In x l.
Proof.
  intros H. rewrite <- (List.firstn_skipn n l). apply List.in_or_app. now left.
Qed.

Lemma rule_based_solutions_known (diff_record : ValuationDifference)
  (predicted_type : pystr) :
  List.Forall (fun s => In s rule_engine_solutions)
    (_get_rule_based_solutions diff_record predicted_type)
  /\ (length (_get_rule_based_solutions diff_record predicted_type) <= 3)%nat.
Proof.
  unfold _get_rule_based_solutions, rule_engine_solutions.
  destruct (Str.eqb predicted_type (u "价格差异"));
    [|destruct (Str.eqb predicted_type (u "应计利息差异"));
      [|destruct (Str.eqb predicted_type (u "汇率差异"))]];
    destruct (Str.eqb (v_asset_class diff_record) (u "Bond"));
    try destruct (Str.eqb (v_asset_class diff_record) (u "Equity"));
    cbv zeta; destruct (gtb _ 0.0001); destruct (gtb _ 0.01);
    cbn [app length]; (split; [|lia]);
    repeat (apply List.Forall_cons; [cbn [In]; tauto|]); apply List.Forall_nil.
Qed.

(** X16: when the success rates can be sorted (the sort returns a
    rearrangement in non-increasing order, as it does when no rate is
    NaN), [_recommend_solutions] returns at most five solutions, no two
    with the same text, in non-increasing order of success rate; each
    is the solution of one of the first three similar cases or one of
    the four solutions of the rule engine, of which
    [_get_rule_based_solutions] proposes at most three; and when at
    most five distinct texts are proposed, every proposed text is
    returned. *)
Theorem recommend_solutions_contract
  (sort_by_success_rate : list Solution -> list Solution)
  (diff_record : ValuationDifference) (similar_cases : list SimilarCase)
  (predicted_type : pystr) :
  let candidates := candidate_solutions diff_record similar_cases predicted_type in
  sort_by_success_rate_spec (keep_unseen candidates ∅ [])
    (sort_by_success_rate (keep_unseen candidates ∅ [])) ->
  let result :=
    _recommend_solutions sort_by_success_rate diff_record similar_cases
      predicted_type in
  (length result <= 5)%nat
  /\ List.NoDup (map sol_solution result)
  /\ descending sol_success_rate result
  /\ (forall s, In s result ->
        (exists case, In case (firstn 3 similar_cases) /\ s = case_solution case)
        \/ In s rule_engine_solutions)
  /\ (length (_get_rule_based_solutions diff_record predicted_type) <= 3)%nat
  /\ ((length (keep_unseen candidates ∅ []) <= 5)%nat ->
      forall s, In s candidates ->
                exists s', In s' result /\ sol_solution s' = sol_solution s).
Proof.
  intros candidates [Hperm Hsorted] result.
  destruct (keep_unseen_spec candidates ∅ [] (List.NoDup_nil _) (fun s H => match H with end))
    as (K1 & K2 & _ & K4 & _).
  cbv zeta in K1, K2, K4.
  assert (E : result = firstn 5 (sort_by_success_rate (keep_unseen candidates ∅ [])))
    by reflexivity.
  set (unique_solutions := keep_unseen candidates ∅ []) in *.
  assert (NDs : List.NoDup (map sol_solution (sort_by_success_rate unique_solutions))).
  { eapply Permutation_NoDup; [|exact K1].
    apply Permutation_map, Permutation_sym, Hperm. }
  rewrite E. split; [apply List.firstn_le_length|].
  split.
  { rewrite <- List.firstn_map.
    rewrite <- (List.firstn_skipn 5 (map sol_solution _)) in NDs.
    now apply List.NoDup_app_remove_r in NDs. }
  split; [now apply StronglySorted_firstn|].
  split.
  { intros s Hs. apply firstn_in in Hs.
    apply (Permutation_in _ Hperm) in Hs.
    destruct (K2 s Hs) as [[]|Hc]. unfold candidates, candidate_solutions in Hc.
    apply List.in_app_or in Hc. destruct Hc as [Hc|Hc].
    - left. apply List.in_map_iff in Hc. destruct Hc as [case [<- Hc]]. eauto.
    - right. destruct (rule_based_solutions_known diff_record predicted_type) as [F _].
      rewrite List.Forall_forall in F. now apply F. }
  split; [apply rule_based_solutions_known|].
  intros Hlen s Hs.
  destruct (K4 s Hs) as [H|(s' & Hs' & Heq)]; [now apply not_elem_of_empty in H|].
  exists s'. split; [|exact Heq].
  rewrite List.firstn_all2
    by (rewrite (Permutation_length Hperm); exact Hlen).
  apply (Permutation_in _ (Permutation_sym Hperm)), Hs'.
Qed.

Lemma recommend_solutions_contract_witness :
  let result :=
    _recommend_solutions (fun solutions => solutions)
      (bond_difference 500 0.05) [bond_price_case] (u "价格差异") in
  (length result <= 5)%nat
  /\ List.NoDup (map sol_solution result)
  /\ descending sol_success_rate result
  /\ (forall s, In s result ->
        (exists case, In case (firstn 3 [bond_price_case]) /\ s = case_solution case)
        \/ In s rule_engine_solutions)
  /\ (length (_get_rule_based_solutions (bond_difference 500 0.05) (u "价格差异"))
      <= 3)%nat
  /\ ((length (keep_unseen
                 (candidate_solutions (bond_difference 500 0.05) [bond_price_case]
                    (u "价格差异")) ∅ []) <= 5)%nat ->
      forall s, In s (candidate_solutions (bond_difference 500 0.05)
                        [bond_price_case] (u "价格差异")) ->
                exists s', In s' result /\ sol_solution s' = sol_solution s).
Proof.
  apply (recommend_solutions_contract (fun solutions => solutions)).
  split; [reflexivity|]. vm_compute. repeat constructor.
Defined.

(** The case and the rule engine give the same advice there: it is
    returned once, as the case's. *)
Example recommend_solutions_keeps_the_case :
  map sol_source
    (_recommend_solutions (fun solutions => solutions)
       (bond_difference 500 0.05) [bond_price_case] (u "价格差异"))
  = [u "历史案例 CASE007"].
Proof. vm_compute. reflexivity. Qed.

End Solutions.

(* ===================================================================== *)
(** * Settlement recommendations *)
(* ===================================================================== *)

Section SettlementRecommendations.

Import SettlementAIAnalyzer.

Variable format_1f : float -> pystr.

(** X17: [generate_recommendations] returns at most three
    recommendations, at most one for each analysis present, every one
    of priority High or Medium; those of priority High come first and
    those of priority Medium after them, each group in the order
    matching, duplicates, delay.  A match rate below 90 gives the High
    one and a match rate from 90 to below 95 the Medium one; a
    duplicate rate above 5, or else above 2, and a delay rate above 10,
    or else above 5, do the same; a missing rate counts as 0 and a
    missing analysis gives nothing. *)
Theorem generate_recommendations_order (analysis_results : AnalysisResults) :
  let result := generate_recommendations format_1f analysis_results in
  (length result <= 3)%nat
  /\ result = List.filter (has_priority "High") result
              ++ List.filter (has_priority "Medium") result
  /\ map category (List.filter (has_priority "High") result)
     = (match rate_of (match_status analysis_results) with
        | Some rate => if (rate <? 90)%float then [u "匹配问题"] else []
        | None => []
        end)
       ++ (match rate_of (duplicate_detection analysis_results) with
           | Some rate => if gtb rate 5 then [u "重复交易"] else []
           | None => []
           end)
       ++ (match rate_of (delay_prediction analysis_results) with
           | Some rate => if gtb rate 10 then [u "交收延迟"] else []
           | None => []
           end)
  /\ map category (List.filter (has_priority "Medium") result)
     = (match rate_of (match_status analysis_results) with
        | Some rate =>
          if negb (rate <? 90)%float && (rate <? 95)%float then [u "匹配优化"] else []
        | None => []
        end)
       ++ (match rate_of (duplicate_detection analysis_results) with
           | Some rate => if negb (gtb rate 5) && gtb rate 2 then [u "重复控制"] else []
           | None => []
           end)
       ++ (match rate_of (delay_prediction analysis_results) with
           | Some rate => if negb (gtb rate 10) && gtb rate 5 then [u "交收优化"] else []
           | None => []
           end).
Proof.
  destruct analysis_results as [m d p].
  unfold generate_recommendations, rate_of, option_map, gtb.
  cbn [match_status duplicate_detection delay_prediction].
  destruct m as [m|], d as [d|], p as [p|]; cbv beta iota zeta;
    try (generalize (default 0%float m); intros rm);
    try (generalize (default 0%float d); intros rd);
    try (generalize (default 0%float p); intros rp);
    repeat match goal with
      | |- context [(?a <? ?b)%float] => destruct (a <? b)%float
      end;
    vm_compute; repeat apply conj; try reflexivity; lia.
Qed.

(** X18: when the matching analysis is present without a match rate,
    which is what the analysis of an empty table gives, the rate counts
    as 0 and the first recommendation is the High-priority one on
    matching, whatever the other analyses say. *)
Theorem generate_recommendations_without_match_rate
  (analysis_results : AnalysisResults) :
  match_status analysis_results = Some None ->
  exists first others,
    generate_recommendations format_1f analysis_results = first :: others
    /\ priority first = u "High"
    /\ category first = u "匹配问题"
    /\ issue first = u "匹配率仅为 " ++ format_1f 0 ++ u "%，低于90%目标".
Proof.
  destruct analysis_results as [m d p]. cbn [match_status]. intros ->.
  unfold generate_recommendations, gtb.
  cbn [match_status duplicate_detection delay_prediction default].
  change (0 <? 90)%float with true. cbv beta iota zeta.
  destruct d as [d|], p as [p|]; cbv beta iota zeta;
    try (generalize (default 0%float d); intros rd);
    try (generalize (default 0%float p); intros rp);
    repeat match goal with
      | |- context [(?a <? ?b)%float] => destruct (a <? b)%float
      end;
    do 2 eexists; (split; [vm_compute; reflexivity|]);
    repeat apply conj; vm_compute; reflexivity.
Qed.

End SettlementRecommendations.

Lemma generate_recommendations_without_match_rate_witness :
  exists first others,
    SettlementAIAnalyzer.generate_recommendations (fun _ => u "0.0")
      empty_table_analysis = first :: others
    /\ SettlementAIAnalyzer.priority first = u "High"
    /\ SettlementAIAnalyzer.category first = u "匹配问题"
    /\ SettlementAIAnalyzer.issue first
       = u "匹配率仅为 " ++ u "0.0" ++ u "%，低于90%目标".
Proof.
  apply (generate_recommendations_without_match_rate (fun _ => u "0.0")
           empty_table_analysis).
  reflexivity.
Defined.

(* ===================================================================== *)
(** * Numbers followed by a unit *)
(* ===================================================================== *)

Section UnitSuffix.

Import DataValidator.

Lemma unit_text_cases (suffix : pystr) :
  is_unit_text suffix = true ->
  exists c rest,
    suffix = c :: rest
    /\ Str.digit_value c = None
    /\ (c =? PyFloat.dot)%N = false
    /\ (c =? PyFloat.underscore)%N = false
    /\ (c =? 101)%N = false /\ (c =? 69)%N = false
    /\ List.Forall (fun x => Str.isspace x = false) suffix
    /\ List.Forall (fun x => (x =? PyFloat.minus)%N = false) suffix
    /\ List.Forall (fun x => (x =? lparen)%N = false) suffix
    /\ List.Forall (fun x => (x =? rparen)%N = false) suffix.
Proof.
  unfold is_unit_text. destruct suffix as [|c rest]; [discriminate|].
  rewrite !andb_true_iff, !negb_true_iff, forallb_forall.
  intros [[[[[Hd Hdot] Hu] He] HE] Hall].
  exists c, rest. split; [reflexivity|].
  split; [unfold Str.isdigit in Hd; destruct (Str.digit_value c); [discriminate | reflexivity]|].
  repeat (split; [assumption|]).
  repeat split; apply List.Forall_forall; intros x Hx; specialize (Hall x Hx);
    unfold unit_char in Hall; rewrite !andb_true_iff, !negb_true_iff in Hall; tauto.
Qed.

Lemma re_search_prefix (cls : N -> bool) (c0 : N) (run : pystr) (c : N) (rest : pystr) :
  List.Forall (fun x => cls x = true) (c0 :: run) ->
  cls c = false ->
  Str.re_search_run cls ((c0 :: run) ++ c :: rest) = Some (c0 :: run).
Proof.
  intros H Hc. unfold Str.re_search_run.
  assert (Hdrop : Str.drop_while (fun x => negb (cls x)) ((c0 :: run) ++ c :: rest)
                  = (c0 :: run) ++ c :: rest).
  { inversion H as [|? ? H0 _]; subst. simpl. now rewrite H0. }
  rewrite Hdrop.
  assert (Htake : forall l, List.Forall (fun x => cls x = true) l ->
                            Str.take_while cls (l ++ c :: rest) = l).
  { induction 1 as [|x l Hx _ IH]; simpl; [now rewrite Hc | now rewrite Hx, IH]. }
  rewrite (Htake _ H). reflexivity.
Qed.

(** [float] rejects the text of a decimal followed by a unit. *)
Lemma float_decimal_unit (d : digit) (ip fp : list digit) (suffix : pystr) :
  is_unit_text suffix = true ->
  PyFloat.float (decimal_text (d :: ip) fp ++ suffix) = Raise ValueError.
Proof.
  intros Hu. destruct (unit_text_cases _ Hu)
    as (c & rest & -> & Hv & Hdot & Hund & He & HE & Hsp & _).
  pose proof (decimal_text_numeric (d :: ip) fp) as Hnum.
  unfold PyFloat.float.
  assert (Hfsp : List.Forall (fun x => PyFloat.isspace x = false)
                   (decimal_text (d :: ip) fp ++ c :: rest)).
  { apply List.Forall_app. split.
    - apply (forall_numeric _ _
               (fun x H => proj1 (proj2 (proj2 (numeric_char_facts x H)))) Hnum).
    - eapply List.Forall_impl; [|exact Hsp]. intros x Hx. unfold PyFloat.isspace.
      rewrite Hx, andb_false_r, orb_false_r. unfold Str.isspace in Hx.
      rewrite !orb_false_iff in Hx.
      destruct Hx as [[[[[[[[[[H1 H2] _] _] _] _] _] _] _] _] _].
      rewrite H1. cbn [orb].
      destruct (x =? 32)%N eqn:E32; [|reflexivity].
      apply N.eqb_eq in E32. subst x. discriminate H2. }
  rewrite (float_strip_nonspace _ Hfsp).
  destruct (decimal_text_head d ip fp) as [tail Hhead].
  assert (Hd : numeric_char (digit_char d)) by (left; now exists d).
  pose proof (numeric_char_facts _ Hd)
    as (_ & _ & _ & _ & _ & Hminus & Hplus & _ & _ & Hlow & Hi & Hn & _).
  assert (Hsign : PyFloat.sign (decimal_text (d :: ip) fp ++ c :: rest)
                  = (false, decimal_text (d :: ip) fp ++ c :: rest)).
  { rewrite Hhead. cbn [app]. unfold PyFloat.sign. now rewrite Hminus, Hplus. }
  rewrite Hsign.
  change (u "inf") with ([105; 110; 102]%N).
  change (u "infinity") with ([105; 110; 102; 105; 110; 105; 116; 121]%N).
  change (u "nan") with ([110; 97; 110]%N).
  rewrite Hhead. cbn [app map]. rewrite Hlow.
  rewrite !eqb_head_differs by assumption. cbn [orb].
  change (digit_char d :: tail ++ c :: rest)
    with ((digit_char d :: tail) ++ c :: rest).
  rewrite <- Hhead.
  assert (Hstop : digits_stop (c :: rest)) by (split; assumption).
  assert (Hnumber : PyFloat.number (decimal_text (d :: ip) fp ++ c :: rest)
                    = Some (map digit_N (d :: ip), map digit_N fp, c :: rest)).
  { unfold PyFloat.number, decimal_text. destruct fp as [|f fs].
    - rewrite List.app_nil_r. rewrite digitpart_text by exact Hstop.
      now rewrite Hdot.
    - rewrite <- List.app_assoc. rewrite digitpart_text by (split; reflexivity).
      cbn [app]. rewrite N.eqb_refl.
      rewrite digitpart_text by exact Hstop. reflexivity. }
  rewrite Hnumber. cbn [PyFloat.exponent]. now rewrite He, HE.
Qed.

Lemma formatted_unit_nonspace (form : decimal_form) (ip fp : list digit)
  (suffix : pystr) :
  List.Forall (fun x => Str.isspace x = false) suffix ->
  List.Forall (fun x => Str.isspace x = false) (formatted form ip fp ++ suffix).
Proof.
  intros H. apply List.Forall_app. split; [apply formatted_nonspace | exact H].
Qed.

Lemma formatted_unit_is_negative (form : decimal_form) (d : digit)
  (ip fp : list digit) (suffix : pystr) :
  Str.startswith (formatted form (d :: ip) fp ++ suffix) [PyFloat.minus]
  || Str.startswith (formatted form (d :: ip) fp ++ suffix) [lparen]
  = match form with Bare => false | _ => true end.
Proof.
  destruct form; cbn [formatted].
  - destruct (decimal_text_head d ip fp) as [rest ->]. cbn [app].
    rewrite !startswith_head. now destruct d.
  - cbn [app]. now rewrite !startswith_head.
  - cbn [app]. now rewrite !startswith_head.
Qed.

Lemma formatted_unit_unsigned (form : decimal_form) (ip fp : list digit)
  (suffix : pystr) :
  form <> Bare ->
  List.Forall (fun x => (x =? PyFloat.minus)%N = false) suffix ->
  List.Forall (fun x => (x =? lparen)%N = false) suffix ->
  List.Forall (fun x => (x =? rparen)%N = false) suffix ->
  Str.remove_char rparen
    (Str.remove_char lparen
       (Str.remove_char PyFloat.minus (formatted form ip fp ++ suffix)))
  = decimal_text ip fp ++ suffix.
Proof.
  intros Hf Hm Hl Hr. rewrite !remove_char_app.
  rewrite (formatted_unsigned form ip fp Hf).
  now rewrite (remove_char_keeps _ _ Hm), (remove_char_keeps _ _ Hl),
    (remove_char_keeps _ _ Hr).
Qed.

Lemma formatted_unit_not_null (form : decimal_form) (d : digit) (ip fp : list digit)
  (suffix s : pystr) :
  suffix <> [] ->
  In s [u ""; u "None"; u "nan"; u "-"; u "NaN"] ->
  formatted form (d :: ip) fp ++ suffix <> s.
Proof.
  intros Hne Hs Heq.
  destruct (decimal_text_head d ip fp) as [rest Hhead].
  destruct suffix as [|c suffix]; [congruence|].
  destruct form; cbn [formatted] in Heq; rewrite Hhead in Heq; cbn [app] in Heq;
    simpl in Hs;
    destruct Hs as [<- | [<- | [<- | [<- | [<- | []]]]]];
    try discriminate Heq; destruct d; discriminate Heq.
Qed.

(** X19: a cell that holds a decimal followed by a unit (as in 100元
    or 5.5%), in any of the three forms of the decimal and with
    thousands separators or spaces anywhere, is read by
    [DataValidator._parse_number] as the value of the decimal, the
    unit being ignored, and by
    [FinancialReconciliation._parse_number] as no value. *)
Theorem parse_number_with_unit (form : decimal_form) (d : digit)
  (ip fp : list digit) (suffix s : pystr) :
  clean s = formatted form (d :: ip) fp ++ suffix ->
  is_unit_text suffix = true ->
  _parse_number s = Return (Some (formatted_value form (d :: ip) fp))
  /\ FinancialReconciliation._parse_number s = Return None.
Proof.
  intros Hs Hu.
  destruct (unit_text_cases _ Hu)
    as (c & rest & Hsuffix & Hv & Hdot & Hund & He & HE & Hsp & Hm & Hl & Hr).
  assert (Hne : suffix <> []) by (rewrite Hsuffix; discriminate).
  assert (Hcls : digit_or_dot c = false).
  { unfold digit_or_dot, Str.isdigit. now rewrite Hv, Hdot. }
  assert (Hrun : Str.re_search_run digit_or_dot (decimal_text (d :: ip) fp ++ suffix)
                 = Some (decimal_text (d :: ip) fp)).
  { destruct (decimal_text_head d ip fp) as [tail Hhead].
    pose proof (decimal_text_numeric (d :: ip) fp) as Hnum.
    rewrite Hsuffix, Hhead in *. apply re_search_prefix; [|exact Hcls].
    apply (forall_numeric _ _ (fun x H => proj1 (numeric_char_facts x H)) Hnum). }
  split.
  - rewrite <- dv_parse_number_clean, dv_parse_number_unfold.
    rewrite clean_idempotent, Hs.
    destruct (dv_null (formatted form (d :: ip) fp ++ suffix)) eqn:Hnull.
    { exfalso. apply dv_null_cases in Hnull.
      apply (formatted_unit_not_null form d ip fp suffix
               (formatted form (d :: ip) fp ++ suffix) Hne); [|reflexivity].
      simpl. destruct Hnull as [H | [H | [H | H]]]; rewrite H; auto 10. }
    unfold dv_tail. cbv zeta.
    rewrite (strip_nonspace _ (formatted_unit_nonspace form (d :: ip) fp suffix Hsp)).
    rewrite formatted_unit_is_negative.
    destruct form; cbn [formatted_value].
    + cbn [formatted]. rewrite Hrun, float_decimal. reflexivity.
    + rewrite formatted_unit_unsigned by (assumption || discriminate).
      rewrite Hrun, float_decimal. reflexivity.
    + rewrite formatted_unit_unsigned by (assumption || discriminate).
      rewrite Hrun, float_decimal. reflexivity.
  - change (FinancialReconciliation._parse_number s)
      with (if fr_null s then Return None else fr_tail (clean s)).
    destruct (fr_null s) eqn:Hnull; [reflexivity|].
    rewrite Hs. unfold fr_tail. cbv zeta.
    rewrite (strip_nonspace _ (formatted_unit_nonspace form (d :: ip) fp suffix Hsp)).
    rewrite formatted_unit_is_negative.
    destruct form.
    + cbn [formatted]. now rewrite (float_decimal_unit d ip fp suffix Hu).
    + rewrite formatted_unit_unsigned by (assumption || discriminate).
      now rewrite (float_decimal_unit d ip fp suffix Hu).
    + rewrite formatted_unit_unsigned by (assumption || discriminate).
      now rewrite (float_decimal_unit d ip fp suffix Hu).
Qed.

Lemma parse_number_with_unit_witness :
  _parse_number (u "1,234.5元") = Return (Some 1234.5%float)
  /\ FinancialReconciliation._parse_number (u "1,234.5元") = Return None.
Proof.
  apply (parse_number_with_unit Bare D1 [D2; D3; D4] [D5] (u "元") (u "1,234.5元"));
    vm_compute; reflexivity.
Defined.

End UnitSuffix.

(* ===================================================================== *)
(** * Labels at the edges *)
(* ===================================================================== *)

Section EdgeLabels.

Import ReconciliationRules DataValidator.

Lemma find_matching_items_label_matches (main_item : pystr) (note_items : list pystr) :
  find_matching_items main_item note_items
  = List.filter (label_matches main_item) note_items.
Proof.
  unfold find_matching_items. rewrite fold_append_filter. simpl.
  apply List.filter_ext. intros label.
  now rewrite some_synonym_matches_existsb, synonyms_for_aliases.
Qed.

Lemma contains_refl (s : pystr) : Str.contains s s = true.
Proof. apply contains_spec. exists [], []. now rewrite List.app_nil_r. Qed.

Lemma contains_empty (s : pystr) : Str.contains s [] = true.
Proof. apply contains_spec. exists [], s. reflexivity. Qed.

Lemma aliases_not_empty (item : pystr) : aliases item <> [].
Proof.
  rewrite <- synonyms_for_aliases. unfold synonyms_for.
  destruct (is_empty (if is_empty _ then _ else _)) eqn:E; [discriminate|].
  intros H. now rewrite H in E.
Qed.

Lemma registered_items_complete (item : pystr) :
  is_Some (registered_synonyms !! item) <-> In item registered_items.
Proof.
  unfold registered_synonyms. rewrite lookup_union_is_Some. split.
  - intros [[l H]|[l H]]; apply elem_of_list_to_map_2 in H;
      repeat (apply elem_of_cons in H; destruct H as [[= -> _] | H];
              [vm_compute; tauto|]);
      now apply elem_of_nil in H.
  - intros H. unfold registered_items in H. cbn [In] in H.
    repeat (destruct H as [<-|H]; [vm_compute; eauto|]). destruct H.
Qed.

(** X20: [find_matching_items] keeps a note label equal to the main
    item for every main item except 资产总计 and 负债总计: an item
    without registered synonyms is its own alias, and of the fifteen
    registered items these two are the only ones none of whose
    synonyms contains the item or is contained in it. *)
Theorem find_matching_items_own_label (main_item : pystr) (note_items : list pystr) :
  In main_item (find_matching_items main_item note_items)
  <-> In main_item note_items
      /\ main_item <> u "资产总计" /\ main_item <> u "负债总计".
Proof.
  rewrite find_matching_items_label_matches, List.filter_In.
  assert (H : label_matches main_item main_item = true
              <-> main_item <> u "资产总计" /\ main_item <> u "负债总计").
  { destruct (registered_synonyms !! main_item) as [l|] eqn:R.
    - assert (Hin : In main_item registered_items)
        by (apply registered_items_complete; eauto).
      clear R. unfold registered_items in Hin. cbn [In] in Hin.
      repeat (destruct Hin as [<-|Hin];
              [vm_compute; split; [intros; split; discriminate | tauto || (intros [? ?]; congruence)]|]).
      destruct Hin.
    - unfold label_matches, aliases. rewrite R. cbn [existsb].
      rewrite contains_refl. cbn [orb]. split; [intros _|reflexivity].
      split; intros ->; vm_compute in R; discriminate R. }
  rewrite H. reflexivity.
Qed.

(** X21: an empty note label is matched with every main item by
    [find_matching_items], and [_extract_value] with an empty item name
    returns the first value found in the table, whatever the labels
    of its rows are. *)
Theorem empty_label_matches_everything :
  (forall main_item note_items,
     In [] note_items -> In [] (find_matching_items main_item note_items))
  /\ (forall table,
        _extract_value table []
        = Return (if table_is_blank table then None
                  else head (omap row_value (table_rows table)))).
Proof.
  split.
  - intros main_item note_items Hin.
    rewrite find_matching_items_label_matches. apply List.filter_In.
    split; [exact Hin|]. unfold label_matches.
    destruct (aliases main_item) as [|a l] eqn:A; [now apply aliases_not_empty in A|].
    cbn [existsb]. now rewrite contains_empty, orb_true_r.
  - intros table. rewrite extract_value_extracted. unfold extracted.
    destruct (table_is_blank table); [reflexivity|]. do 3 f_equal.
    induction (table_rows table) as [|row rows IH]; [reflexivity|].
    cbn [List.filter]. unfold label_contains at 1. rewrite contains_empty.
    now rewrite IH.
Qed.

End EdgeLabels.

(* ===================================================================== *)
(** * Tolerance *)
(* ===================================================================== *)

Section Tolerance.

Import DataValidator.

Lemma SF_le_lt_trans (a b c : spec_float) :
  SFleb a b = true -> SFltb b c = true -> SFltb a c = true.
Proof.
  unfold SFltb, SFleb.
  destruct a as [sa | sa | | sa ma ea], b as [sb | sb | | sb mb eb],
    c as [sc | sc | | sc mc ec]; simpl;
    try discriminate; try reflexivity;
    repeat match goal with s : bool |- _ => destruct s end;
    simpl; try discriminate; try reflexivity.
  all: change (Pos.compare_cont Eq) with Pos.compare.
  all: destruct (Z.compare_spec ea eb); destruct (Z.compare_spec eb ec);
       destruct (Z.compare_spec ea ec); subst; try lia; simpl;
       try discriminate; try reflexivity.
  all: destruct (Pos.compare_spec ma mb); destruct (Pos.compare_spec mb mc);
       destruct (Pos.compare_spec ma mc); subst; try lia; simpl;
       try discriminate; try reflexivity.
Qed.

(** A gap above a tolerance is above every smaller tolerance. *)
Lemma gtb_smaller_tolerance (tolerance tolerance' diff : float) :
  (tolerance <=? tolerance')%float = true ->
  gtb diff tolerance' = true -> gtb diff tolerance = true.
Proof. unfold gtb. rewrite !ltb_spec, leb_spec. apply SF_le_lt_trans. Qed.

Lemma incl_flat_map {A B} (f g : A -> list B) (l : list A) :
  (forall x, incl (f x) (g x)) -> incl (flat_map f l) (flat_map g l).
Proof.
  intros H y Hy. apply List.in_flat_map in Hy. destruct Hy as [x [Hx Hy]].
  apply List.in_flat_map. exists x. split; [exact Hx | now apply H].
Qed.

Lemma pair_step_smaller_tolerance (tolerance tolerance' : float)
  (main_name note_name : option pystr) (main_item note_item : pystr)
  (m n : option float) :
  (tolerance <=? tolerance')%float = true ->
  incl (pair_step tolerance' main_name note_name main_item note_item m n)
       (pair_step tolerance main_name note_name main_item note_item m n).
Proof.
  intros Hle r. unfold pair_step.
  destruct m as [m|]; [|intros []]. destruct n as [n|]; [|intros []].
  destruct (gtb _ tolerance') eqn:G; [|intros []].
  rewrite (gtb_smaller_tolerance _ _ _ Hle G). intros [<-|[]]. now left.
Qed.

Lemma summation_step_smaller_tolerance (tolerance tolerance' : float)
  (table : option DataFrame) (rule : pystr * list pystr) :
  (tolerance <=? tolerance')%float = true ->
  incl (summation_step tolerance' table rule) (summation_step tolerance table rule).
Proof.
  intros Hle r. unfold summation_step.
  destruct (extracted table (fst rule)) as [total_value|]; [|intros []].
  destruct (omap (extracted table) (snd rule)) as [|v vs]; [intros []|].
  destruct (gtb _ tolerance') eqn:G; [|intros []].
  rewrite (gtb_smaller_tolerance _ _ _ Hle G). intros [<-|[]]. now left.
Qed.

(** X22: lowering the tolerance never loses a difference: what
    [validate_reconciliation], [_reconcile_tables] and
    [validate_summation] report under a tolerance, they also report,
    with the same record, under every smaller tolerance. *)
Theorem smaller_tolerance_reports_more (tolerance tolerance' : float) :
  (tolerance <=? tolerance')%float = true ->
  (forall main_table note_table mapping,
     incl (differences_of
             (validate_reconciliation tolerance' main_table note_table mapping))
          (differences_of
             (validate_reconciliation tolerance main_table note_table mapping)))
  /\ (forall main_table note_table main_name note_name,
        incl (differences_of
                (_reconcile_tables tolerance' main_table note_table
                   main_name note_name))
             (differences_of
                (_reconcile_tables tolerance main_table note_table
                   main_name note_name)))
  /\ (forall table summation_rules,
        incl (differences_of (validate_summation tolerance' table summation_rules))
             (differences_of (validate_summation tolerance table summation_rules))).
Proof.
  intros Hle. split; [|split].
  - intros main_table note_table mapping.
    rewrite !validate_reconciliation_steps. cbn [differences_of].
    apply incl_flat_map. intros p. now apply pair_step_smaller_tolerance.
  - intros main_table note_table main_name note_name.
    rewrite !reconcile_tables_steps. cbn [differences_of].
    destruct (table_is_blank main_table); [apply incl_refl|].
    apply incl_flat_map. intros main_item. unfold item_step.
    destruct (blank_label main_item); [apply incl_refl|].
    apply incl_flat_map. intros note_item. now apply pair_step_smaller_tolerance.
  - intros table summation_rules.
    rewrite !validate_summation_steps. cbn [differences_of].
    apply incl_flat_map. intros rule. now apply summation_step_smaller_tolerance.
Qed.

Lemma smaller_tolerance_reports_more_witness :
  incl (differences_of
          (_reconcile_tables 5 cash_main cash_note (u "资产负债表主表")
             (u "货币资金附注")))
       (differences_of
          (_reconcile_tables 2 cash_main cash_note (u "资产负债表主表")
             (u "货币资金附注"))).
Proof.
  apply (smaller_tolerance_reports_more 2 5). reflexivity.
Defined.

End Tolerance.

(* ===================================================================== *)
(** * Groups of duplicates *)
(* ===================================================================== *)

Section DuplicateGroups.

Import SettlementAIAnalyzer.

Lemma account_groups_members (hash : pystr -> Z)
  (fit_labels : list (list float) -> list Z) (account : pystr)
  (account_trades : list Trade) (g : DuplicateGroup) :
  In g (account_groups hash fit_labels account account_trades) ->
  g_account g = account
  /\ g_count g = length (g_indices g)
  /\ (2 <= g_count g)%nat
  /\ (forall i, In i (g_indices g) -> exists row, In row account_trades /\ index row = i).
Proof.
  unfold account_groups. destruct (length account_trades <? 2)%nat; [intros []|].
  intros H. apply List.in_flat_map in H. destruct H as [label [_ H]].
  destruct (label =? -1)%Z; [destruct H|].
  destruct (2 <=? length _)%nat eqn:L; [|destruct H].
  destruct H as [<-|[]]. cbn [g_account g_count g_indices].
  split; [reflexivity|]. split; [reflexivity|].
  split; [now apply Nat.leb_le in L|].
  intros i Hi. apply List.in_map_iff in Hi. destruct Hi as [[i' l] [<- Hi]].
  apply List.filter_In in Hi. destruct Hi as [Hi _].
  apply List.in_combine_l in Hi. apply List.in_map_iff in Hi.
  destruct Hi as [row [<- Hrow]]. now exists row.
Qed.

(** X23: [detect_duplicates] returns the empty dict for an empty
    table.  Otherwise, whatever the clustering is, every group it
    reports belongs to one account, counts its own indices, has at
    least two of them, and holds only index labels of trades of that
    account: trades of different accounts are never grouped.  The
    marked duplicates are the trades marked Y and are not more than the
    trades. *)
Theorem detect_duplicates_groups (hash : pystr -> Z)
  (fit_labels : list (list float) -> list Z) (trades_df : list Trade) :
  detect_duplicates hash fit_labels [] = None
  /\ (trades_df <> [] ->
      exists d,
        detect_duplicates hash fit_labels trades_df = Some d
        /\ total d = length trades_df
        /\ marked_duplicates d = length (duplicate_trades d)
        /\ duplicate_trades d = List.filter is_marked trades_df
        /\ (marked_duplicates d <= total d)%nat
        /\ List.Forall
             (fun g =>
                g_count g = length (g_indices g)
                /\ (2 <= g_count g)%nat
                /\ forall i, In i (g_indices g) ->
                     exists row, In row trades_df /\ index row = i
                                 /\ Account row = g_account g)
             (duplicate_groups d)).
Proof.
  split; [reflexivity|]. intros Hne.
  destruct trades_df as [|row0 rest] eqn:E; [congruence|]. rewrite <- E in *.
  eexists. split; [rewrite E at 1; unfold detect_duplicates; rewrite <- E; reflexivity|].
  cbn [total marked_duplicates duplicate_trades duplicate_groups].
  split; [reflexivity|]. split; [reflexivity|]. split; [reflexivity|].
  split; [apply List.filter_length_le|].
  apply List.Forall_forall. intros g Hg.
  apply List.in_flat_map in Hg. destruct Hg as [account [_ Hg]].
  apply account_groups_members in Hg. destruct Hg as (Ha & Hc & H2 & Hi).
  split; [exact Hc|]. split; [exact H2|].
  intros i Hin. destruct (Hi i Hin) as [row [Hrow Hidx]].
  apply List.filter_In in Hrow. destruct Hrow as [Hrow Hacc].
  exists row. split; [exact Hrow|]. split; [exact Hidx|].
  unfold Str.eqb in Hacc. apply bool_decide_eq_true_1 in Hacc. congruence.
Qed.

End DuplicateGroups.
